(** * Adherence scheduling engine of the IBD health tracker (src/app.js)

    A shallow embedding of the due-date calculus ([isMedicationDueToday]),
    the travel dose calculator ([calculateDosesNeeded] and the effect of
    [TravelModePage] that uses it) and the reminder scheduler of
    [MedicationReminders] (the [todaysMeds] memo, the scheduling effect,
    its timer callbacks, [handleMarkTaken] and the rendering of a slot),
    of the medication forms ([MedicationFormFields] and the guards of the
    two submit handlers), of the symptom form of [LogPage] and of the
    selection of logs in [DoctorModePage], followed by the properties
    established for them.

    Conventions of the embedding.
    - A JavaScript [Date] is its time value: a [Z] counting milliseconds
      since the epoch.  All the quotients taken by the source divide an
      integer number of milliseconds by 86400000; inside the range of
      [Date] the double-precision quotient has the same floor and ceiling
      as the exact one, so they are written with integer division.
    - The host's local time zone is the class [HostClock]; the scheduler
      is verified for an arbitrary host, [utcHost] is the instance used to
      run the definitions, and [zoneHost] is a host at a fixed offset from
      UTC, on which the calendar properties are stated.
    - [toISOString().slice(0, 10)] is the UTC calendar date.  It is
      represented by the day number [t / 86400000], of which the ISO text is
      an injective rendering; the keys [takenMeds_<date>] of [localStorage]
      and [general_<id>_<date>] of the in-memory marker are keyed by that
      number.
    - A JavaScript object used as a dictionary is a [gmap].  Where a key is
      free text (the name of a supplement), the assignment under the key
      [__proto__], which adds no entry to the object, is written out
      ([assignEntry]).  The slot keys [<id>_<time>] end in the text of a
      time input and are no name that [Object.prototype] has.
    - The timers of the runtime are part of the state: [setTimeout] adds a
      pending timer under a fresh handle, [clearTimeout] removes it, and
      the runtime may run a pending timer once it is due.  The table
      [notificationTimers.current] only records handles; a timer whose
      handle the table has lost is still pending.
    - The synchronous code of one event reads the clock as one instant.
    - The platform has the [Notification] interface; its permission is an
      input of every event.
    - Start dates and travel dates are valid dates, and clock-times are the
      texts of a time input. *)

From Stdlib Require Import ZArith Lia.
From stdpp Require Import base option list strings gmap.

Local Open Scope Z_scope.
Set Warnings "-clear-no-such-hyp".

(** ** Time *)

Definition msPerMinute : Z := 60 * 1000.
Definition msPerHour : Z := 60 * 60 * 1000.
Definition msPerDay : Z := 1000 * 60 * 60 * 24.

(** The local-time methods of [Date] that the source calls.
    [setHours t h m] is the time value of [t] after
    [t.setHours(h, m, 0, 0)]; [getDay t] is [t.getDay()]. *)
Class HostClock := {
  setHours : Z -> Z -> Z -> Z;
  getDay : Z -> Z
}.

(** A host whose local time is UTC. 1970-01-01 was a Thursday. *)
Definition utcSetHours (t h m : Z) : Z :=
  t - t mod msPerDay + h * msPerHour + m * msPerMinute.

Definition utcGetDay (t : Z) : Z := (t / msPerDay + 4) mod 7.

Definition utcHost : HostClock :=
  {| setHours := utcSetHours; getDay := utcGetDay |}.

(** [new Date().toISOString().slice(0, 10)] *)
Definition todayKeyOf (now : Z) : Z := now / msPerDay.

(** [Math.ceil(a / b)] for integers [a] and [b > 0]. *)
Definition ceilDiv (a b : Z) : Z := - ((- a) / b).

(** ** Medication records *)

(** The fields of a medication document that the engine reads.
    [startDate] is the time value of [new Date(med.startDate)], [None]
    when the field is empty or missing; [frequency] is the empty string
    when missing; [medTimes] is empty when missing. *)
Record Medication := {
  id : string;
  name : string;
  frequency : string;
  medTimes : list string;
  startDate : option Z;
  isPrimary : bool
}.

(** ** Console output *)

(** A computation that may write warnings to the console. *)
Definition Console (A : Type) : Type := (list string * A)%type.

Definition creturn {A} (a : A) : Console A := ([], a).

Definition cbind {A B} (c : Console A) (k : A -> Console B) : Console B :=
  let (w1, a) := c in let (w2, b) := k a in (w1 ++ w2, b).

Definition consoleWarn (msg : string) : Console unit := ([msg], tt).

Notation "c1 ;;; c2" := (cbind c1 (fun _ => c2))
  (at level 100, right associativity).

Definition warnings {A} (c : Console A) : list string := fst c.
Definition result {A} (c : Console A) : A := snd c.

(** ** Frequency calculus: [isMedicationDueToday] *)

Definition dquote : string := String (Ascii.ascii_of_nat 34) EmptyString.

Definition missingStartDateWarning (medName : string) : string :=
  "Medication " +:+ dquote +:+ medName +:+ dquote +:+
  " has a recurring frequency but no start date. Cannot determine if due today.".

Definition requiresStartDate (freq : string) : bool :=
  existsb (String.eqb freq)
    ["Every other day"; "Weekly"; "Bi-weekly"; "Every three days"; "Every four days"].

Section FrequencyCalculus.
Context {host : HostClock}.

(** [Math.floor((todayDate.getTime() - startDate.getTime()) / (1000*60*60*24))]
    after both dates were normalised with [setHours(0, 0, 0, 0)]. *)
Definition diffDays (todayDate startDate : Z) : Z :=
  (setHours todayDate 0 0 - setHours startDate 0 0) / msPerDay.

(** The [switch] of [isMedicationDueToday]; [%] is the truncating
    remainder [Z.rem]. *)
Definition dueByFrequency (freq : string) (startDate : option Z) (todayDate : Z) : bool :=
  if (freq =? "Once daily")%string || (freq =? "Twice daily")%string
     || (freq =? "Three times daily")%string then true
  else if (freq =? "Every other day")%string then
    match startDate with
    | None => false
    | Some sd =>
        let diffDaysEveryOther := diffDays todayDate sd in
        (0 <=? diffDaysEveryOther) && (Z.rem diffDaysEveryOther 2 =? 0)
    end
  else if (freq =? "Every three days")%string then
    match startDate with
    | None => false
    | Some sd =>
        let diffDaysEveryThree := diffDays todayDate sd in
        (0 <=? diffDaysEveryThree) && (Z.rem diffDaysEveryThree 3 =? 0)
    end
  else if (freq =? "Every four days")%string then
    match startDate with
    | None => false
    | Some sd =>
        let diffDaysEveryFour := diffDays todayDate sd in
        (0 <=? diffDaysEveryFour) && (Z.rem diffDaysEveryFour 4 =? 0)
    end
  else if (freq =? "Weekly")%string then
    match startDate with
    | None => false
    | Some sd => getDay (setHours todayDate 0 0) =? getDay (setHours sd 0 0)
    end
  else if (freq =? "Bi-weekly")%string then
    match startDate with
    | None => false
    | Some sd =>
        let diffDaysBiWeekly := diffDays todayDate sd in
        (getDay (setHours todayDate 0 0) =? getDay (setHours sd 0 0))
        && (Z.rem (diffDaysBiWeekly / 7) 2 =? 0)
    end
  else false.

(** [isMedicationDueToday(med, todayDate)].  The argument is a record, so
    the guard [!med] of the source cannot fire; [!med.frequency] is the
    test for the empty string. *)
Definition isMedicationDueToday (med : Medication) (todayDate : Z) : Console bool :=
  if (frequency med =? "")%string then creturn false
  else if (frequency med =? "As needed")%string then creturn false
  else if requiresStartDate (frequency med) && negb (bool_decide (is_Some (startDate med))) then
    consoleWarn (missingStartDateWarning (name med)) ;;; creturn false
  else creturn (dueByFrequency (frequency med) (startDate med) todayDate).

(** The boolean answer alone. *)
Definition isDue (med : Medication) (queryDate : Z) : bool :=
  result (isMedicationDueToday med queryDate).

End FrequencyCalculus.

(** ** Dose requirement calculator: [calculateDosesNeeded] *)

(** [!durationDays] holds exactly for [0] on integers. *)
Definition calculateDosesNeeded (freq : string) (durationDays : Z) : Z :=
  if (freq =? "")%string || (durationDays =? 0) then 0
  else if (freq =? "Once daily")%string then durationDays
  else if (freq =? "Twice daily")%string then durationDays * 2
  else if (freq =? "Three times daily")%string then durationDays * 3
  else if (freq =? "Every other day")%string then ceilDiv durationDays 2
  else if (freq =? "Every three days")%string then ceilDiv durationDays 3
  else if (freq =? "Every four days")%string then ceilDiv durationDays 4
  else if (freq =? "Weekly")%string then ceilDiv durationDays 7
  else if (freq =? "Bi-weekly")%string then ceilDiv durationDays 14
  else 0.

(** ** Travel provisioning: the dose effect of [TravelModePage] *)

(** [durationDays] of a trip, from the time values of the two dates. *)
Definition tripDurationDays (dep ret : Z) : Z :=
  let diffTime := Z.abs (ret - dep) in
  ceilDiv diffTime msPerDay + 1.

(** The [extraDoses] added for the main medication. *)
Definition extraDoses (durationDays : Z) : Z :=
  if durationDays <? 14 then 2
  else if durationDays <=? 30 then 3
  else 4.

Definition primaryDoses (mainIbdMed : option Medication) (durationDays : Z) : Z :=
  match mainIbdMed with
  | Some m => calculateDosesNeeded (frequency m) durationDays + extraDoses durationDays
  | None => 0
  end.

(** The assignment [obj[key] = value] of a number on an object that was
    created by the literal [{}].  Under the key [__proto__] the assignment
    reaches the setter that [Object.prototype] has for that name, which
    ignores a value that is neither an object nor [null]: no entry is made.
    Under every other key the object gets, or updates, an entry of its
    own. *)
Definition assignEntry (key : string) (value : Z) (obj : gmap string Z) : gmap string Z :=
  if (key =? "__proto__")%string then obj else <[key := value]> obj.

(** [supplements.forEach(sup => calculatedSupplements[sup.name] = ...)] *)
Definition supplementDoses (supplements : list Medication) (durationDays : Z)
  : gmap string Z :=
  fold_left
    (fun calculatedSupplements sup =>
       assignEntry (name sup) (calculateDosesNeeded (frequency sup) durationDays)
         calculatedSupplements)
    supplements ∅.

Record PackingList := {
  primaryMedNeeded : Z;
  supplementsNeeded : gmap string Z
}.

(** The effect on [departureDate], [returnDate], [supplements] and
    [mainIbdMed]; a date is [None] while its input is empty. *)
Definition travelDoses (departureDate returnDate : option Z)
  (mainIbdMed : option Medication) (supplements : list Medication) : PackingList :=
  match departureDate, returnDate with
  | Some dep, Some ret =>
      let durationDays := tripDurationDays dep ret in
      {| primaryMedNeeded := primaryDoses mainIbdMed durationDays;
         supplementsNeeded := supplementDoses supplements durationDays |}
  | _, _ => {| primaryMedNeeded := 0; supplementsNeeded := ∅ |}
  end.

(** ** Clock-times *)

(** [String.prototype.split] on a one-character separator. *)
Fixpoint split (sep : Ascii.ascii) (s : string) : list string :=
  match s with
  | EmptyString => [EmptyString]
  | String c s' =>
      if Ascii.eqb c sep then EmptyString :: split sep s'
      else match split sep s' with
           | [] => [String c EmptyString]
           | piece :: pieces => String c piece :: pieces
           end
  end.

Definition digitValue (c : Ascii.ascii) : option Z :=
  let n := Z.of_N (Ascii.N_of_ascii c) in
  if (48 <=? n) && (n <=? 57) then Some (n - 48) else None.

Fixpoint decimalFrom (acc : Z) (s : string) : option Z :=
  match s with
  | EmptyString => Some acc
  | String c s' =>
      match digitValue c with
      | Some d => decimalFrom (10 * acc + d) s'
      | None => None
      end
  end.

(** The numeric coercion that [setHours] applies to its string arguments,
    on the texts a time input produces: a run of decimal digits is its
    value (the empty run is [0], as in JavaScript); any other text is
    [None], standing for [NaN]. *)
Definition toNumber (s : string) : option Z := decimalFrom 0 s.

Definition colon : Ascii.ascii := Ascii.ascii_of_nat 58.

(** [const [hours, minutes] = t.split(':')] followed by the coercion; a
    missing second piece is [undefined], which coerces to [NaN]. *)
Definition hoursMinutes (t : string) : option (Z * Z) :=
  match split colon t with
  | hours :: minutes :: _ =>
      match toNumber hours, toNumber minutes with
      | Some h, Some m => Some (h, m)
      | _, _ => None
      end
  | _ => None
  end.

(** [d.setHours(hours, minutes, 0, 0)] on a date with time value [base];
    [None] is the invalid date. *)
Definition atClockTime {host : HostClock} (base : Z) (t : string) : option Z :=
  match hoursMinutes t with
  | Some (h, m) => Some (setHours base h m)
  | None => None
  end.

(** ** Daily due-set: the [todaysMeds] memo *)

Record Slot := {
  time : string;
  isPast : bool
}.

(** An element of [todaysMeds]: the medication with its [times] replaced
    by slots, or by [null] when it has no specific time. *)
Record DueMedication := {
  med : Medication;
  times : option (list Slot)
}.

Definition markPrimary (m : Medication) : Medication :=
  {| id := id m; name := name m; frequency := frequency m;
     medTimes := medTimes m; startDate := startDate m; isPrimary := true |}.

Section DueSet.
Context {host : HostClock}.

(** [new Date(today.toISOString().slice(0, 10))] is the UTC midnight of
    the UTC date of [today]; a comparison with the invalid date is false. *)
Definition slotOf (today : Z) (t : string) : Slot :=
  {| time := t;
     isPast := match atClockTime (todayKeyOf today * msPerDay) t with
               | Some medTime => medTime <? today
               | None => false
               end |}.

Definition expandTimes (today : Z) (m : Medication) : DueMedication :=
  {| med := m;
     times := match medTimes m with
              | [] => None
              | ts => Some (map (slotOf today) ts)
              end |}.

Definition todaysMeds (today : Z) (mainIbdMed : option Medication)
  (supplements : list Medication) : list DueMedication :=
  let allMeds :=
    match mainIbdMed with
    | Some m => [markPrimary m]
    | None => []
    end ++ supplements in
  let medsDueToday := List.filter (fun m => isDue m today) allMeds in
  map (expandTimes today) medsDueToday.

End DueSet.

(** ** Notification scheduler: state *)

Record Notification := {
  title : string;
  body : string
}.

(** What the platform notification service was asked to show, tagged with
    the tier and with the slot key (or medication id) it was shown for.
    The icon is fixed by the tier and is left out. *)
Inductive Emission :=
| Reminder (medIdentifier : string) (n : Notification)
| Urgent (medIdentifier : string) (n : Notification)
| General (medId : string) (n : Notification).

(** The two closures handed to [setTimeout], with the variables they
    capture. *)
Inductive Callback :=
| FirstReminder (todayKey : Z) (medIdentifier medName slotTime : string) (twoHoursAfter : Z)
| SecondReminder (todayKey : Z) (medIdentifier medName : string).

(** Everything the component and its environment hold between events:
    - [localStorage]: the durable acknowledgement store, one dictionary
      per day;
    - [takenMedsState]: the React state of the same name;
    - [notificationTimers]: [notificationTimers.current], from timer key
      to [setTimeout] handle (a handle is a positive integer, hence
      truthy);
    - [pendingTimeouts]: the timers pending in the runtime, from handle to
      the instant the timer is due and its callback;
    - [nextTimerId]: the next handle [setTimeout] returns;
    - [notifiedDate] and [notifiedGeneralMeds]: the [date] property and
      the markers of [notifiedGeneralMeds.current];
    - [notifications]: the notifications emitted so far, oldest first. *)
Record Scheduler := {
  localStorage : gmap Z (gmap string bool);
  takenMedsState : gmap string bool;
  notificationTimers : gmap string positive;
  pendingTimeouts : gmap positive (Z * Callback);
  nextTimerId : positive;
  notifiedDate : option Z;
  notifiedGeneralMeds : gset (string * Z);
  notifications : list Emission
}.

(** A freshly mounted component over a given durable store. *)
Definition mount (store : gmap Z (gmap string bool)) : Scheduler :=
  {| localStorage := store; takenMedsState := ∅; notificationTimers := ∅;
     pendingTimeouts := ∅; nextTimerId := 1%positive; notifiedDate := None;
     notifiedGeneralMeds := ∅; notifications := [] |}.

Definition withStore (f : gmap Z (gmap string bool) -> gmap Z (gmap string bool))
  (s : Scheduler) : Scheduler :=
  {| localStorage := f (localStorage s); takenMedsState := takenMedsState s;
     notificationTimers := notificationTimers s; pendingTimeouts := pendingTimeouts s;
     nextTimerId := nextTimerId s; notifiedDate := notifiedDate s;
     notifiedGeneralMeds := notifiedGeneralMeds s; notifications := notifications s |}.

Definition withTaken (f : gmap string bool -> gmap string bool) (s : Scheduler) : Scheduler :=
  {| localStorage := localStorage s; takenMedsState := f (takenMedsState s);
     notificationTimers := notificationTimers s; pendingTimeouts := pendingTimeouts s;
     nextTimerId := nextTimerId s; notifiedDate := notifiedDate s;
     notifiedGeneralMeds := notifiedGeneralMeds s; notifications := notifications s |}.

Definition withTimers (f : gmap string positive -> gmap string positive) (s : Scheduler) : Scheduler :=
  {| localStorage := localStorage s; takenMedsState := takenMedsState s;
     notificationTimers := f (notificationTimers s); pendingTimeouts := pendingTimeouts s;
     nextTimerId := nextTimerId s; notifiedDate := notifiedDate s;
     notifiedGeneralMeds := notifiedGeneralMeds s; notifications := notifications s |}.

Definition withPending (f : gmap positive (Z * Callback) -> gmap positive (Z * Callback))
  (s : Scheduler) : Scheduler :=
  {| localStorage := localStorage s; takenMedsState := takenMedsState s;
     notificationTimers := notificationTimers s; pendingTimeouts := f (pendingTimeouts s);
     nextTimerId := nextTimerId s; notifiedDate := notifiedDate s;
     notifiedGeneralMeds := notifiedGeneralMeds s; notifications := notifications s |}.

Definition withMarker (d : option Z) (marks : gset (string * Z)) (s : Scheduler) : Scheduler :=
  {| localStorage := localStorage s; takenMedsState := takenMedsState s;
     notificationTimers := notificationTimers s; pendingTimeouts := pendingTimeouts s;
     nextTimerId := nextTimerId s; notifiedDate := d;
     notifiedGeneralMeds := marks; notifications := notifications s |}.

(** [new Notification(...)] *)
Definition emit (e : Emission) (s : Scheduler) : Scheduler :=
  {| localStorage := localStorage s; takenMedsState := takenMedsState s;
     notificationTimers := notificationTimers s; pendingTimeouts := pendingTimeouts s;
     nextTimerId := nextTimerId s; notifiedDate := notifiedDate s;
     notifiedGeneralMeds := notifiedGeneralMeds s;
     notifications := notifications s ++ [e] |}.

(** [setTimeout(cb, fireAt - now)]: the handle returned and the state
    with the timer pending. *)
Definition setTimeout (fireAt : Z) (cb : Callback) (s : Scheduler) : positive * Scheduler :=
  (nextTimerId s,
   {| localStorage := localStorage s; takenMedsState := takenMedsState s;
      notificationTimers := notificationTimers s;
      pendingTimeouts := <[nextTimerId s := (fireAt, cb)]> (pendingTimeouts s);
      nextTimerId := Pos.succ (nextTimerId s); notifiedDate := notifiedDate s;
      notifiedGeneralMeds := notifiedGeneralMeds s; notifications := notifications s |}).

(** [clearTimeout(handle)]: a no-op on a handle that is not pending. *)
Definition clearTimeout (handle : positive) (s : Scheduler) : Scheduler :=
  withPending (delete handle) s.

(** [for (const timerId in notificationTimers.current)
       clearTimeout(notificationTimers.current[timerId])] *)
Definition clearTrackedTimers (s : Scheduler) : Scheduler :=
  foldr clearTimeout s (map_to_list (notificationTimers s)).*2.

(** [JSON.parse(localStorage.getItem(`takenMeds_${todayKey}`) || '{}')] *)
Definition storedTaken (s : Scheduler) (todayKey : Z) : gmap string bool :=
  default ∅ (localStorage s !! todayKey).

(** Truthiness of [obj[key]]. *)
Definition truthyAt (obj : gmap string bool) (key : string) : bool :=
  default false (obj !! key).

Definition medIdentifierOf (medId slotTime : string) : string :=
  medId +:+ "_" +:+ slotTime.

Definition secondKey (medIdentifier : string) : string :=
  medIdentifier +:+ "_second".

(** ** Notification scheduler: operations *)

Definition firstNotification (medName slotTime : string) : Notification :=
  {| title := "Reminder: Take your " +:+ medName +:+ " at " +:+ slotTime;
     body := "It's been an hour since your scheduled dose for " +:+ medName +:+ "!" |}.

Definition urgentNotification (medName : string) : Notification :=
  {| title := "Urgent Reminder: Take your " +:+ medName +:+ "!";
     body := "It's been two hours since your scheduled dose for " +:+ medName
             +:+ ". Please take it now." |}.

Definition generalNotification (medName freq : string) : Notification :=
  {| title := "Reminder: Take your " +:+ medName +:+ " today";
     body := "Your " +:+ medName +:+ " is due today (" +:+ freq +:+ ")." |}.

(** The callback of the escalated timer. *)
Definition runSecondReminder (granted : bool) (todayKey : Z)
  (medIdentifier medName : string) (s : Scheduler) : Scheduler :=
  let s1 :=
    if negb (truthyAt (storedTaken s todayKey) medIdentifier) && granted
    then emit (Urgent medIdentifier (urgentNotification medName)) s
    else s in
  withTimers (delete (secondKey medIdentifier)) s1.

(** The callback of the first timer; it arms the escalated timer itself. *)
Definition runFirstReminder (now : Z) (granted : bool) (todayKey : Z)
  (medIdentifier medName slotTime : string) (twoHoursAfter : Z) (s : Scheduler) : Scheduler :=
  let s1 :=
    if negb (truthyAt (storedTaken s todayKey) medIdentifier) && granted
    then emit (Reminder medIdentifier (firstNotification medName slotTime)) s
    else s in
  let s2 :=
    if now <? twoHoursAfter then
      let (handle, s') :=
        setTimeout twoHoursAfter (SecondReminder todayKey medIdentifier medName) s1 in
      withTimers <[secondKey medIdentifier := handle]> s'
    else s1 in
  withTimers (delete medIdentifier) s2.

Definition runCallback (now : Z) (granted : bool) (cb : Callback) (s : Scheduler) : Scheduler :=
  match cb with
  | FirstReminder todayKey medIdentifier medName slotTime twoHoursAfter =>
      runFirstReminder now granted todayKey medIdentifier medName slotTime twoHoursAfter s
  | SecondReminder todayKey medIdentifier medName =>
      runSecondReminder granted todayKey medIdentifier medName s
  end.

(** The runtime runs a pending timer that is due: the timer leaves the
    pending set and its callback runs.  A handle that is not pending, or
    not yet due, does nothing. *)
Definition timerFires (now : Z) (granted : bool) (handle : positive) (s : Scheduler)
  : Scheduler :=
  match pendingTimeouts s !! handle with
  | Some (fireAt, cb) =>
      if fireAt <=? now then runCallback now granted cb (clearTimeout handle s) else s
  | None => s
  end.

Section Scheduling.
Context {host : HostClock}.

(** The body of [med.times.forEach] for one slot.  A comparison with the
    invalid date is false, so an unreadable clock-time arms nothing. *)
Definition scheduleSlot (now todayKey : Z) (storedTakenMeds : gmap string bool)
  (m : Medication) (t : Slot) (s : Scheduler) : Scheduler :=
  let medIdentifier := medIdentifierOf (id m) (time t) in
  if truthyAt storedTakenMeds medIdentifier then s
  else
    match atClockTime now (time t) with
    | None => s
    | Some medDateTime =>
        let oneHourAfter := medDateTime + 60 * 60 * 1000 in
        let twoHoursAfter := medDateTime + 2 * 60 * 60 * 1000 in
        if now <? oneHourAfter then
          let (handle, s') :=
            setTimeout oneHourAfter
              (FirstReminder todayKey medIdentifier (name m) (time t) twoHoursAfter) s in
          withTimers <[medIdentifier := handle]> s'
        else s
    end.

(** The general reminder of a medication without specific times. *)
Definition notifyGeneral (granted : bool) (todayKey : Z) (m : Medication) (s : Scheduler)
  : Scheduler :=
  if negb (bool_decide ((id m, todayKey) ∈ notifiedGeneralMeds s)) && granted then
    withMarker (notifiedDate s) ({[ (id m, todayKey) ]} ∪ notifiedGeneralMeds s)
      (emit (General (id m) (generalNotification (name m) (frequency m))) s)
  else s.

(** The body of [todaysMeds.forEach]. *)
Definition scheduleMed (now : Z) (granted : bool) (todayKey : Z)
  (storedTakenMeds : gmap string bool) (dm : DueMedication) (s : Scheduler) : Scheduler :=
  match times dm with
  | Some (t :: ts) =>
      fold_left (fun acc slot => scheduleSlot now todayKey storedTakenMeds (med dm) slot acc)
        (t :: ts) s
  | _ => notifyGeneral granted todayKey (med dm) s
  end.

(** The scheduling pass: the body of the effect on [todaysMeds]. *)
Definition schedulingPass (now : Z) (granted : bool) (meds : list DueMedication)
  (s : Scheduler) : Scheduler :=
  let todayKey := todayKeyOf now in
  let storedTakenMeds := storedTaken s todayKey in
  let s1 := withTaken (fun _ => storedTakenMeds) s in
  let s2 := withTimers (fun _ => ∅) (clearTrackedTimers s1) in
  let s3 :=
    if decide (notifiedDate s2 = Some todayKey) then s2
    else withMarker (Some todayKey) ∅ s2 in
  fold_left (fun acc dm => scheduleMed now granted todayKey storedTakenMeds dm acc) meds s3.

End Scheduling.

(** The cleanup returned by the effect: every tracked timer is cleared
    (the table itself is left as it is). *)
Definition effectCleanup (s : Scheduler) : Scheduler := clearTrackedTimers s.

(** [if (notificationTimers.current[key]) { clearTimeout(...); delete ... }] *)
Definition cancelTimer (key : string) (s : Scheduler) : Scheduler :=
  match notificationTimers s !! key with
  | Some handle => withTimers (delete key) (clearTimeout handle s)
  | None => s
  end.

(** [handleMarkTaken(medId, time)] at the instant [now]. *)
Definition handleMarkTaken (now : Z) (medId slotTime : string) (s : Scheduler) : Scheduler :=
  let medIdentifier := medIdentifierOf medId slotTime in
  let todayKey := todayKeyOf now in
  let newState := <[medIdentifier := true]> (takenMedsState s) in
  let s1 := withStore <[todayKey := newState]> (withTaken (fun _ => newState) s) in
  cancelTimer (secondKey medIdentifier) (cancelTimer medIdentifier s1).

(** ** Runs of the component *)

(** What can happen to a mounted component: its medications are
    (re)delivered, which recomputes [todaysMeds] and re-runs the effect
    (cleanup of the previous run, then the scheduling pass); the user
    marks a slot taken; the runtime fires a timer. *)
Inductive Event :=
| MedsDelivered (mainIbdMed : option Medication) (supplements : list Medication)
| MarkTaken (medId slotTime : string)
| TimerFires (handle : positive).

(** An event with the reading of the clock and the notification
    permission at the moment it happens.  The synchronous code of one
    event reads the clock as one instant. *)
Record Occurrence := {
  clock : Z;
  permissionGranted : bool;
  event : Event
}.

Section Runs.
Context {host : HostClock}.

Definition step (o : Occurrence) (s : Scheduler) : Scheduler :=
  match event o with
  | MedsDelivered mainIbdMed supplements =>
      schedulingPass (clock o) (permissionGranted o)
        (todaysMeds (clock o) mainIbdMed supplements) (effectCleanup s)
  | MarkTaken medId slotTime => handleMarkTaken (clock o) medId slotTime s
  | TimerFires handle => timerFires (clock o) (permissionGranted o) handle s
  end.

Definition run (os : list Occurrence) (s : Scheduler) : Scheduler :=
  fold_left (fun acc o => step o acc) os s.

End Runs.

(** ** Hosts in a time zone with a fixed offset *)

(** A host whose local time is [off] milliseconds ahead of UTC all year
    round ([off] is negative west of Greenwich).  [setHours] replaces the
    time of day of the local date, [getDay] is the weekday of the local
    date. *)
Definition zoneSetHours (off t h m : Z) : Z :=
  (t + off) - (t + off) mod msPerDay + h * msPerHour + m * msPerMinute - off.

Definition zoneGetDay (off t : Z) : Z := ((t + off) / msPerDay + 4) mod 7.

Definition zoneHost (off : Z) : HostClock :=
  {| setHours := zoneSetHours off; getDay := zoneGetDay off |}.

(** ** Medication forms: [MedicationFormFields] and the submit handlers *)

(** [requiresSpecificTimesCount(freq)]: how many clock-times the form asks
    for. *)
Definition requiresSpecificTimesCount (freq : string) : Z :=
  if (freq =? "Once daily")%string then 1
  else if (freq =? "Twice daily")%string then 2
  else if (freq =? "Three times daily")%string then 3
  else if (freq =? "Every other day")%string || (freq =? "Every three days")%string
          || (freq =? "Every four days")%string || (freq =? "Weekly")%string
          || (freq =? "Bi-weekly")%string then 1
  else 0.

Module Form.

(** The state of a medication form; every field is the text of its
    input. *)
Record t := {
  name : string;
  dosageAmount : string;
  dosageUnit : string;
  frequency : string;
  medTimes : list string;
  startDate : string
}.

(** The list [requiresStartDate] of the form and of the submit handlers. *)
Definition requiresStartDate (freq : string) : bool :=
  existsb (String.eqb freq)
    ["Every other day"; "Every three days"; "Every four days"; "Weekly"; "Bi-weekly"].

(** The list [requiresTimes] of the submit handlers. *)
Definition requiresTimes (freq : string) : bool :=
  existsb (String.eqb freq)
    ["Once daily"; "Twice daily"; "Three times daily"; "Every other day";
     "Every three days"; "Every four days"; "Weekly"; "Bi-weekly"].

(** [handleFrequencyChange]: [form] is the form the handler closed over,
    [prevForm] the one the state update is applied to. *)
Definition handleFrequencyChange (form prevForm : t) (newFrequency : string) : t :=
  let newNumRequiredTimes := requiresSpecificTimesCount newFrequency in
  let updatedMedTimes :=
    if 0 <? newNumRequiredTimes then
      if (newFrequency =? "Once daily")%string then ["09:00"%string]
      else if (newFrequency =? "Twice daily")%string then ["09:00"; "21:00"]%string
      else if (newFrequency =? "Three times daily")%string then ["08:00"; "14:00"; "20:00"]%string
      else ["09:00"%string]
    else [] in
  let updatedStartDate :=
    if negb (requiresStartDate newFrequency) then ""%string else startDate form in
  {| name := name prevForm; dosageAmount := dosageAmount prevForm;
     dosageUnit := dosageUnit prevForm; frequency := newFrequency;
     medTimes := updatedMedTimes; startDate := updatedStartDate |}.

(** What a submit handler does with the form: it shows a message and
    returns, or it goes on to write the form as a document. *)
Inductive Submission :=
| ShowMessage (message : string)
| WriteDocument (document : t).

Section Submit.
(** [String.prototype.trim]. *)
Variable trim : string -> string.

(** The guards that the two submit handlers share, with the messages of
    each. *)
Definition submit (fieldsMessage timesMessage : string) (dbReady : bool) (form : t)
  : Submission :=
  if (name form =? "")%string || (dosageAmount form =? "")%string
     || (dosageUnit form =? "")%string || (frequency form =? "")%string
  then ShowMessage fieldsMessage
  else if requiresTimes (frequency form)
          && existsb (fun time => (trim time =? "")%string) (medTimes form)
          && (Z.of_nat (length (medTimes form)) =? 0)
  then ShowMessage timesMessage
  else if requiresStartDate (frequency form) && (startDate form =? "")%string
  then ShowMessage "Please select a Start Date for this frequency."
  else if negb dbReady then ShowMessage "Database not ready."
  else WriteDocument form.

Definition handleSaveIbdMed : bool -> t -> Submission :=
  submit "Please fill all required fields for Main IBD Medication."
    "Please fill all required medication times.".

Definition handleAddSupplement : bool -> t -> Submission :=
  submit "Please fill all required fields for the new supplement (Name, Dosage, Frequency)."
    "Please fill all required supplement times.".

End Submit.

End Form.

(** ** The schedule as rendered *)

(** What the schedule shows for a slot. *)
Inductive SlotView :=
| ShowsTaken
| ShowsMissed
| OffersMarkTaken.

(** The rendering of one slot of [med.times.map].  [scheduledTimeMillis]
    is the time value of
    [new Date(new Date().toDateString() + ' ' + t.time)], as the host parses
    it, [None] standing for [NaN]; a comparison with [NaN] is false. *)
Definition slotView (takenMedsState : gmap string bool) (medId : string) (t : Slot)
  (scheduledTimeMillis : option Z) (nowMillis : Z) : SlotView :=
  let medIdentifier := medIdentifierOf medId (time t) in
  let isTaken := truthyAt takenMedsState medIdentifier in
  let isPastScheduledTime :=
    match scheduledTimeMillis with
    | Some scheduled => scheduled <? nowMillis
    | None => false
    end in
  if isTaken then ShowsTaken
  else if isPastScheduledTime then ShowsMissed
  else OffersMarkTaken.

(** ** The symptom form of [LogPage] *)

Module SymptomForm.

(** An item of the [symptoms] state.  [checked] is [None] when the
    property is [undefined]; [severity] is [None] when it is not a number
    ([undefined] or [NaN]). *)
Record Symptom := {
  checked : option bool;
  severity : option Z
}.

Definition unchecked : Symptom := {| checked := Some false; severity := Some 0 |}.

(** The initial state. *)
Definition initial : gmap string Symptom :=
  list_to_map
    (map (fun key => (key, unchecked))
       ["bloating"; "cramps"; "urgency"; "fatigue"; "nausea"; "jointPain";
        "stomachPain"; "headaches"]%string).

(** [handleSymptomCheckChange]; [None] is the [TypeError] of reading
    [p[name].severity] where [p[name]] is [undefined]. *)
Definition handleSymptomCheckChange (name : string) (isChecked : bool)
  (p : gmap string Symptom) : option (gmap string Symptom) :=
  if isChecked then
    match p !! name with
    | Some item =>
        Some (<[name := {| checked := Some true;
                           severity := match severity item with
                                       | Some 0 => Some 1
                                       | other => other
                                       end |}]> p)
    | None => None
    end
  else Some (<[name := unchecked]> p).

(** [handleSeverityChange]; [value] is [parseInt(e.target.value, 10)],
    [None] for [NaN]. *)
Definition handleSeverityChange (name : string) (value : option Z)
  (p : gmap string Symptom) : gmap string Symptom :=
  <[name := {| checked := match p !! name with
                          | Some item => checked item
                          | None => None
                          end;
               severity := value |}]> p.

(** Truthiness of [s.checked]. *)
Definition isChecked (item : Symptom) : bool :=
  match checked item with
  | Some true => true
  | _ => false
  end.

(** [handleSymptomsSubmit]: the document handed to [saveLogEntry], if
    any, and the state afterwards; [success] is what [saveLogEntry]
    returns. *)
Definition handleSymptomsSubmit (success : bool) (p : gmap string Symptom)
  : option (gmap string Symptom) * gmap string Symptom :=
  if negb (existsb isChecked (map_to_list p).*2) then (None, p)
  else (Some p, if success then (fun _ => unchecked) <$> p else p).

(** The slider of an item is rendered while the item is checked; it
    ranges over the integers from 1 to 10. *)
Definition sliderOffers (p : gmap string Symptom) (name : string) (value : option Z) : Prop :=
  exists item v,
    p !! name = Some item /\ isChecked item = true /\ value = Some v /\ 1 <= v <= 10.

(** The states the form reaches through its controls: the check box and
    the slider of the items it renders, and the submit button. *)
Inductive Reachable : gmap string Symptom -> Prop :=
| ReachInitial : Reachable initial
| ReachCheck p name isChecked p' :
    Reachable p -> is_Some (p !! name) ->
    handleSymptomCheckChange name isChecked p = Some p' -> Reachable p'
| ReachSeverity p name value :
    Reachable p -> sliderOffers p name value ->
    Reachable (handleSeverityChange name value p)
| ReachSubmit p success :
    Reachable p -> Reachable (snd (handleSymptomsSubmit success p)).

(** An item is either unchecked with severity 0 or checked with a
    severity from 1 to 10. *)
Definition wellFormed (item : Symptom) : Prop :=
  item = unchecked
  \/ (checked item = Some true /\ exists v, severity item = Some v /\ 1 <= v <= 10).

End SymptomForm.

(** ** Selection of logs in [DoctorModePage] *)

(** The fields of a log entry that the selection and the chart read.
    [date] is the UTC calendar date of the field of that name, as a day
    number; [timestamp] is the time value of [new Date(entry.timestamp)],
    [None] for the invalid date. *)
Record LogEntry := {
  entryId : string;
  date : Z;
  timestamp : option Z;
  logType : string
}.

(** [handleSmartSelectLogs] on a host whose local time is [off]
    milliseconds ahead of UTC, where [setDate(getDate() - 13)] on a local
    midnight is the local midnight thirteen days earlier: the new selection
    and the message.  A comparison with the invalid date is false. *)
Definition handleSmartSelectLogs (off now : Z) (logEntries : list LogEntry)
  : list string * string :=
  let today := zoneSetHours off now 0 0 in
  let fourteenDaysAgo := today - 13 * msPerDay in
  let smartSelected :=
    map entryId
      (List.filter
         (fun entry =>
            match timestamp entry with
            | Some entryDate => fourteenDaysAgo <=? entryDate
            | None => false
            end
            && ((logType entry =? "food")%string || (logType entry =? "symptoms")%string
                || (logType entry =? "poop")%string))
         logEntries) in
  (smartSelected,
   if (0 <? length smartSelected)%nat
   then "Relevant logs from the past 14 days have been selected for analysis."%string
   else "No relevant logs found in the past 14 days. Please log some data."%string).

(** [prev.includes(id)] *)
Definition includes (ids : list string) (id : string) : bool :=
  existsb (String.eqb id) ids.

(** The state update of [toggleLogSelection]. *)
Definition toggleLogSelection (id : string) (prev : list string) : list string :=
  if includes prev id then List.filter (fun logId => negb (logId =? id)%string) prev
  else prev ++ [id].

(** [relevantLogs] of [generateReport]: the entries the report is
    generated from. *)
Definition relevantLogs (logEntries : list LogEntry) (selectedLogs : list string)
  : list LogEntry :=
  List.filter (fun entry => includes selectedLogs (entryId entry)) logEntries.

(** ** Logs from [LogPage] to the chart of [DashboardPage] *)

(** The entry that [saveLogEntry] writes for the time value
    [logTimestamp], under the identifier the database gives it:
    [logDate] is [new Date(logTimestamp).toISOString().split('T')[0]]. *)
Definition savedLogEntry (id : string) (logTimestamp : Z) (logType : string) : LogEntry :=
  {| entryId := id; date := todayKeyOf logTimestamp;
     timestamp := Some logTimestamp; logType := logType |}.

Definition DAYS_TO_SHOW : Z := 7.

(** [dateString] of the column [i] days back, on a host whose local
    time is [off] milliseconds ahead of UTC: the UTC date of the local
    midnight [i] days before today's. *)
Definition dateString (off now i : Z) : Z :=
  todayKeyOf (zoneSetHours off now 0 0 - i * msPerDay).

(** [logsForDay] of the column [i] days back. *)
Definition logsForDay (off now i : Z) (logEntries : list LogEntry) : list LogEntry :=
  List.filter (fun entry => date entry =? dateString off now i) logEntries.

(** The logs of the columns of the chart, oldest column first. *)
Definition chartLogs (off now : Z) (logEntries : list LogEntry) : list (list LogEntry) :=
  map (fun i => logsForDay off now i logEntries)
    (map (fun i => DAYS_TO_SHOW - 1 - Z.of_nat i) (seq 0 (Z.to_nat DAYS_TO_SHOW))).

(** * Vocabulary of the properties *)

(** ** Arithmetic and recurrence kinds *)

(** [c] is the ceiling of the quotient of [a] by [b]: the least integer
    with [a <= c * b]. *)
Definition isCeiling (a b c : Z) : Prop := (c - 1) * b < a <= c * b.

(** The recurrence kinds of the specification, as the texts the source
    compares with. *)
Inductive IntervalKind : string -> Z -> Prop :=
| EveryOtherDay : IntervalKind "Every other day" 2
| EveryThreeDays : IntervalKind "Every three days" 3
| EveryFourDays : IntervalKind "Every four days" 4.

Inductive AnchoredKind : string -> Prop :=
| AnchoredInterval freq n : IntervalKind freq n -> AnchoredKind freq
| AnchoredWeekly : AnchoredKind "Weekly"
| AnchoredBiWeekly : AnchoredKind "Bi-weekly".

(** ** Timers, callbacks and notifications *)

Definition callbackDay (cb : Callback) : Z :=
  match cb with
  | FirstReminder todayKey _ _ _ _ => todayKey
  | SecondReminder todayKey _ _ => todayKey
  end.

Definition callbackKey (cb : Callback) : string :=
  match cb with
  | FirstReminder _ medIdentifier _ _ _ => medIdentifier
  | SecondReminder _ medIdentifier _ => medIdentifier
  end.

(** The key under which the table holds the handle of a callback. *)
Definition timerKey (cb : Callback) : string :=
  match cb with
  | FirstReminder _ medIdentifier _ _ _ => medIdentifier
  | SecondReminder _ medIdentifier _ => secondKey medIdentifier
  end.

Definition isGeneral (e : Emission) : Prop :=
  match e with
  | General _ _ => True
  | _ => False
  end.

(** A tier notification for the slot key [k]. *)
Definition forKey (k : string) (e : Emission) : Prop :=
  match e with
  | Reminder k' _ | Urgent k' _ => k' = k
  | General _ _ => False
  end.

(** Whether the durable store marks the slot of a callback as taken. *)
Definition acknowledged (s : Scheduler) (cb : Callback) : bool :=
  truthyAt (storedTaken s (callbackDay cb)) (callbackKey cb).

(** What a callback emits: nothing once its slot is acknowledged in the
    store, nothing without the permission, one notification of its own
    tier and key otherwise. *)
Definition emissionOf (granted : bool) (cb : Callback) (s : Scheduler) : list Emission :=
  if negb (acknowledged s cb) && granted then
    match cb with
    | FirstReminder _ medIdentifier medName slotTime _ =>
        [Reminder medIdentifier (firstNotification medName slotTime)]
    | SecondReminder _ medIdentifier medName =>
        [Urgent medIdentifier (urgentNotification medName)]
    end
  else [].

(** [s'] extends [s] the way the loop of a pass at [now] can: the store
    and the React state are untouched, a timer pending in [s'] and not in
    [s] is a first-tier timer of the day [day], due after [now], for a key
    that [stored] does not mark taken, and only general notifications were
    emitted. *)
Record PassExtends (now day : Z) (stored : gmap string bool) (s s' : Scheduler) : Prop := {
  ext_store : localStorage s' = localStorage s;
  ext_taken : takenMedsState s' = takenMedsState s;
  ext_pending :
    forall h fireAt cb, pendingTimeouts s' !! h = Some (fireAt, cb) ->
      pendingTimeouts s !! h = Some (fireAt, cb)
      \/ (exists key medName slotTime, 
            cb = FirstReminder day key medName slotTime (fireAt + 60 * 60 * 1000)
            /\ now < fireAt /\ truthyAt stored key = false);
  ext_notifications :
    exists new, notifications s' = notifications s ++ new /\ Forall isGeneral new
}.

(** The state in which the loop of a pass starts. *)
Definition passStart (now : Z) (s : Scheduler) : Scheduler :=
  let todayKey := todayKeyOf now in
  let s1 := withTaken (fun _ => storedTaken s todayKey) s in
  let s2 := withTimers (fun _ => ∅) (clearTrackedTimers s1) in
  if decide (notifiedDate s2 = Some todayKey) then s2
  else withMarker (Some todayKey) ∅ s2.

Definition slotKey (m : Medication) (t : Slot) : string :=
  medIdentifierOf (id m) (time t).

(** The keys of all the timed slots of a due-set, in the order the pass
    visits them. *)
Definition slotKeysOfMed (dm : DueMedication) : list string :=
  match times dm with
  | Some slots => map (slotKey (med dm)) slots
  | None => []
  end.

Definition slotKeys (meds : list DueMedication) : list string :=
  concat (map slotKeysOfMed meds).

Section ArmedSlots.
Context {host : HostClock}.

(** Whether the pass arms the first-tier timer of a slot. *)
Definition slotArmed (now : Z) (stored : gmap string bool) (m : Medication) (t : Slot) : bool :=
  negb (truthyAt stored (medIdentifierOf (id m) (time t)))
  && match atClockTime now (time t) with
     | Some medDateTime => now <? medDateTime + 60 * 60 * 1000
     | None => false
     end.

(** The keys under which a pass at [now] arms a timer, read off the
    due-set and the stored acknowledgements alone. *)
Definition armedKeysOfSlots (now : Z) (stored : gmap string bool) (m : Medication)
  (slots : list Slot) : gset string :=
  list_to_set (map (slotKey m) (List.filter (slotArmed now stored m) slots)).

Definition armedKeysOfMed (now : Z) (stored : gmap string bool) (dm : DueMedication)
  : gset string :=
  match times dm with
  | Some slots => armedKeysOfSlots now stored (med dm) slots
  | None => ∅
  end.

Definition armedKeys (now : Z) (stored : gmap string bool) (meds : list DueMedication)
  : gset string :=
  ⋃ (map (armedKeysOfMed now stored) meds).

End ArmedSlots.

(** ** Invariants of the component *)

(** Entries of an acknowledgement dictionary are kept, and a [true] stays
    [true]. *)
Definition ackMonotone (m m' : gmap string bool) : Prop :=
  forall j b, m !! j = Some b -> exists b', m' !! j = Some b' /\ (b = true -> b' = true).

(** The React state holds every entry of the day's stored dictionary,
    with [true] where the store has [true]. *)
Definition storeInState (day : Z) (s : Scheduler) : Prop :=
  ackMonotone (storedTaken s day) (takenMedsState s).

(** Every pending callback reads the dictionary of [day]. *)
Definition timersOfDay (day : Z) (s : Scheduler) : Prop :=
  forall h fireAt cb, pendingTimeouts s !! h = Some (fireAt, cb) -> callbackDay cb = day.

Definition onDay (day : Z) (o : Occurrence) : Prop := todayKeyOf (clock o) = day.

Definition isDelivery (o : Occurrence) : Prop :=
  match event o with
  | MedsDelivered _ _ => True
  | _ => False
  end.

(** Every pending timer is the one the table holds under its key. *)
Definition tracked (s : Scheduler) : Prop :=
  forall h fireAt cb, pendingTimeouts s !! h = Some (fireAt, cb) ->
    notificationTimers s !! timerKey cb = Some h.

(** No two slots share a key, and no slot key is the escalation key of
    another. *)
Definition wellKeyed (keys : list string) : Prop :=
  NoDup keys /\ forall k k', k ∈ keys -> k' ∈ keys -> k' <> secondKey k.

Definition handlesFresh (s : Scheduler) : Prop :=
  forall h x, pendingTimeouts s !! h = Some x -> (h < nextTimerId s)%positive.

(** While a first-tier timer is pending, the table holds nothing under
    the escalation key of its slot. *)
Definition escalationFree (s : Scheduler) : Prop :=
  forall h fireAt day k medName slotTime two,
    pendingTimeouts s !! h = Some (fireAt, FirstReminder day k medName slotTime two) ->
    notificationTimers s !! secondKey k = None.

Definition orderly (s : Scheduler) : Prop :=
  tracked s /\ escalationFree s /\ handlesFresh s.

(** The invariant of the loop of a pass: the table has keys in [K] only,
    and the pending timers are tracked first-tier timers. *)
Definition loopInv (K : gset string) (s : Scheduler) : Prop :=
  tracked s /\ handlesFresh s
  /\ dom (notificationTimers s) ⊆ K
  /\ forall h fireAt cb, pendingTimeouts s !! h = Some (fireAt, cb) ->
       exists day k medName slotTime two, cb = FirstReminder day k medName slotTime two.

(** No pending timer belongs to the slot key [k]. *)
Definition quietFor (k : string) (s : Scheduler) : Prop :=
  forall h fireAt cb, pendingTimeouts s !! h = Some (fireAt, cb) -> callbackKey cb <> k.


Section WellKeyedDeliveries.
Context {host : HostClock}.

(** A delivery whose due-set is well keyed. *)
Definition wellKeyedOccurrence (o : Occurrence) : Prop :=
  match event o with
  | MedsDelivered mainIbdMed supplements =>
      wellKeyed (slotKeys (todaysMeds (clock o) mainIbdMed supplements))
  | _ => True
  end.


End WellKeyedDeliveries.

(** ** What a run emits *)

(** A general notification for the medication [medId]. *)
Definition isGeneralFor (medId : string) (e : Emission) : bool :=
  match e with
  | General i _ => bool_decide (i = medId)
  | _ => false
  end.

(** How many general notifications a log holds for [medId]. *)
Definition generalCount (medId : string) (log : list Emission) : nat :=
  length (List.filter (isGeneralFor medId) log).

(** Every urgent notification of the log comes after a first-tier
    notification for the same slot key. *)
Definition escalated (log : list Emission) : Prop :=
  forall before k n after,
    log = before ++ Urgent k n :: after -> exists n', Reminder k n' ∈ before.

(** Every pending second-tier timer is for a slot that has had its
    first-tier notification or is acknowledged in the store of [day]. *)
Definition escalationsDue (day : Z) (s : Scheduler) : Prop :=
  forall h fireAt d k medName,
    pendingTimeouts s !! h = Some (fireAt, SecondReminder d k medName) ->
    truthyAt (storedTaken s day) k = true \/ exists n, Reminder k n ∈ notifications s.

(** The timers of a slot whose clock-time reads [medDateTime] on the day
    of the pass: the first reminder is due sixty minutes after it and
    carries the instant of the second, due sixty minutes later. *)
Definition firstTimerOf (day : Z) (m : Medication) (t : Slot) (medDateTime : Z)
  : Z * Callback :=
  (medDateTime + 60 * 60 * 1000,
   FirstReminder day (slotKey m t) (name m) (time t) (medDateTime + 2 * 60 * 60 * 1000)).

Definition secondTimerOf (day : Z) (m : Medication) (t : Slot) (medDateTime : Z)
  : Z * Callback :=
  (medDateTime + 2 * 60 * 60 * 1000, SecondReminder day (slotKey m t) (name m)).

(** A timer is pending under a handle that a later [setTimeout] cannot
    return again. *)
Definition keepsPending (x : Z * Callback) (s : Scheduler) : Prop :=
  exists h, pendingTimeouts s !! h = Some x /\ handlesFresh s.

(** An event between two passes: the runtime fires a timer, or a slot is
    marked taken. *)
Definition betweenPasses (o : Occurrence) : Prop :=
  match event o with
  | MedsDelivered _ _ => False
  | _ => True
  end.

(** The timed slots of a due-set with their medications, in the order
    the pass visits them. *)
Definition slotsOfMed (dm : DueMedication) : list (Medication * Slot) :=
  match times dm with
  | Some slots => map (pair (med dm)) slots
  | None => []
  end.

Definition slotsOf (meds : list DueMedication) : list (Medication * Slot) :=
  concat (map slotsOfMed meds).

Section ArmedTimers.
Context {host : HostClock}.


(** An event that is not a delivery of another day: whatever is marked
    or fired, at any clock reading, and medications delivered on [day]. *)
Definition deliveredOn (day : Z) (o : Occurrence) : Prop :=
  match event o with
  | MedsDelivered _ _ => onDay day o
  | _ => True
  end.


End ArmedTimers.

Definition withoutPermission (o : Occurrence) : Prop := permissionGranted o = false.

Definition withPermission (o : Occurrence) : Prop := permissionGranted o = true.

Definition isTimerFire (o : Occurrence) : Prop := exists h, event o = TimerFires h.

(** The part of the state that concerns notifications is as in [s], up to
    the marker being emptied. *)
Definition silentSince (s s' : Scheduler) : Prop :=
  notifications s' = notifications s
  /\ notifiedGeneralMeds s' ⊆ notifiedGeneralMeds s.

(** Between events: no medication has had more than one general
    notification, and one that has had its notification is marked for
    [day] in the marker of that day. *)
Definition generalOnce (day : Z) (s : Scheduler) : Prop :=
  forall medId,
    (generalCount medId (notifications s) <= 1)%nat
    /\ (generalCount medId (notifications s) <> 0%nat ->
        (medId, day) ∈ notifiedGeneralMeds s /\ notifiedDate s = Some day).

(** The same inside the loop of a pass of [day], where the marker is
    that of [day]. *)
Definition generalOnceInPass (day : Z) (s : Scheduler) : Prop :=
  notifiedDate s = Some day
  /\ forall medId,
       (generalCount medId (notifications s) <= 1)%nat
       /\ (generalCount medId (notifications s) <> 0%nat ->
           (medId, day) ∈ notifiedGeneralMeds s).

(** A medication marked for [day] has had its general notification. *)
Definition generalMarked (day : Z) (s : Scheduler) : Prop :=
  forall medId,
    (medId, day) ∈ notifiedGeneralMeds s -> generalCount medId (notifications s) <> 0%nat.

(** The marker is that of [day] and marks [medId]. *)
Definition markedToday (day : Z) (medId : string) (s : Scheduler) : Prop :=
  notifiedDate s = Some day /\ (medId, day) ∈ notifiedGeneralMeds s.

(** The medications of a due-set that have no clock-time. *)
Definition untimed (dm : DueMedication) : Prop :=
  times dm = None \/ times dm = Some [].

(** The number of the local calendar date of [t], counted in days from
    1970-01-01, where local time is [off] milliseconds ahead of UTC. *)
Definition localDay (off t : Z) : Z := (t + off) / msPerDay.

(** A time value is the UTC midnight of a date, as [new Date("YYYY-MM-DD")]
    yields for the value of a date input. *)
Definition utcMidnight (t : Z) : Prop := t mod msPerDay = 0.

(** The number of due days among the [d] consecutive days that start
    with the day of [from]. *)
Definition dueDays {host : HostClock} (m : Medication) (from d : Z) : Z :=
  Z.of_nat
    (length
       (List.filter (fun i => isDue m (from + Z.of_nat i * msPerDay))
          (seq 0 (Z.to_nat d)))).

(** A text the scheduler reads as a clock-time of the day. *)
Definition clockTime (t : string) : Prop :=
  exists h mi, hoursMinutes t = Some (h, mi) /\ 0 <= h < 24 /\ 0 <= mi < 60.

(** What the submit handlers require of a form before they write it. *)
Definition complete (dbReady : bool) (form : Form.t) : Prop :=
  Form.name form <> ""%string /\ Form.dosageAmount form <> ""%string
  /\ Form.dosageUnit form <> ""%string /\ Form.frequency form <> ""%string
  /\ (Form.requiresStartDate (Form.frequency form) = true -> Form.startDate form <> ""%string)
  /\ dbReady = true.

(** The log types that the smart selection takes. *)
Definition selectableType (ty : string) : Prop :=
  ty = "food"%string \/ ty = "symptoms"%string \/ ty = "poop"%string.

(** The value of a time input for the clock reading [h]:[mi], in the
    form [HH:mm]. *)
Definition digitChar (d : Z) : Ascii.ascii := Ascii.ascii_of_N (Z.to_N (48 + d)).

Definition twoDigits (n : Z) : string :=
  String (digitChar (n / 10)) (String (digitChar (n mod 10)) EmptyString).

Definition timeText (h mi : Z) : string :=
  String (digitChar (h / 10)) (String (digitChar (h mod 10)) (String colon (twoDigits mi))).

(** The time of the local day at [t], in milliseconds since local
    midnight. *)
Definition localTimeOfDay (off t : Z) : Z := (t + off) mod msPerDay.

(** An entry is in one of the columns of the chart. *)
Definition charted (off now : Z) (logEntries : list LogEntry) (entry : LogEntry) : Prop :=
  exists column, column ∈ chartLogs off now logEntries /\ entry ∈ column.

(** * Worked scenarios on a UTC host: the data *)

(** Friday 2024-10-04, 00:00 UTC. *)
Definition scenarioDay : Z := 20000 * msPerDay.

Definition scenarioAt (h m : Z) : Z := scenarioDay + h * msPerHour + m * msPerMinute.

(** The medication [M] of the end-to-end scenario: once daily at 09:00. *)
Definition medM : Medication :=
  {| id := "M"; name := "Mesalamine"; frequency := "Once daily";
     medTimes := ["09:00"]; startDate := None; isPrimary := true |}.

Definition everyOtherDayMed : Medication :=
  {| id := "S1"; name := "Iron"; frequency := "Every other day";
     medTimes := ["09:00"]; startDate := Some scenarioDay; isPrimary := false |}.

Definition weeklyMed : Medication :=
  {| id := "S2"; name := "Methotrexate"; frequency := "Weekly";
     medTimes := ["09:00"]; startDate := Some scenarioDay; isPrimary := false |}.


Definition unanchoredMed : Medication :=
  {| id := "S4"; name := "Vitamin D"; frequency := "Weekly";
     medTimes := ["09:00"]; startDate := None; isPrimary := false |}.

(** [M] is delivered to the component at [h:m] of the scenario day. *)
Definition deliveryAt (h m : Z) : Occurrence :=
  {| clock := scenarioAt h m; permissionGranted := true;
     event := MedsDelivered (Some medM) [] |}.


Definition fireAt (h m : Z) (handle : positive) : Occurrence :=
  {| clock := scenarioAt h m; permissionGranted := true;
     event := TimerFires handle |}.

Definition utcRun (os : list Occurrence) : Scheduler := run (host := utcHost) os (mount ∅).

(** [M] armed at 09:30, and then acknowledged at 09:40. *)
Definition armedState : Scheduler := utcRun [deliveryAt 9 30].



(** A twice-daily medication whose two clock-times were entered equal. *)
Definition medTwice : Medication :=
  {| id := "M2"; name := "Budesonide"; frequency := "Twice daily";
     medTimes := ["09:00"; "09:00"]; startDate := None; isPrimary := true |}.

Definition deliveryOf (m : Medication) (h mi : Z) : Occurrence :=
  {| clock := scenarioAt h mi; permissionGranted := true;
     event := MedsDelivered (Some m) [] |}.

Definition markOf (m : Medication) (slotTime : string) (h mi : Z) : Occurrence :=
  {| clock := scenarioAt h mi; permissionGranted := true;
     event := MarkTaken (id m) slotTime |}.

(** A daily supplement without clock-times. *)
Definition untimedMed : Medication :=
  {| id := "S5"; name := "Probiotic"; frequency := "Once daily";
     medTimes := []; startDate := None; isPrimary := false |}.

Definition deliveryWith (sups : list Medication) (granted : bool) (h mi : Z) : Occurrence :=
  {| clock := scenarioAt h mi; permissionGranted := granted;
     event := MedsDelivered (Some medM) sups |}.

Definition fireWithout (h mi : Z) (handle : positive) : Occurrence :=
  {| clock := scenarioAt h mi; permissionGranted := false;
     event := TimerFires handle |}.

(** The 09:00 slot of [M] as the due-set of a delivery after 09:00 holds
    it, and [M] as an element of that due-set. *)
Definition slot0900 : Slot := {| time := "09:00"; isPast := true |}.

Definition dueM : DueMedication :=
  {| med := markPrimary medM; times := Some [slot0900] |}.

(** Local time five hours behind UTC. *)
Definition utcMinus5 : Z := - 5 * msPerHour.

(** A second supplement under the name of [everyOtherDayMed]. *)
Definition ironWeekly : Medication :=
  {| id := "S6"; name := "Iron"; frequency := "Weekly";
     medTimes := ["09:00"]; startDate := Some scenarioDay; isPrimary := false |}.

(** The form of [weeklyMed], without a clock-time. *)
Definition weeklyForm : Form.t :=
  {| Form.name := "Methotrexate"; Form.dosageAmount := "15"; Form.dosageUnit := "mg";
     Form.frequency := "Weekly"; Form.medTimes := []; Form.startDate := "2024-10-04" |}.

(** The same slot and due-set element in a delivery before 09:00. *)
Definition slot0900Ahead : Slot := {| time := "09:00"; isPast := false |}.

Definition dueMAhead : DueMedication :=
  {| med := markPrimary medM; times := Some [slot0900Ahead] |}.




(** * Properties *)

(** ** Arithmetic of the source's operators *)

(** On a positive modulus the truncating remainder of JavaScript vanishes
    exactly when the mathematical one does, whatever the sign of the
    dividend. *)
Lemma rem_zero_iff_mod_zero (a n : Z) :
  0 < n -> (Z.rem a n =? 0) = (a mod n =? 0).
Proof.
  intros Hn. apply eq_true_iff_eq.
  rewrite !Z.eqb_eq, Z.rem_divide, Z.mod_divide by lia. reflexivity.
Qed.

Lemma ceilDiv_isCeiling (a b : Z) : 0 < b -> isCeiling a b (ceilDiv a b).
Proof.
  intros Hb. unfold isCeiling, ceilDiv.
  pose proof (Z.div_mod (- a) b ltac:(lia)) as Hdm.
  pose proof (Z.mod_pos_bound (- a) b Hb) as Hr.
  nia.
Qed.

Lemma isCeiling_unique (a b c c' : Z) :
  0 < b -> isCeiling a b c -> isCeiling a b c' -> c = c'.
Proof. unfold isCeiling. intros Hb H1 H2. nia. Qed.

(** ** Frequency calculus *)

Section FrequencyFacts.
Context {host : HostClock}.

Lemma isDue_anchored (m : Medication) (sd q : Z) :
  AnchoredKind (frequency m) -> startDate m = Some sd ->
  isDue m q = dueByFrequency (frequency m) (Some sd) q.
Proof.
  intros Hk Hsd. unfold isDue, isMedicationDueToday. rewrite Hsd.
  destruct Hk as [freq n []| |]; reflexivity.
Qed.

Lemma dueByFrequency_interval (freq : string) (n sd q : Z) :
  IntervalKind freq n ->
  dueByFrequency freq (Some sd) q
  = (0 <=? diffDays q sd) && (diffDays q sd mod n =? 0).
Proof.
  intros Hk.
  transitivity ((0 <=? diffDays q sd) && (Z.rem (diffDays q sd) n =? 0)).
  - destruct Hk; reflexivity.
  - f_equal. apply rem_zero_iff_mod_zero. destruct Hk; lia.
Qed.


(** C10. A weekly medication with a start date is due on every query
    date whose day of the week is that of the start date; the branch has
    no [d >= 0] guard, so this includes the matching weekdays before the
    start date. *)
Theorem weekly_due_iff (m : Medication) (sd q : Z) :
  frequency m = "Weekly" -> startDate m = Some sd ->
  (isDue m q = true <-> getDay (setHours q 0 0) = getDay (setHours sd 0 0))
  /\ (diffDays q sd < 0 ->
      getDay (setHours q 0 0) = getDay (setHours sd 0 0) -> isDue m q = true).
Proof.
  intros Hf Hsd.
  assert (Hiff : isDue m q = true
                 <-> getDay (setHours q 0 0) = getDay (setHours sd 0 0)).
  { rewrite (isDue_anchored m sd q) by (rewrite ?Hf; eauto using AnchoredKind).
    rewrite Hf. change (dueByFrequency "Weekly" (Some sd) q)
      with (getDay (setHours q 0 0) =? getDay (setHours sd 0 0)).
    apply Z.eqb_eq. }
  split; [exact Hiff|]. intros _ Hday. apply Hiff, Hday.
Qed.


(** C8. When the frequency needs a start date and none is recorded, the
    function returns [false] for every query date; it is total (nothing
    is thrown) and the only trace it leaves is one console warning. *)
Theorem missing_start_date_never_due (m : Medication) (q : Z) :
  AnchoredKind (frequency m) -> startDate m = None ->
  isDue m q = false
  /\ isMedicationDueToday m q = ([missingStartDateWarning (name m)], false).
Proof.
  intros Hk Hsd. unfold isDue, isMedicationDueToday. rewrite Hsd.
  destruct Hk as [freq n []| |]; split; reflexivity.
Qed.

End FrequencyFacts.

(** On a UTC host the offset [d] is the difference of the day numbers
    of the two dates, so a query date [k] whole days after the start date
    has offset [k]. *)
Lemma utc_diffDays (q sd : Z) :
  diffDays (host := utcHost) q sd = q / msPerDay - sd / msPerDay.
Proof.
  unfold diffDays. cbn [setHours utcHost]. unfold utcSetHours.
  assert (Hq : q - q mod msPerDay + 0 * msPerHour + 0 * msPerMinute
               = (q / msPerDay) * msPerDay).
  { pose proof (Z.div_mod q msPerDay ltac:(discriminate)). lia. }
  assert (Hs : sd - sd mod msPerDay + 0 * msPerHour + 0 * msPerMinute
               = (sd / msPerDay) * msPerDay).
  { pose proof (Z.div_mod sd msPerDay ltac:(discriminate)). lia. }
  rewrite Hq, Hs, <- Z.mul_sub_distr_r. apply Z.div_mul. discriminate.
Qed.

Lemma utc_diffDays_offset (sd k : Z) :
  diffDays (host := utcHost) (sd + k * msPerDay) sd = k.
Proof.
  rewrite utc_diffDays, Z.div_add by discriminate. lia.
Qed.

(** ** Dose requirement calculator *)

Lemma calculateDosesNeeded_interval (freq : string) (n d : Z) :
  IntervalKind freq n -> d <> 0 -> calculateDosesNeeded freq d = ceilDiv d n.
Proof.
  intros Hk Hd. unfold calculateDosesNeeded.
  destruct (Z.eqb_spec d 0) as [|_]; [contradiction|].
  destruct Hk; reflexivity.
Qed.

(** C7. For a positive number of days the calculator returns the number
    of days, twice and three times it for the daily kinds, the ceiling of
    the quotient by 2, 3, 4, 7 and 14 for the interval, weekly and
    bi-weekly kinds, and 0 for as-needed medication whatever the
    duration; so 10 for twice daily over 5 days and 2 for weekly over 10
    days. *)
Theorem calculateDosesNeeded_by_kind (d : Z) :
  0 < d ->
  calculateDosesNeeded "Once daily" d = d
  /\ calculateDosesNeeded "Twice daily" d = 2 * d
  /\ calculateDosesNeeded "Three times daily" d = 3 * d
  /\ (forall freq n, IntervalKind freq n -> isCeiling d n (calculateDosesNeeded freq d))
  /\ isCeiling d 7 (calculateDosesNeeded "Weekly" d)
  /\ isCeiling d 14 (calculateDosesNeeded "Bi-weekly" d)
  /\ (forall d', calculateDosesNeeded "As needed" d' = 0)
  /\ calculateDosesNeeded "Twice daily" 5 = 10
  /\ calculateDosesNeeded "Weekly" 10 = 2.
Proof.
  intros Hd.
  assert (Hnz : (d =? 0) = false) by (apply Z.eqb_neq; lia).
  assert (Hdaily : forall freq n, IntervalKind freq n ->
                   isCeiling d n (calculateDosesNeeded freq d)).
  { intros freq n Hk.
    rewrite (calculateDosesNeeded_interval freq n) by (assumption || lia).
    apply ceilDiv_isCeiling. destruct Hk; lia. }
  refine (conj _ (conj _ (conj _ (conj Hdaily (conj _ (conj _ (conj _
            (conj eq_refl eq_refl)))))))).
  - unfold calculateDosesNeeded. rewrite Hnz. reflexivity.
  - unfold calculateDosesNeeded. rewrite Hnz. cbn. lia.
  - unfold calculateDosesNeeded. rewrite Hnz. cbn. lia.
  - unfold calculateDosesNeeded. rewrite Hnz.
    apply (ceilDiv_isCeiling d 7). lia.
  - unfold calculateDosesNeeded. rewrite Hnz.
    apply (ceilDiv_isCeiling d 14). lia.
  - intros d'. unfold calculateDosesNeeded. destruct (d' =? 0); reflexivity.
Qed.

(** ** Travel provisioning *)

Lemma assignEntry_lookup (key : string) (value : Z) (obj : gmap string Z) (nm : string) :
  assignEntry key value obj !! nm
  = if bool_decide (key = nm /\ key <> "__proto__"%string) then Some value else obj !! nm.
Proof.
  unfold assignEntry. destruct (String.eqb_spec key "__proto__") as [E|E].
  - rewrite bool_decide_eq_false_2 by tauto. reflexivity.
  - destruct (decide (key = nm)) as [<-|Hne].
    + rewrite bool_decide_eq_true_2 by tauto. apply lookup_insert_eq.
    + rewrite bool_decide_eq_false_2 by tauto. apply lookup_insert_ne, Hne.
Qed.

(** Every entry of the supplement dictionary is the plain dose count of
    a supplement of that name. *)
Lemma supplementDoses_entries (sups : list Medication) (d : Z) :
  forall (acc : gmap string Z) (nm : string) (v : Z),
    fold_left
      (fun calculatedSupplements sup =>
         assignEntry (name sup) (calculateDosesNeeded (frequency sup) d)
           calculatedSupplements)
      sups acc !! nm = Some v ->
    acc !! nm = Some v
    \/ exists sup, sup ∈ sups /\ name sup = nm
                   /\ v = calculateDosesNeeded (frequency sup) d.
Proof.
  induction sups as [|sup sups IH]; intros acc nm v Hlook; cbn in Hlook.
  - left. exact Hlook.
  - apply IH in Hlook as [Hacc | (sup' & Hin & Hnm & Hv)].
    + rewrite assignEntry_lookup in Hacc.
      destruct (bool_decide_reflect (name sup = nm /\ name sup <> "__proto__"%string))
        as [[Heq _]|_].
      * injection Hacc as <-.
        right. exists sup. split; [left|]. split; [exact Heq|reflexivity].
      * left. exact Hacc.
    + right. exists sup'. split; [right; exact Hin|]. split; assumption.
Qed.

(** Every supplement has an entry under its name, unless the name is
    [__proto__]. *)
Lemma supplementDoses_covers (sups : list Medication) (d : Z) :
  forall (acc : gmap string Z) (nm : string),
    nm <> "__proto__"%string ->
    is_Some (acc !! nm) \/ (exists sup, sup ∈ sups /\ name sup = nm) ->
    is_Some (fold_left
      (fun calculatedSupplements sup =>
         assignEntry (name sup) (calculateDosesNeeded (frequency sup) d)
           calculatedSupplements)
      sups acc !! nm).
Proof.
  induction sups as [|sup sups IH]; intros acc nm Hnm Hin; cbn.
  - destruct Hin as [Hacc | (sup & Hin & _)]; [exact Hacc|].
    apply elem_of_nil in Hin. contradiction.
  - apply IH; [exact Hnm|]. rewrite assignEntry_lookup.
    destruct (bool_decide_reflect (name sup = nm /\ name sup <> "__proto__"%string))
      as [_|Hno]; [left; eauto|].
    destruct Hin as [Hacc | (sup' & Hin & Hnm')]; [left; exact Hacc|].
    apply elem_of_cons in Hin as [->|Hin].
    + exfalso. apply Hno. split; [exact Hnm'|]. rewrite Hnm'. exact Hnm.
    + right. exists sup'. split; assumption.
Qed.

(** No supplement makes an entry under [__proto__]. *)
Lemma supplementDoses_proto (sups : list Medication) (d : Z) :
  forall (acc : gmap string Z),
    acc !! "__proto__"%string = None ->
    fold_left
      (fun calculatedSupplements sup =>
         assignEntry (name sup) (calculateDosesNeeded (frequency sup) d)
           calculatedSupplements)
      sups acc !! "__proto__"%string = None.
Proof.
  induction sups as [|sup sups IH]; intros acc Hacc; cbn; [exact Hacc|].
  apply IH. rewrite assignEntry_lookup.
  rewrite bool_decide_eq_false_2; [exact Hacc|].
  intros [E Hne]. contradiction.
Qed.

(** C6. With both travel dates set and a main medication [m], the trip
    lasts [ceil (|ret - dep| / msPerDay) + 1] days, the main medication is
    provisioned with its dose count plus 2, 3 or 4 doses (under 14 days,
    14 to 30 days, over 30 days), and every supplement entry is the plain
    dose count of a supplement of that name, without any buffer; every
    supplement has such an entry, except that a supplement named
    [__proto__] makes no entry at all.  A once-daily main medication thus
    needs 7 doses for 5 days and 23 for 20 days. *)
Theorem buffer_only_for_primary (dep ret : Z) (m : Medication) (sups : list Medication) :
  let d := tripDurationDays dep ret in
  let packing := travelDoses (Some dep) (Some ret) (Some m) sups in
  isCeiling (Z.abs (ret - dep)) msPerDay (d - 1)
  /\ (d < 14 -> primaryMedNeeded packing = calculateDosesNeeded (frequency m) d + 2)
  /\ (14 <= d <= 30 ->
      primaryMedNeeded packing = calculateDosesNeeded (frequency m) d + 3)
  /\ (30 < d -> primaryMedNeeded packing = calculateDosesNeeded (frequency m) d + 4)
  /\ (forall nm v, supplementsNeeded packing !! nm = Some v ->
      exists sup, sup ∈ sups /\ name sup = nm
                  /\ v = calculateDosesNeeded (frequency sup) d)
  /\ (forall sup, sup ∈ sups -> name sup <> "__proto__"%string ->
      is_Some (supplementsNeeded packing !! name sup))
  /\ supplementsNeeded packing !! "__proto__"%string = None
  /\ (frequency m = "Once daily" -> d = 5 -> primaryMedNeeded packing = 7)
  /\ (frequency m = "Once daily" -> d = 20 -> primaryMedNeeded packing = 23).
Proof.
  intros d packing.
  assert (Hprim : primaryMedNeeded packing
                  = calculateDosesNeeded (frequency m) d + extraDoses d)
    by reflexivity.
  refine (conj _ (conj _ (conj _ (conj _ (conj _ (conj _ (conj _ (conj _ _)))))))).
  - unfold d, tripDurationDays.
    replace (ceilDiv (Z.abs (ret - dep)) msPerDay + 1 - 1)
      with (ceilDiv (Z.abs (ret - dep)) msPerDay) by lia.
    apply ceilDiv_isCeiling. reflexivity.
  - intros Hd. rewrite Hprim. unfold extraDoses.
    destruct (Z.ltb_spec d 14); [reflexivity|lia].
  - intros Hd. rewrite Hprim. unfold extraDoses.
    destruct (Z.ltb_spec d 14); [lia|].
    destruct (Z.leb_spec d 30); [reflexivity|lia].
  - intros Hd. rewrite Hprim. unfold extraDoses.
    destruct (Z.ltb_spec d 14); [lia|].
    destruct (Z.leb_spec d 30); [lia|reflexivity].
  - intros nm v Hlook.
    apply supplementDoses_entries in Hlook as [Hempty|Hsup]; [|exact Hsup].
    rewrite lookup_empty in Hempty. discriminate Hempty.
  - intros sup Hin Hnm. apply supplementDoses_covers; [exact Hnm|]. right. exists sup. auto.
  - apply supplementDoses_proto, lookup_empty.
  - intros Hf Hd. rewrite Hprim, Hf, Hd. reflexivity.
  - intros Hf Hd. rewrite Hprim, Hf, Hd. reflexivity.
Qed.

(** ** Notification scheduler: what a scheduling pass does *)

Lemma PassExtends_refl now day stored s : PassExtends now day stored s s.
Proof.
  split; auto. exists []. rewrite app_nil_r. auto.
Qed.

Lemma PassExtends_trans now day stored s1 s2 s3 :
  PassExtends now day stored s1 s2 -> PassExtends now day stored s2 s3 ->
  PassExtends now day stored s1 s3.
Proof.
  intros [St1 Tk1 Pe1 (n1 & No1 & G1)] [St2 Tk2 Pe2 (n2 & No2 & G2)]. split.
  - congruence.
  - congruence.
  - intros h fireAt cb Hp. apply Pe2 in Hp as [Hp|Hnew]; [apply Pe1, Hp|right; exact Hnew].
  - exists (n1 ++ n2). rewrite No2, No1, app_assoc. split; [reflexivity|].
    apply Forall_app. auto.
Qed.

Lemma fold_left_PassExtends {A} now day stored (f : Scheduler -> A -> Scheduler) (l : list A) :
  (forall s a, PassExtends now day stored s (f s a)) ->
  forall s, PassExtends now day stored s (fold_left f l s).
Proof.
  intros Hf. induction l as [|a l IH]; intros s; cbn.
  - apply PassExtends_refl.
  - eapply PassExtends_trans; [apply Hf|apply IH].
Qed.

Section PassFacts.
Context {host : HostClock}.

Lemma scheduleSlot_not_armed now day stored m t s :
  slotArmed now stored m t = false -> scheduleSlot now day stored m t s = s.
Proof.
  unfold slotArmed, scheduleSlot. intros Ha.
  destruct (truthyAt stored _); [reflexivity|].
  destruct (atClockTime now (time t)) as [mdt|]; [|reflexivity].
  cbn in Ha. rewrite Ha. reflexivity.
Qed.

Lemma scheduleSlot_armed now day stored m t s :
  slotArmed now stored m t = true ->
  exists medDateTime,
    atClockTime now (time t) = Some medDateTime
    /\ now < medDateTime + 60 * 60 * 1000
    /\ truthyAt stored (medIdentifierOf (id m) (time t)) = false
    /\ scheduleSlot now day stored m t s
       = withTimers <[medIdentifierOf (id m) (time t) := nextTimerId s]>
           (snd (setTimeout (medDateTime + 60 * 60 * 1000)
                   (FirstReminder day (medIdentifierOf (id m) (time t)) (name m) (time t)
                      (medDateTime + 2 * 60 * 60 * 1000)) s)).
Proof.
  unfold slotArmed, scheduleSlot. intros Ha.
  destruct (truthyAt stored _); [discriminate Ha|].
  destruct (atClockTime now (time t)) as [mdt|]; [|discriminate Ha].
  cbn in Ha. rewrite Ha. exists mdt. apply Z.ltb_lt in Ha. auto.
Qed.

Lemma scheduleSlot_extends now day stored m t s :
  PassExtends now day stored s (scheduleSlot now day stored m t s).
Proof.
  destruct (slotArmed now stored m t) eqn:Ha.
  - destruct (scheduleSlot_armed now day stored m t s Ha)
      as (mdt & Hat & Hlt & Htaken & ->).
    split; try reflexivity.
    + intros h fireAt cb. cbn.
      destruct (decide (nextTimerId s = h)) as [->|Hne].
      * rewrite lookup_insert_eq. intros [= <- <-]. right.
        eexists _, _, _. split; [|split; [exact Hlt|exact Htaken]].
        f_equal. lia.
      * rewrite lookup_insert_ne by exact Hne. auto.
    + exists []. cbn. rewrite app_nil_r. auto.
  - rewrite scheduleSlot_not_armed by exact Ha. apply PassExtends_refl.
Qed.

Lemma notifyGeneral_extends now granted day stored m s :
  PassExtends now day stored s (notifyGeneral granted day m s).
Proof.
  unfold notifyGeneral.
  destruct (negb _ && granted); [|apply PassExtends_refl].
  split; try reflexivity.
  - cbn. auto.
  - eexists [_]. cbn. split; [reflexivity|]. repeat constructor.
Qed.

Lemma scheduleMed_extends now granted day stored dm s :
  PassExtends now day stored s (scheduleMed now granted day stored dm s).
Proof.
  unfold scheduleMed. destruct (times dm) as [[|t ts]|];
    try apply notifyGeneral_extends.
  apply (fold_left_PassExtends now day stored
           (fun acc slot => scheduleSlot now day stored (med dm) slot acc)).
  intros. apply scheduleSlot_extends.
Qed.

End PassFacts.

(** Clearing the tracked timers removes from the pending set exactly the
    handles stored in the table, and touches nothing else. *)
Lemma foldr_clearTimeout (hs : list positive) (s : Scheduler) :
  foldr clearTimeout s hs = withPending (fun p => foldr delete p hs) s.
Proof.
  induction hs as [|h hs IH]; cbn.
  - destruct s; reflexivity.
  - rewrite IH. reflexivity.
Qed.

Lemma clearTrackedTimers_pending (s : Scheduler) (h : positive) (x : Z * Callback) :
  pendingTimeouts (clearTrackedTimers s) !! h = Some x
  <-> pendingTimeouts s !! h = Some x
      /\ forall key, notificationTimers s !! key <> Some h.
Proof.
  unfold clearTrackedTimers. rewrite foldr_clearTimeout. cbn.
  rewrite lookup_foldr_delete_Some. split.
  - intros [Hnot Hp]. split; [exact Hp|]. intros key Hk. apply Hnot.
    apply list_elem_of_fmap. exists (key, h). split; [reflexivity|].
    apply elem_of_map_to_list. exact Hk.
  - intros [Hp Hnot]. split; [|exact Hp]. intros Hin.
    apply list_elem_of_fmap in Hin as ([key h'] & -> & Hin).
    apply elem_of_map_to_list in Hin. exact (Hnot key Hin).
Qed.

Lemma clearTrackedTimers_frame (s : Scheduler) :
  localStorage (clearTrackedTimers s) = localStorage s
  /\ takenMedsState (clearTrackedTimers s) = takenMedsState s
  /\ notificationTimers (clearTrackedTimers s) = notificationTimers s
  /\ nextTimerId (clearTrackedTimers s) = nextTimerId s
  /\ notifiedDate (clearTrackedTimers s) = notifiedDate s
  /\ notifiedGeneralMeds (clearTrackedTimers s) = notifiedGeneralMeds s
  /\ notifications (clearTrackedTimers s) = notifications s.
Proof.
  unfold clearTrackedTimers. rewrite foldr_clearTimeout. cbn. auto 10.
Qed.

Section PassResult.
Context {host : HostClock}.

Lemma schedulingPass_unfold now granted meds s :
  schedulingPass now granted meds s
  = fold_left
      (fun acc dm =>
         scheduleMed now granted (todayKeyOf now) (storedTaken s (todayKeyOf now)) dm acc)
      meds (passStart now s).
Proof. reflexivity. Qed.

Lemma passStart_frame now s :
  localStorage (passStart now s) = localStorage s
  /\ takenMedsState (passStart now s) = storedTaken s (todayKeyOf now)
  /\ notificationTimers (passStart now s) = ∅
  /\ notifications (passStart now s) = notifications s
  /\ pendingTimeouts (passStart now s) = pendingTimeouts (clearTrackedTimers s).
Proof.
  unfold passStart. cbn zeta.
  set (s1 := withTaken _ s).
  destruct (clearTrackedTimers_frame s1) as (St & Tk & Tm & Nx & Nd & Ng & No).
  assert (Hp : pendingTimeouts (clearTrackedTimers s1)
               = pendingTimeouts (clearTrackedTimers s)).
  { unfold clearTrackedTimers. rewrite !foldr_clearTimeout. reflexivity. }
  destruct (decide _); cbn; rewrite ?St, ?Tk, ?No, ?Hp; auto.
Qed.

(** The extension brought by a whole pass, from the state it starts in. *)
Lemma schedulingPass_extends now granted meds s :
  PassExtends now (todayKeyOf now) (storedTaken s (todayKeyOf now))
    (passStart now s) (schedulingPass now granted meds s).
Proof.
  rewrite schedulingPass_unfold.
  apply (fold_left_PassExtends now (todayKeyOf now) (storedTaken s (todayKeyOf now))
           (fun acc dm => scheduleMed now granted (todayKeyOf now)
                            (storedTaken s (todayKeyOf now)) dm acc)).
  intros. apply scheduleMed_extends.
Qed.

Lemma schedulingPass_store now granted meds s :
  localStorage (schedulingPass now granted meds s) = localStorage s.
Proof.
  rewrite (ext_store _ _ _ _ _ (schedulingPass_extends now granted meds s)).
  apply passStart_frame.
Qed.

Lemma schedulingPass_taken now granted meds s :
  takenMedsState (schedulingPass now granted meds s) = storedTaken s (todayKeyOf now).
Proof.
  rewrite (ext_taken _ _ _ _ _ (schedulingPass_extends now granted meds s)).
  apply passStart_frame.
Qed.

(** A pass emits general notifications only. *)
Lemma schedulingPass_notifications now granted meds s :
  exists new,
    notifications (schedulingPass now granted meds s) = notifications s ++ new
    /\ Forall isGeneral new.
Proof.
  destruct (ext_notifications _ _ _ _ _ (schedulingPass_extends now granted meds s))
    as (new & Hn & Hg).
  exists new. split; [|exact Hg]. rewrite Hn. f_equal. apply passStart_frame.
Qed.

(** A timer pending after a pass was either pending and untracked before
    it, or is a first-tier timer that the pass armed: of today, due after
    [now], for a key not marked taken.  A pass arms no second-tier timer. *)
Lemma schedulingPass_pending now granted meds s h fireAt cb :
  pendingTimeouts (schedulingPass now granted meds s) !! h = Some (fireAt, cb) ->
  (pendingTimeouts s !! h = Some (fireAt, cb)
   /\ forall key, notificationTimers s !! key <> Some h)
  \/ (exists key medName slotTime,
        cb = FirstReminder (todayKeyOf now) key medName slotTime (fireAt + 60 * 60 * 1000)
        /\ now < fireAt
        /\ truthyAt (storedTaken s (todayKeyOf now)) key = false).
Proof.
  intros Hp.
  apply (ext_pending _ _ _ _ _ (schedulingPass_extends now granted meds s)) in Hp
    as [Hp|Hnew]; [left|right; exact Hnew].
  destruct (passStart_frame now s) as (_ & _ & _ & _ & Hpe).
  rewrite Hpe in Hp. apply clearTrackedTimers_pending in Hp. exact Hp.
Qed.

End PassResult.

(** ** The keys a pass arms *)

Section ArmedKeys.
Context {host : HostClock}.

Lemma scheduleSlot_timer_keys now day stored m t s :
  dom (notificationTimers (scheduleSlot now day stored m t s))
  = dom (notificationTimers s) ∪ armedKeysOfSlots now stored m [t].
Proof.
  unfold armedKeysOfSlots. cbn [List.filter].
  destruct (slotArmed now stored m t) eqn:Ha.
  - destruct (scheduleSlot_armed now day stored m t s Ha) as (mdt & _ & _ & _ & ->).
    cbn. rewrite dom_insert_L. unfold slotKey. set_solver.
  - rewrite scheduleSlot_not_armed by exact Ha. cbn. set_solver.
Qed.

Lemma armedKeysOfSlots_cons now stored m t ts :
  armedKeysOfSlots now stored m (t :: ts)
  = armedKeysOfSlots now stored m [t] ∪ armedKeysOfSlots now stored m ts.
Proof.
  unfold armedKeysOfSlots. cbn [List.filter].
  destruct (slotArmed now stored m t); cbn; set_solver.
Qed.

Lemma scheduleSlots_timer_keys now day stored m slots :
  forall s,
    dom (notificationTimers
           (fold_left (fun acc slot => scheduleSlot now day stored m slot acc) slots s))
    = dom (notificationTimers s) ∪ armedKeysOfSlots now stored m slots.
Proof.
  induction slots as [|t ts IH]; intros s; cbn [fold_left].
  - unfold armedKeysOfSlots. cbn. set_solver.
  - rewrite IH, scheduleSlot_timer_keys, (armedKeysOfSlots_cons now stored m t ts).
    set_solver.
Qed.

Lemma notifyGeneral_timers granted day m s :
  notificationTimers (notifyGeneral granted day m s) = notificationTimers s.
Proof. unfold notifyGeneral. destruct (negb _ && granted); reflexivity. Qed.

Lemma scheduleMed_timer_keys now granted day stored dm s :
  dom (notificationTimers (scheduleMed now granted day stored dm s))
  = dom (notificationTimers s) ∪ armedKeysOfMed now stored dm.
Proof.
  unfold scheduleMed, armedKeysOfMed. destruct (times dm) as [[|t ts]|].
  - rewrite notifyGeneral_timers. unfold armedKeysOfSlots. cbn. set_solver.
  - apply scheduleSlots_timer_keys.
  - rewrite notifyGeneral_timers. set_solver.
Qed.

Lemma scheduleMeds_timer_keys now granted day stored meds :
  forall s,
    dom (notificationTimers
           (fold_left (fun acc dm => scheduleMed now granted day stored dm acc) meds s))
    = dom (notificationTimers s) ∪ armedKeys now stored meds.
Proof.
  induction meds as [|dm meds IH]; intros s; cbn [fold_left].
  - unfold armedKeys. cbn. set_solver.
  - rewrite IH, scheduleMed_timer_keys. unfold armedKeys. cbn. set_solver.
Qed.

(** The keys of the timer table after a pass depend on the clock reading,
    the due-set and the day's stored acknowledgements, and on nothing
    else: in particular not on the timers armed before. *)
Lemma schedulingPass_timer_keys now granted meds s :
  dom (notificationTimers (schedulingPass now granted meds s))
  = armedKeys now (storedTaken s (todayKeyOf now)) meds.
Proof.
  rewrite schedulingPass_unfold, scheduleMeds_timer_keys.
  destruct (passStart_frame now s) as (_ & _ & -> & _). set_solver.
Qed.



End ArmedKeys.

(** ** Timer callbacks *)

Lemma runCallback_notifications now granted cb s :
  notifications (runCallback now granted cb s) = notifications s ++ emissionOf granted cb s.
Proof.
  unfold emissionOf, acknowledged.
  destruct cb as [day key nm tm two|day key nm]; cbn.
  - unfold runFirstReminder.
    destruct (negb (truthyAt (storedTaken s day) key) && granted);
      destruct (now <? two); cbn; rewrite ?app_nil_r; reflexivity.
  - unfold runSecondReminder.
    destruct (negb (truthyAt (storedTaken s day) key) && granted);
      cbn; rewrite ?app_nil_r; reflexivity.
Qed.

Lemma emissionOf_forKey granted cb s :
  Forall (forKey (callbackKey cb)) (emissionOf granted cb s).
Proof.
  unfold emissionOf. destruct (negb _ && granted); [|constructor].
  destruct cb; repeat constructor.
Qed.


Lemma runCallback_frame now granted cb s :
  localStorage (runCallback now granted cb s) = localStorage s
  /\ takenMedsState (runCallback now granted cb s) = takenMedsState s.
Proof.
  destruct cb as [day key nm tm two|day key nm]; cbn.
  - unfold runFirstReminder.
    destruct (negb (truthyAt (storedTaken s day) key) && granted);
      destruct (now <? two); cbn; auto.
  - unfold runSecondReminder.
    destruct (negb (truthyAt (storedTaken s day) key) && granted); cbn; auto.
Qed.

(** A timer pending after a callback ran was pending before, or is the
    escalated timer that a first-tier callback armed for its own slot and
    day. *)
Lemma runCallback_pending now granted cb s h fireAt cb' :
  pendingTimeouts (runCallback now granted cb s) !! h = Some (fireAt, cb') ->
  pendingTimeouts s !! h = Some (fireAt, cb')
  \/ (exists medName slotTime,
        cb = FirstReminder (callbackDay cb) (callbackKey cb) medName slotTime fireAt
        /\ cb' = SecondReminder (callbackDay cb) (callbackKey cb) medName
        /\ now < fireAt /\ h = nextTimerId s).
Proof.
  destruct cb as [day key nm tm two|day key nm]; cbn.
  - unfold runFirstReminder.
    destruct (negb (truthyAt (storedTaken s day) key) && granted);
      destruct (Z.ltb_spec now two); cbn; auto;
      (destruct (decide (nextTimerId s = h)) as [->|Hne];
       [rewrite lookup_insert_eq; intros [= <- <-]; right; eauto 10
       |rewrite lookup_insert_ne by exact Hne; auto]).
  - unfold runSecondReminder.
    destruct (negb (truthyAt (storedTaken s day) key) && granted); cbn; auto.
Qed.

Lemma timerFires_cases now granted h s :
  (timerFires now granted h s = s)
  \/ (exists fireAt cb,
        pendingTimeouts s !! h = Some (fireAt, cb) /\ fireAt <= now
        /\ timerFires now granted h s = runCallback now granted cb (clearTimeout h s)).
Proof.
  unfold timerFires. destruct (pendingTimeouts s !! h) as [[fireAt cb]|] eqn:Hp; auto.
  destruct (Z.leb_spec fireAt now); eauto 10.
Qed.

(** ** Acknowledgement *)

Lemma cancelTimer_frame key s :
  localStorage (cancelTimer key s) = localStorage s
  /\ takenMedsState (cancelTimer key s) = takenMedsState s
  /\ notifications (cancelTimer key s) = notifications s
  /\ notificationTimers (cancelTimer key s) = delete key (notificationTimers s).
Proof.
  unfold cancelTimer. destruct (notificationTimers s !! key) eqn:Hk; cbn; auto.
  rewrite delete_id by exact Hk. auto.
Qed.

Lemma cancelTimer_pending key s h x :
  pendingTimeouts (cancelTimer key s) !! h = Some x
  <-> pendingTimeouts s !! h = Some x /\ notificationTimers s !! key <> Some h.
Proof.
  unfold cancelTimer. destruct (notificationTimers s !! key) as [h'|] eqn:Hk; cbn.
  - rewrite lookup_delete_Some. split.
    + intros [Hne Hp]. split; [exact Hp|]. congruence.
    + intros [Hp Hne]. split; [congruence|exact Hp].
  - split; [intros Hp; split; [exact Hp|discriminate]|intros [Hp _]; exact Hp].
Qed.

Lemma string_length_append (s1 s2 : string) :
  String.length (s1 +:+ s2) = (String.length s1 + String.length s2)%nat.
Proof.
  induction s1 as [|c s1 IH]; [reflexivity|].
  change (S (String.length (s1 +:+ s2)) = S (String.length s1 + String.length s2)).
  f_equal. exact IH.
Qed.

Lemma append_nonempty_neq (s suffix : string) : suffix <> EmptyString -> s +:+ suffix <> s.
Proof.
  intros Hne Heq. apply Hne.
  apply (f_equal String.length) in Heq. rewrite string_length_append in Heq.
  destruct suffix; [reflexivity|]. cbn in Heq. lia.
Qed.

Lemma secondKey_neq (k : string) : secondKey k <> k.
Proof. apply append_nonempty_neq. discriminate. Qed.

Lemma handleMarkTaken_store now medId slotTime s :
  localStorage (handleMarkTaken now medId slotTime s)
  = <[todayKeyOf now := <[medIdentifierOf medId slotTime := true]> (takenMedsState s)]>
      (localStorage s).
Proof.
  unfold handleMarkTaken. cbn zeta.
  destruct (cancelTimer_frame (secondKey (medIdentifierOf medId slotTime))
              (cancelTimer (medIdentifierOf medId slotTime)
                 (withStore <[todayKeyOf now := <[medIdentifierOf medId slotTime := true]>
                                                 (takenMedsState s)]>
                    (withTaken (fun _ => <[medIdentifierOf medId slotTime := true]>
                                           (takenMedsState s)) s))))
    as (-> & _).
  destruct (cancelTimer_frame (medIdentifierOf medId slotTime)
              (withStore <[todayKeyOf now := <[medIdentifierOf medId slotTime := true]>
                                              (takenMedsState s)]>
                 (withTaken (fun _ => <[medIdentifierOf medId slotTime := true]>
                                        (takenMedsState s)) s)))
    as (-> & _).
  reflexivity.
Qed.

Lemma handleMarkTaken_taken now medId slotTime s :
  takenMedsState (handleMarkTaken now medId slotTime s)
  = <[medIdentifierOf medId slotTime := true]> (takenMedsState s).
Proof.
  unfold handleMarkTaken. cbn zeta.
  repeat match goal with
  | |- context [takenMedsState (cancelTimer ?k ?x)] =>
      let E := fresh in
      destruct (cancelTimer_frame k x) as (_ & E & _); rewrite E; clear E
  end.
  reflexivity.
Qed.

Lemma handleMarkTaken_notifications now medId slotTime s :
  notifications (handleMarkTaken now medId slotTime s) = notifications s.
Proof.
  unfold handleMarkTaken. cbn zeta.
  repeat match goal with
  | |- context [notifications (cancelTimer ?k ?x)] =>
      let E := fresh in
      destruct (cancelTimer_frame k x) as (_ & _ & E & _); rewrite E; clear E
  end.
  reflexivity.
Qed.

Lemma handleMarkTaken_timers now medId slotTime s :
  notificationTimers (handleMarkTaken now medId slotTime s)
  = delete (secondKey (medIdentifierOf medId slotTime))
      (delete (medIdentifierOf medId slotTime) (notificationTimers s)).
Proof.
  unfold handleMarkTaken. cbn zeta.
  repeat match goal with
  | |- context [notificationTimers (cancelTimer ?k ?x)] =>
      let E := fresh in
      destruct (cancelTimer_frame k x) as (_ & _ & _ & E); rewrite E; clear E
  end.
  reflexivity.
Qed.

(** After an acknowledgement a timer is pending exactly when it was
    pending before and the table did not hold it under the slot's key or
    under its escalation key. *)
Lemma handleMarkTaken_pending now medId slotTime s h x :
  pendingTimeouts (handleMarkTaken now medId slotTime s) !! h = Some x
  <-> pendingTimeouts s !! h = Some x
      /\ notificationTimers s !! medIdentifierOf medId slotTime <> Some h
      /\ notificationTimers s !! secondKey (medIdentifierOf medId slotTime) <> Some h.
Proof.
  unfold handleMarkTaken. cbn zeta.
  rewrite cancelTimer_pending, cancelTimer_pending.
  match goal with
  | |- context [notificationTimers (cancelTimer ?k ?x)] =>
      destruct (cancelTimer_frame k x) as (_ & _ & _ & ->)
  end.
  cbn. rewrite lookup_delete_ne by (apply not_eq_sym, secondKey_neq). tauto.
Qed.

(** ** Runs within one day *)

Lemma ackMonotone_refl m : ackMonotone m m.
Proof. intros j b Hj. eauto. Qed.

Lemma ackMonotone_trans m1 m2 m3 :
  ackMonotone m1 m2 -> ackMonotone m2 m3 -> ackMonotone m1 m3.
Proof.
  intros H12 H23 j b Hj. apply H12 in Hj as (b' & Hj' & Hb).
  apply H23 in Hj' as (b'' & Hj'' & Hb'). eauto.
Qed.

#[export] Instance ackMonotone_PreOrder : PreOrder ackMonotone.
Proof. split; [exact ackMonotone_refl|exact ackMonotone_trans]. Qed.

Lemma ackMonotone_truthy m m' k :
  ackMonotone m m' -> truthyAt m k = true -> truthyAt m' k = true.
Proof.
  unfold truthyAt. intros Hm Hk.
  destruct (m !! k) as [b|] eqn:E; [|discriminate Hk]. cbn in Hk. subst b.
  apply Hm in E as (b' & -> & Hb). cbn. auto.
Qed.

Lemma ackMonotone_insert (m m' : gmap string bool) k :
  ackMonotone m m' -> ackMonotone m (<[k := true]> m').
Proof.
  intros Hm j b Hj. destruct (decide (k = j)) as [->|Hne].
  - rewrite lookup_insert_eq. eauto.
  - rewrite lookup_insert_ne by exact Hne. apply Hm, Hj.
Qed.

Lemma forKey_other k k' new :
  k' <> k -> Forall (forKey k') new -> Forall (fun e => ~ forKey k e) new.
Proof.
  intros Hne Hf. eapply Forall_impl; [exact Hf|].
  intros [j n|j n|j n]; cbn; congruence.
Qed.


Section WithinDay.
Context {host : HostClock}.

Lemma effectCleanup_pending s h x :
  pendingTimeouts (effectCleanup s) !! h = Some x -> pendingTimeouts s !! h = Some x.
Proof. intros Hp. apply clearTrackedTimers_pending in Hp. tauto. Qed.

(** One event of the day keeps the state above the store, keeps the
    store's entries, and keeps every pending callback on the day. *)
Lemma step_store_monotone day o s :
  onDay day o -> storeInState day s ->
  storeInState day (step o s)
  /\ ackMonotone (storedTaken s day) (storedTaken (step o s) day).
Proof.
  unfold onDay, storeInState, step. intros Hday Hin.
  destruct (event o) as [main sups|medId slotTime|h].
  - unfold storedTaken at 1 3.
    rewrite schedulingPass_store, schedulingPass_taken, Hday.
    destruct (clearTrackedTimers_frame s) as (St & _).
    unfold effectCleanup, storedTaken. rewrite St. split; [reflexivity|].
    apply ackMonotone_refl.
  - unfold storedTaken in *.
    rewrite handleMarkTaken_store, handleMarkTaken_taken, Hday, lookup_insert_eq.
    cbn. split; [reflexivity|]. apply ackMonotone_insert, Hin.
  - destruct (timerFires_cases (clock o) (permissionGranted o) h s)
      as [->|(fireAt & cb & _ & _ & ->)].
    + split; [exact Hin|apply ackMonotone_refl].
    + destruct (runCallback_frame (clock o) (permissionGranted o) cb (clearTimeout h s))
        as (St & Tk).
      unfold storedTaken. rewrite St, Tk. cbn.
      split; [exact Hin|apply ackMonotone_refl].
Qed.

Lemma step_timersOfDay day o s :
  onDay day o -> timersOfDay day s -> timersOfDay day (step o s).
Proof.
  unfold onDay, timersOfDay, step. intros Hday Hin h fireAt cb.
  destruct (event o) as [main sups|medId slotTime|h'].
  - intros Hp. apply schedulingPass_pending in Hp
      as [[Hp _]|(key & nm & tm & -> & _)].
    + eapply Hin, effectCleanup_pending, Hp.
    + exact Hday.
  - intros Hp. apply handleMarkTaken_pending in Hp as [Hp _]. eapply Hin, Hp.
  - destruct (timerFires_cases (clock o) (permissionGranted o) h' s)
      as [->|(fireAt' & cb' & Hp' & _ & ->)]; [apply Hin|].
    intros Hp. apply runCallback_pending in Hp
      as [Hp|(nm & tm & _ & -> & _)].
    + cbn in Hp. apply lookup_delete_Some in Hp as [_ Hp]. eapply Hin, Hp.
    + cbn. eapply Hin, Hp'.
Qed.


Lemma run_cons o os s : run (o :: os) s = run os (step o s).
Proof. reflexivity. Qed.

Lemma run_app os1 os2 s : run (os1 ++ os2) s = run os2 (run os1 s).
Proof. unfold run. apply fold_left_app. Qed.




(** The first delivery after mounting puts the component in the state
    the lemmas above start from. *)
Lemma mounted_within_day day store o :
  isDelivery o -> onDay day o ->
  storeInState day (step o (mount store)) /\ timersOfDay day (step o (mount store)).
Proof.
  unfold isDelivery, onDay, step. intros Hd Hday.
  destruct (event o) as [main sups| |]; try contradiction. split.
  - unfold storeInState, storedTaken at 1.
    rewrite schedulingPass_store, schedulingPass_taken, Hday. reflexivity.
  - intros h fireAt cb Hp. apply schedulingPass_pending in Hp
      as [[Hp _]|(key & nm & tm & -> & _)]; [|exact Hday].
    apply effectCleanup_pending in Hp. cbn in Hp. rewrite lookup_empty in Hp.
    discriminate Hp.
Qed.

End WithinDay.

(** ** Tracked timers along runs *)

Lemma append_cancel_r (x s1 s2 : string) : s1 +:+ x = s2 +:+ x -> s1 = s2.
Proof.
  revert s2. induction s1 as [|c1 s1 IH]; intros [|c2 s2] Heq.
  - reflexivity.
  - apply (f_equal String.length) in Heq.
    change (String.length x = S (String.length (s2 +:+ x))) in Heq.
    rewrite string_length_append in Heq. lia.
  - apply (f_equal String.length) in Heq.
    change (S (String.length (s1 +:+ x)) = String.length x) in Heq.
    rewrite string_length_append in Heq. lia.
  - change (String c1 (s1 +:+ x) = String c2 (s2 +:+ x)) in Heq.
    injection Heq as -> Heq. f_equal. apply IH, Heq.
Qed.

Lemma secondKey_inj (k k' : string) : secondKey k = secondKey k' -> k = k'.
Proof. apply append_cancel_r. Qed.

Section TrackedRuns.
Context {host : HostClock}.

Lemma scheduleSlot_loopInv now day stored m t K s :
  loopInv K s -> slotKey m t ∉ K ->
  loopInv (K ∪ {[slotKey m t]}) (scheduleSlot now day stored m t s).
Proof.
  intros (Htr & Hfr & Hdom & Hfirst) Hnew.
  destruct (slotArmed now stored m t) eqn:Ha.
  - destruct (scheduleSlot_armed now day stored m t s Ha) as (mdt & _ & _ & _ & ->).
    fold (slotKey m t). refine (conj _ (conj _ (conj _ _))).
    + intros h fireAt cb. cbn.
      destruct (decide (nextTimerId s = h)) as [<-|Hne].
      * rewrite lookup_insert_eq. intros [= <- <-]. cbn. apply lookup_insert_eq.
      * rewrite lookup_insert_ne by exact Hne. intros Hp.
        pose proof (Htr _ _ _ Hp) as Hk.
        rewrite lookup_insert_ne; [exact Hk|].
        intros Heq. apply Hnew, Hdom, elem_of_dom. rewrite Heq. eauto.
    + intros h x. cbn. destruct (decide (nextTimerId s = h)) as [<-|Hne].
      * intros _. lia.
      * rewrite lookup_insert_ne by exact Hne. intros Hp. apply Hfr in Hp. lia.
    + cbn. rewrite dom_insert_L. set_solver.
    + intros h fireAt cb. cbn. destruct (decide (nextTimerId s = h)) as [<-|Hne].
      * rewrite lookup_insert_eq. intros [= <- <-]. eauto 10.
      * rewrite lookup_insert_ne by exact Hne. apply Hfirst.
  - rewrite scheduleSlot_not_armed by exact Ha.
    refine (conj Htr (conj Hfr (conj _ Hfirst))). set_solver.
Qed.

Lemma scheduleSlots_loopInv now day stored m slots :
  forall K s,
    loopInv K s -> NoDup (map (slotKey m) slots) ->
    (forall k, k ∈ map (slotKey m) slots -> k ∉ K) ->
    loopInv (K ∪ list_to_set (map (slotKey m) slots))
      (fold_left (fun acc slot => scheduleSlot now day stored m slot acc) slots s).
Proof.
  induction slots as [|t ts IH]; intros K s Hinv Hnd Hout; cbn [fold_left map].
  - cbn. replace (K ∪ ∅) with K by set_solver. exact Hinv.
  - apply NoDup_cons in Hnd as [Hnotin Hnd].
    replace (K ∪ list_to_set (slotKey m t :: map (slotKey m) ts))
      with ((K ∪ {[slotKey m t]}) ∪ list_to_set (C := gset string) (map (slotKey m) ts))
      by set_solver.
    apply IH.
    + apply scheduleSlot_loopInv; [exact Hinv|]. apply Hout. left.
    + exact Hnd.
    + intros k Hk. cbn in Hout. specialize (Hout k). set_solver.
Qed.

Lemma notifyGeneral_loopInv granted day m K s :
  loopInv K s -> loopInv K (notifyGeneral granted day m s).
Proof. unfold notifyGeneral. destruct (negb _ && granted); auto. Qed.

Lemma scheduleMed_loopInv now granted day stored dm K s :
  loopInv K s -> NoDup (slotKeysOfMed dm) ->
  (forall k, k ∈ slotKeysOfMed dm -> k ∉ K) ->
  loopInv (K ∪ list_to_set (slotKeysOfMed dm)) (scheduleMed now granted day stored dm s).
Proof.
  unfold scheduleMed, slotKeysOfMed. intros Hinv Hnd Hout.
  destruct (times dm) as [[|t ts]|].
  - cbn. replace (K ∪ ∅) with K by set_solver. apply notifyGeneral_loopInv, Hinv.
  - apply scheduleSlots_loopInv; assumption.
  - cbn. replace (K ∪ ∅) with K by set_solver. apply notifyGeneral_loopInv, Hinv.
Qed.

Lemma scheduleMeds_loopInv now granted day stored meds :
  forall K s,
    loopInv K s -> NoDup (slotKeys meds) ->
    (forall k, k ∈ slotKeys meds -> k ∉ K) ->
    loopInv (K ∪ list_to_set (slotKeys meds))
      (fold_left (fun acc dm => scheduleMed now granted day stored dm acc) meds s).
Proof.
  induction meds as [|dm meds IH]; intros K s Hinv Hnd Hout; cbn [fold_left].
  - cbn. replace (K ∪ ∅) with K by set_solver. exact Hinv.
  - unfold slotKeys in *. cbn [map concat] in *.
    apply NoDup_app in Hnd as (Hnd1 & Hdisj & Hnd2).
    replace (K ∪ list_to_set (slotKeysOfMed dm ++ concat (map slotKeysOfMed meds)))
      with ((K ∪ list_to_set (slotKeysOfMed dm))
            ∪ list_to_set (C := gset string) (concat (map slotKeysOfMed meds)))
      by set_solver.
    apply IH.
    + apply scheduleMed_loopInv; [exact Hinv|exact Hnd1|].
      intros k Hk. apply Hout. set_solver.
    + exact Hnd2.
    + intros k Hk. specialize (Hout k). specialize (Hdisj k). set_solver.
Qed.

(** From an orderly state a pass starts its loop with nothing pending. *)
Lemma passStart_loopInv now s :
  orderly s -> loopInv ∅ (passStart now (effectCleanup s)).
Proof.
  intros (Htr & _ & Hfr).
  destruct (passStart_frame now (effectCleanup s)) as (_ & _ & Tm & _ & Pe).
  assert (Hnone : forall h, pendingTimeouts (passStart now (effectCleanup s)) !! h = None).
  { intros h. rewrite Pe.
    destruct (pendingTimeouts (clearTrackedTimers (effectCleanup s)) !! h)
      as [[fireAt cb]|] eqn:Hp; [|reflexivity].
    apply clearTrackedTimers_pending in Hp as [Hp _].
    apply clearTrackedTimers_pending in Hp as [Hp Hnot].
    apply Htr in Hp. exfalso. exact (Hnot _ Hp). }
  refine (conj _ (conj _ (conj _ _))).
  - intros h fireAt cb Hp. rewrite Hnone in Hp. discriminate Hp.
  - intros h x Hp. rewrite Hnone in Hp. discriminate Hp.
  - rewrite Tm. set_solver.
  - intros h fireAt cb Hp. rewrite Hnone in Hp. discriminate Hp.
Qed.

Lemma schedulingPass_orderly now granted meds s :
  orderly s -> wellKeyed (slotKeys meds) ->
  orderly (schedulingPass now granted meds (effectCleanup s)).
Proof.
  intros Hs [Hnd Hesc].
  pose proof (scheduleMeds_loopInv now granted (todayKeyOf now)
                (storedTaken (effectCleanup s) (todayKeyOf now)) meds ∅
                (passStart now (effectCleanup s)) (passStart_loopInv now s Hs) Hnd
                ltac:(set_solver)) as (Htr & Hfr & Hdom & Hfirst).
  rewrite schedulingPass_unfold. refine (conj Htr (conj _ Hfr)).
  intros h fireAt day k nm tm two Hp.
  apply not_elem_of_dom. intros Hin.
  apply Htr in Hp. cbn in Hp.
  assert (Hk : k ∈ slotKeys meds).
  { assert (k ∈ dom (notificationTimers
       (fold_left (fun acc dm => scheduleMed now granted (todayKeyOf now)
          (storedTaken (effectCleanup s) (todayKeyOf now)) dm acc) meds
          (passStart now (effectCleanup s))))) as Hd
      by (apply elem_of_dom; eauto).
    apply Hdom in Hd. set_solver. }
  assert (Hk' : secondKey k ∈ slotKeys meds) by (apply Hdom in Hin; set_solver).
  exact (Hesc k (secondKey k) Hk Hk' eq_refl).
Qed.

Lemma cancelTimer_nextTimerId key s :
  nextTimerId (cancelTimer key s) = nextTimerId s.
Proof. unfold cancelTimer. destruct (notificationTimers s !! key); reflexivity. Qed.

Lemma handleMarkTaken_orderly now medId slotTime s :
  orderly s -> orderly (handleMarkTaken now medId slotTime s).
Proof.
  intros (Htr & Hesc & Hfr). refine (conj _ (conj _ _)).
  - intros h fireAt cb Hp. apply handleMarkTaken_pending in Hp as (Hp & H1 & H2).
    pose proof (Htr _ _ _ Hp) as Hk. rewrite handleMarkTaken_timers.
    rewrite !lookup_delete_ne; [exact Hk| |]; intros Heq; rewrite Heq in *; contradiction.
  - intros h fireAt day k nm tm two Hp.
    apply handleMarkTaken_pending in Hp as (Hp & _).
    rewrite handleMarkTaken_timers. apply Hesc in Hp.
    rewrite !lookup_delete_None. auto.
  - intros h x Hp. apply handleMarkTaken_pending in Hp as (Hp & _).
    unfold handleMarkTaken. cbn zeta. rewrite !cancelTimer_nextTimerId. cbn.
    apply (Hfr _ _ Hp).
Qed.

Lemma runCallback_orderly now granted h fireAt cb s :
  orderly s -> pendingTimeouts s !! h = Some (fireAt, cb) ->
  orderly (runCallback now granted cb (clearTimeout h s)).
Proof.
  intros (Htr & Hesc & Hfr) Hh.
  pose proof (Htr _ _ _ Hh) as Hkh.
  assert (Hother : forall h' at' cb', h' <> h ->
             pendingTimeouts s !! h' = Some (at', cb') -> timerKey cb' <> timerKey cb).
  { intros h' at' cb' Hne Hp' Heq. apply Htr in Hp'. congruence. }
  destruct cb as [day k nm tm two|day k nm]; cbn [runCallback].
  - pose proof (Hesc _ _ _ _ _ _ _ Hh) as Hnoesc. cbn in Hkh.
    unfold runFirstReminder.
    set (s1 := if negb (truthyAt (storedTaken (clearTimeout h s) day) k) && granted
               then emit (Reminder k (firstNotification nm tm)) (clearTimeout h s)
               else clearTimeout h s).
    assert (E1 : pendingTimeouts s1 = delete h (pendingTimeouts s)
                 /\ notificationTimers s1 = notificationTimers s
                 /\ nextTimerId s1 = nextTimerId s).
    { unfold s1. destruct (negb _ && granted); cbn; auto. }
    destruct E1 as (Pe1 & Tm1 & Nx1).
    destruct (Z.ltb_spec now two) as [Hlt|Hge].
    + unfold orderly, tracked, escalationFree, handlesFresh. cbn.
      rewrite Pe1, Tm1, Nx1. refine (conj _ (conj _ _)).
      * intros h' at' cb'. destruct (decide (nextTimerId s = h')) as [<-|Hne].
        -- rewrite lookup_insert_eq. intros [= <- <-]. cbn.
           rewrite lookup_delete_ne by (apply not_eq_sym, secondKey_neq).
           apply lookup_insert_eq.
        -- rewrite lookup_insert_ne by exact Hne. intros Hp.
           apply lookup_delete_Some in Hp as [Hneh Hp].
           pose proof (Htr _ _ _ Hp) as Hk'.
           rewrite lookup_delete_ne
             by (intros Heq; apply (Hother h' at' cb' (not_eq_sym Hneh) Hp);
                 cbn; congruence).
           rewrite lookup_insert_ne; [exact Hk'|]. congruence.
      * intros h' at' day' k' nm' tm' two'.
        destruct (decide (nextTimerId s = h')) as [<-|Hne].
        -- rewrite lookup_insert_eq. intros [=].
        -- rewrite lookup_insert_ne by exact Hne. intros Hp.
           apply lookup_delete_Some in Hp as [Hneh Hp].
           apply lookup_delete_None. right.
           rewrite lookup_insert_ne; [eapply Hesc, Hp|].
           intros Heq. apply secondKey_inj in Heq. subst k'.
           apply (Hother h' _ _ (not_eq_sym Hneh) Hp). reflexivity.
      * intros h' x. destruct (decide (nextTimerId s = h')) as [<-|Hne].
        -- intros _. lia.
        -- rewrite lookup_insert_ne by exact Hne. intros Hp.
           apply lookup_delete_Some in Hp as [_ Hp]. apply Hfr in Hp. lia.
    + unfold orderly, tracked, escalationFree, handlesFresh. cbn.
      rewrite Pe1, Tm1. refine (conj _ (conj _ _)).
      * intros h' at' cb' Hp. apply lookup_delete_Some in Hp as [Hneh Hp].
        pose proof (Htr _ _ _ Hp) as Hk'.
        rewrite lookup_delete_ne; [exact Hk'|].
        intros Heq. apply (Hother h' at' cb' (not_eq_sym Hneh) Hp). cbn. congruence.
      * intros h' at' day' k' nm' tm' two' Hp.
        apply lookup_delete_Some in Hp as [_ Hp].
        apply lookup_delete_None. right. eapply Hesc, Hp.
      * intros h' x Hp. rewrite Nx1. apply lookup_delete_Some in Hp as [_ Hp].
        apply (Hfr _ _ Hp).
  - cbn in Hkh. unfold runSecondReminder.
    set (s1 := if negb (truthyAt (storedTaken (clearTimeout h s) day) k) && granted
               then emit (Urgent k (urgentNotification nm)) (clearTimeout h s)
               else clearTimeout h s).
    assert (E1 : pendingTimeouts s1 = delete h (pendingTimeouts s)
                 /\ notificationTimers s1 = notificationTimers s
                 /\ nextTimerId s1 = nextTimerId s).
    { unfold s1. destruct (negb _ && granted); cbn; auto. }
    destruct E1 as (Pe1 & Tm1 & Nx1).
    unfold orderly, tracked, escalationFree, handlesFresh. cbn.
    rewrite Pe1, Tm1. refine (conj _ (conj _ _)).
    + intros h' at' cb' Hp. apply lookup_delete_Some in Hp as [Hneh Hp].
      pose proof (Htr _ _ _ Hp) as Hk'.
      rewrite lookup_delete_ne; [exact Hk'|].
      intros Heq. apply (Hother h' at' cb' (not_eq_sym Hneh) Hp). cbn. congruence.
    + intros h' at' day' k' nm' tm' two' Hp.
      apply lookup_delete_Some in Hp as [_ Hp].
      apply lookup_delete_None. right. eapply Hesc, Hp.
    + intros h' x Hp. rewrite Nx1. apply lookup_delete_Some in Hp as [_ Hp].
      apply (Hfr _ _ Hp).
Qed.

Lemma step_orderly o s : wellKeyedOccurrence o -> orderly s -> orderly (step o s).
Proof.
  unfold wellKeyedOccurrence, step. intros Hwk Hs.
  destruct (event o) as [main sups|medId slotTime|h].
  - apply schedulingPass_orderly; assumption.
  - apply handleMarkTaken_orderly, Hs.
  - destruct (timerFires_cases (clock o) (permissionGranted o) h s)
      as [->|(fireAt & cb & Hp & _ & ->)]; [exact Hs|].
    eapply runCallback_orderly; eassumption.
Qed.

(** Every state the mounted component reaches through well-keyed
    deliveries has all its pending timers tracked. *)
Lemma run_orderly os :
  forall s, Forall wellKeyedOccurrence os -> orderly s -> orderly (run os s).
Proof.
  induction os as [|o os IH]; intros s Hwk Hs; [exact Hs|].
  apply Forall_cons in Hwk as [Ho Hos]. rewrite run_cons.
  apply IH; [exact Hos|]. apply step_orderly; assumption.
Qed.

Lemma mount_orderly store : orderly (mount store).
Proof.
  refine (conj _ (conj _ _)); intros h; intros; cbn in *;
    rewrite lookup_empty in *; discriminate.
Qed.

End TrackedRuns.

(** ** After an acknowledgement *)

Section AfterAcknowledgement.
Context {host : HostClock}.




End AfterAcknowledgement.

(** ** The claims on the scheduler *)

Lemma timerFires_no_pending now granted h s :
  pendingTimeouts s = ∅ -> timerFires now granted h s = s.
Proof. unfold timerFires. intros ->. rewrite lookup_empty. reflexivity. Qed.

Section ClaimsOnScheduler.
Context {host : HostClock}.

Lemma isDue_markPrimary m q : isDue (markPrimary m) q = isDue m q.
Proof. reflexivity. Qed.

Lemma run_fires_no_pending (fires : list Occurrence) :
  Forall (fun o => exists h, event o = TimerFires h) fires ->
  forall s, pendingTimeouts s = ∅ -> run fires s = s.
Proof.
  induction 1 as [|o fires (h & Ho) _ IH]; intros s Hp; [reflexivity|].
  rewrite run_cons. unfold step at 1. rewrite Ho.
  rewrite timerFires_no_pending by exact Hp. apply IH, Hp.
Qed.

Lemma passStart_mount now store :
  pendingTimeouts (passStart now (effectCleanup (mount store))) = ∅
  /\ notificationTimers (passStart now (effectCleanup (mount store))) = ∅
  /\ notifications (passStart now (effectCleanup (mount store))) = [].
Proof.
  destruct (passStart_frame now (effectCleanup (mount store)))
    as (_ & _ & Tm & No & Pe).
  rewrite Tm, No, Pe. unfold effectCleanup, clearTrackedTimers.
  rewrite !foldr_clearTimeout. cbn. rewrite map_to_list_empty. auto.
Qed.



End ClaimsOnScheduler.

(** * Worked scenarios on a UTC host *)

(** The escalation as the source performs it: armed at 09:30, the first
    reminder fires at 10:00 and arms the urgent one, which fires at
    11:00. *)
Example escalation_through_first_reminder :
  notifications (utcRun [deliveryAt 9 30; fireAt 10 0 1; fireAt 11 0 2])
  = [Reminder "M_09:00" (firstNotification "Mesalamine" "09:00");
     Urgent "M_09:00" (urgentNotification "Mesalamine")].
Proof. vm_compute. reflexivity. Qed.

(** The same clock-time entered twice: the pass arms two timers under
    one key and the table keeps the later handle, so an acknowledgement
    cancels that one and the earlier timer stays pending; fired at 10:00 it
    finds the slot acknowledged and emits nothing. *)
Example duplicated_clock_time :
  map_to_list (notificationTimers (utcRun [deliveryOf medTwice 8 0]))
  = [("M2_09:00"%string, 2%positive)]
  /\ (map_to_list (pendingTimeouts
                     (utcRun [deliveryOf medTwice 8 0; markOf medTwice "09:00" 8 30]))).*1
     = [1%positive]
  /\ notifications
       (utcRun [deliveryOf medTwice 8 0; markOf medTwice "09:00" 8 30; fireAt 10 0 1])
     = [].
Proof. vm_compute. auto. Qed.

Lemma deliveryAt_wellKeyed (h m : Z) : wellKeyedOccurrence (host := utcHost) (deliveryAt h m).
Proof.
  unfold wellKeyedOccurrence. cbn [event deliveryAt clock].
  replace (slotKeys (todaysMeds (host := utcHost) (scenarioAt h m) (Some medM) []))
    with ["M_09:00"%string] by reflexivity.
  split; [apply NoDup_singleton|].
  intros k k' Hk Hk'. apply list_elem_of_singleton in Hk, Hk'. subst.
  apply not_eq_sym, secondKey_neq.
Qed.

(** C1, as stated, fails: at 10:05 the first reminder of the 09:00 slot
    is past and the second one (11:00) is ahead, the slot is not
    acknowledged and the permission is granted, yet the pass arms no timer,
    so no second-tier timer is pending for 11:00 and nothing is emitted at
    11:00, whichever handle the runtime is asked to fire. *)
Lemma second_tier_not_armed_directly :
  isDue (host := utcHost) medM (scenarioAt 10 5) = true
  /\ atClockTime (host := utcHost) (scenarioAt 10 5) "09:00" = Some (scenarioAt 9 0)
  /\ scenarioAt 9 0 + 60 * msPerMinute <= scenarioAt 10 5 < scenarioAt 9 0 + 120 * msPerMinute
  /\ ~ (exists handle cb,
          pendingTimeouts (utcRun [deliveryAt 10 5]) !! handle
          = Some (scenarioAt 11 0, cb))
  /\ notificationTimers (utcRun [deliveryAt 10 5]) = ∅
  /\ forall handle, notifications (utcRun [deliveryAt 10 5; fireAt 11 0 handle]) = [].
Proof.
  assert (Hp : pendingTimeouts (utcRun [deliveryAt 10 5]) = ∅)
    by (vm_compute; reflexivity).
  split; [vm_compute; reflexivity|].
  split; [vm_compute; reflexivity|].
  split; [vm_compute; split; [discriminate|reflexivity]|].
  split; [|split].
  - intros (handle & cb & Hh). rewrite Hp, lookup_empty in Hh. discriminate Hh.
  - vm_compute. reflexivity.
  - intros handle. unfold utcRun. change [deliveryAt 10 5; fireAt 11 0 handle]
      with ([deliveryAt 10 5] ++ [fireAt 11 0 handle]).
    rewrite run_app. cbn [run fold_left]. unfold step at 1. cbn [event fireAt].
    rewrite timerFires_no_pending by exact Hp. vm_compute. reflexivity.
Qed.


(** ** The theorems at concrete inputs *)



(** With a clock-time entered twice a second pass does not cancel every
    timer of the first: the handle that the table had lost stays pending
    beside the two new ones. *)
Example duplicated_clock_time_survives_pass :
  (map_to_list (pendingTimeouts (utcRun [deliveryOf medTwice 8 0]))).*1
  = [2%positive; 1%positive]
  /\ (map_to_list
        (pendingTimeouts (utcRun [deliveryOf medTwice 8 0; deliveryOf medTwice 8 0]))).*1
     = [3%positive; 4%positive; 1%positive].
Proof. vm_compute. auto. Qed.


(** A weekly medication anchored on Friday 2024-10-04 is reported due on
    the Friday one week before its start date. *)
Lemma weekly_due_iff_witness :
  diffDays (host := utcHost) (scenarioAt 10 5 - 7 * msPerDay) scenarioDay < 0
  /\ isDue (host := utcHost) weeklyMed (scenarioAt 10 5 - 7 * msPerDay) = true.
Proof.
  split; [vm_compute; reflexivity|].
  apply (proj2 (weekly_due_iff (host := utcHost) weeklyMed scenarioDay
                  (scenarioAt 10 5 - 7 * msPerDay) eq_refl eq_refl));
    vm_compute; reflexivity.
Defined.


(** A weekly medication without start date is never due, and says so on
    the console. *)
Lemma missing_start_date_never_due_witness :
  isDue (host := utcHost) unanchoredMed (scenarioAt 10 5) = false
  /\ warnings (isMedicationDueToday (host := utcHost) unanchoredMed (scenarioAt 10 5))
     = [missingStartDateWarning "Vitamin D"].
Proof.
  destruct (missing_start_date_never_due (host := utcHost) unanchoredMed (scenarioAt 10 5)
              AnchoredWeekly eq_refl) as [Hdue Hlog].
  split; [exact Hdue|]. rewrite Hlog. reflexivity.
Defined.

(** Ten days of an every-three-days medication need four doses. *)
Lemma calculateDosesNeeded_by_kind_witness :
  calculateDosesNeeded "Once daily" 10 = 10
  /\ isCeiling 10 3 (calculateDosesNeeded "Every three days" 10)
  /\ calculateDosesNeeded "Every three days" 10 = 4.
Proof.
  assert (Hpos : 0 < 10) by reflexivity.
  destruct (calculateDosesNeeded_by_kind 10 Hpos) as (Honce & _ & _ & Hint & _).
  split; [exact Honce|]. split; [exact (Hint _ _ EveryThreeDays)|reflexivity].
Defined.

(** A five-day trip (departure and return four days apart) of a
    once-daily main medication with one twice-daily supplement: 7 doses of
    the former, 10 of the latter. *)
Lemma buffer_only_for_primary_witness :
  tripDurationDays scenarioDay (scenarioDay + 4 * msPerDay) = 5
  /\ primaryMedNeeded
       (travelDoses (Some scenarioDay) (Some (scenarioDay + 4 * msPerDay)) (Some medM)
          [{| id := "S5"; name := "Calcium"; frequency := "Twice daily";
              medTimes := ["08:00"; "20:00"]; startDate := None; isPrimary := false |}])
     = 7
  /\ supplementsNeeded
       (travelDoses (Some scenarioDay) (Some (scenarioDay + 4 * msPerDay)) (Some medM)
          [{| id := "S5"; name := "Calcium"; frequency := "Twice daily";
              medTimes := ["08:00"; "20:00"]; startDate := None; isPrimary := false |}])
     !! "Calcium" = Some 10.
Proof.
  destruct (buffer_only_for_primary scenarioDay (scenarioDay + 4 * msPerDay) medM
              [{| id := "S5"; name := "Calcium"; frequency := "Twice daily";
                  medTimes := ["08:00"; "20:00"]; startDate := None; isPrimary := false |}])
    as (_ & Hlt & _ & _ & Hsup & _ & _ & H5 & _).
  split; [vm_compute; reflexivity|]. split.
  - apply H5; [reflexivity|vm_compute; reflexivity].
  - vm_compute. reflexivity.
Defined.



(** * Further properties of the scheduler *)

(** ** Folding over the loops of a pass *)

Lemma fold_left_related {A} (R : Scheduler -> Scheduler -> Prop)
  (f : Scheduler -> A -> Scheduler) (l : list A) :
  Reflexive R -> Transitive R ->
  (forall s a, R s (f s a)) -> forall s, R s (fold_left f l s).
Proof.
  intros Hrefl Htrans Hf. induction l as [|a l IH]; intros s; cbn.
  - apply Hrefl.
  - eapply Htrans; [apply Hf|apply IH].
Qed.

#[export] Instance silentSince_PreOrder : PreOrder silentSince.
Proof.
  split.
  - intros s. split; [reflexivity|set_solver].
  - intros s1 s2 s3 [N1 M1] [N2 M2]. split; [congruence|set_solver].
Qed.

(** ** Without the permission *)

Section WithoutPermission.
Context {host : HostClock}.

Lemma scheduleSlot_silent now day stored m t s :
  silentSince s (scheduleSlot now day stored m t s).
Proof.
  destruct (slotArmed now stored m t) eqn:Ha.
  - destruct (scheduleSlot_armed now day stored m t s Ha) as (mdt & _ & _ & _ & ->).
    split; cbn; [reflexivity|set_solver].
  - rewrite scheduleSlot_not_armed by exact Ha. reflexivity.
Qed.

Lemma scheduleMed_silent now day stored dm s :
  silentSince s (scheduleMed now false day stored dm s).
Proof.
  unfold scheduleMed. destruct (times dm) as [[|t ts]|].
  - unfold notifyGeneral. rewrite andb_false_r. reflexivity.
  - apply (fold_left_related silentSince
             (fun acc slot => scheduleSlot now day stored (med dm) slot acc));
      try typeclasses eauto.
    intros. apply scheduleSlot_silent.
  - unfold notifyGeneral. rewrite andb_false_r. reflexivity.
Qed.

Lemma passStart_silent now s : silentSince s (passStart now s).
Proof.
  unfold passStart. cbn zeta.
  destruct (clearTrackedTimers_frame
              (withTaken (fun _ => storedTaken s (todayKeyOf now)) s))
    as (_ & _ & _ & _ & Nd & Ng & No).
  destruct (decide _); split; cbn; rewrite ?No, ?Ng; cbn; try reflexivity; set_solver.
Qed.

Lemma effectCleanup_silent s : silentSince s (effectCleanup s).
Proof.
  destruct (clearTrackedTimers_frame s) as (_ & _ & _ & _ & _ & Ng & No).
  unfold effectCleanup. split; [exact No|rewrite Ng; set_solver].
Qed.

Lemma cancelTimer_marker key s :
  notifiedGeneralMeds (cancelTimer key s) = notifiedGeneralMeds s
  /\ notifiedDate (cancelTimer key s) = notifiedDate s.
Proof. unfold cancelTimer. destruct (notificationTimers s !! key); auto. Qed.

Lemma handleMarkTaken_marker now medId slotTime s :
  notifiedGeneralMeds (handleMarkTaken now medId slotTime s) = notifiedGeneralMeds s
  /\ notifiedDate (handleMarkTaken now medId slotTime s) = notifiedDate s.
Proof.
  unfold handleMarkTaken. cbn zeta.
  repeat match goal with
  | |- context [cancelTimer ?k ?x] =>
      let E1 := fresh in let E2 := fresh in
      destruct (cancelTimer_marker k x) as (E1 & E2); rewrite E1, E2; clear E1 E2
  end.
  auto.
Qed.

Lemma runCallback_marker now granted cb s :
  notifiedGeneralMeds (runCallback now granted cb s) = notifiedGeneralMeds s
  /\ notifiedDate (runCallback now granted cb s) = notifiedDate s.
Proof.
  destruct cb as [day key nm tm two|day key nm]; cbn.
  - unfold runFirstReminder.
    destruct (negb (truthyAt (storedTaken s day) key) && granted);
      destruct (now <? two); cbn; auto.
  - unfold runSecondReminder.
    destruct (negb (truthyAt (storedTaken s day) key) && granted); cbn; auto.
Qed.

Lemma timerFires_marker now granted h s :
  notifiedGeneralMeds (timerFires now granted h s) = notifiedGeneralMeds s
  /\ notifiedDate (timerFires now granted h s) = notifiedDate s.
Proof.
  destruct (timerFires_cases now granted h s) as [->|(fireAt & cb & _ & _ & ->)];
    [auto|].
  apply (runCallback_marker now granted cb (clearTimeout h s)).
Qed.

Lemma step_without_permission o s :
  withoutPermission o -> silentSince s (step o s).
Proof.
  unfold withoutPermission, step. intros Hp.
  destruct (event o) as [main sups|medId slotTime|h].
  - rewrite Hp, schedulingPass_unfold.
    transitivity (effectCleanup s); [apply effectCleanup_silent|].
    transitivity (passStart (clock o) (effectCleanup s)); [apply passStart_silent|].
    apply (fold_left_related silentSince
             (fun acc dm => scheduleMed (clock o) false (todayKeyOf (clock o))
                              (storedTaken (effectCleanup s) (todayKeyOf (clock o))) dm acc));
      try typeclasses eauto.
    intros. apply scheduleMed_silent.
  - split; [apply handleMarkTaken_notifications|].
    destruct (handleMarkTaken_marker (clock o) medId slotTime s) as [-> _]. set_solver.
  - rewrite Hp. split.
    + destruct (timerFires_cases (clock o) false h s)
        as [->|(fireAt & cb & _ & _ & ->)]; [reflexivity|].
      rewrite runCallback_notifications. unfold emissionOf.
      rewrite andb_false_r, app_nil_r. reflexivity.
    + destruct (timerFires_marker (clock o) false h s) as [-> _]. set_solver.
Qed.

(** X1. While the notification permission is not granted, nothing is
    emitted, whatever is delivered, acknowledged or fired, and no
    medication is marked as notified, so that its general reminder is still
    owed once the permission is there. *)
Theorem no_notification_without_permission (os : list Occurrence) (s : Scheduler) :
  Forall withoutPermission os ->
  notifications (run os s) = notifications s
  /\ notifiedGeneralMeds (run os s) ⊆ notifiedGeneralMeds s.
Proof.
  revert s. induction os as [|o os IH]; intros s Hos.
  - split; [reflexivity|set_solver].
  - apply Forall_cons in Hos as [Ho Hos]. rewrite run_cons.
    destruct (step_without_permission o s Ho) as [N1 M1].
    destruct (IH (step o s) Hos) as [N2 M2].
    split; [congruence|set_solver].
Qed.

End WithoutPermission.

(** ** Teardown *)

Section Teardown.
Context {host : HostClock}.

Lemma effectCleanup_orderly_pending s h :
  tracked s -> pendingTimeouts (effectCleanup s) !! h = None.
Proof.
  intros Htr.
  destruct (pendingTimeouts (effectCleanup s) !! h) as [[fireAt cb]|] eqn:Hp;
    [|reflexivity].
  apply clearTrackedTimers_pending in Hp as [Hp Hnot].
  apply Htr in Hp. exfalso. exact (Hnot _ Hp).
Qed.

(** X2. Teardown: the cleanup of the effect cancels every timer of a
    component whose deliveries had distinct slot keys; nothing is pending
    afterwards, so whatever the runtime is asked to fire changes nothing and
    notifies nothing. *)
Theorem teardown_cancels_every_timer
  (store : gmap Z (gmap string bool)) (os fires : list Occurrence) :
  Forall wellKeyedOccurrence os -> Forall isTimerFire fires ->
  pendingTimeouts (effectCleanup (run os (mount store))) = ∅
  /\ run fires (effectCleanup (run os (mount store))) = effectCleanup (run os (mount store))
  /\ notifications (run fires (effectCleanup (run os (mount store))))
     = notifications (run os (mount store)).
Proof.
  intros Hwk Hfires.
  assert (Hp : pendingTimeouts (effectCleanup (run os (mount store))) = ∅).
  { apply map_empty. intros h. apply effectCleanup_orderly_pending.
    apply (run_orderly os (mount store) Hwk (mount_orderly store)). }
  assert (Hrun : run fires (effectCleanup (run os (mount store)))
                 = effectCleanup (run os (mount store)))
    by (apply run_fires_no_pending; assumption).
  split; [exact Hp|]. split; [exact Hrun|].
  rewrite Hrun. apply effectCleanup_silent.
Qed.

End Teardown.

(** ** General reminders *)

Lemma generalCount_app medId l1 l2 :
  generalCount medId (l1 ++ l2) = (generalCount medId l1 + generalCount medId l2)%nat.
Proof. unfold generalCount. rewrite List.filter_app, length_app. reflexivity. Qed.

Lemma generalCount_emissionOf medId granted cb s :
  generalCount medId (emissionOf granted cb s) = 0%nat.
Proof.
  unfold emissionOf. destruct (negb _ && granted); [|reflexivity].
  destruct cb; reflexivity.
Qed.

Lemma generalCount_single medId i n :
  generalCount medId [General i n] = if bool_decide (i = medId) then 1%nat else 0%nat.
Proof. unfold generalCount. cbn. destruct (bool_decide (i = medId)); reflexivity. Qed.

#[local] Arguments generalCount : simpl never.

Section GeneralReminders.
Context {host : HostClock}.

Lemma scheduleSlot_marker now day stored m t s :
  notifications (scheduleSlot now day stored m t s) = notifications s
  /\ notifiedGeneralMeds (scheduleSlot now day stored m t s) = notifiedGeneralMeds s
  /\ notifiedDate (scheduleSlot now day stored m t s) = notifiedDate s.
Proof.
  destruct (slotArmed now stored m t) eqn:Ha.
  - destruct (scheduleSlot_armed now day stored m t s Ha) as (mdt & _ & _ & _ & ->).
    cbn. auto.
  - rewrite scheduleSlot_not_armed by exact Ha. auto.
Qed.

Lemma fold_left_invariant {A} (P : Scheduler -> Prop)
  (f : Scheduler -> A -> Scheduler) (l : list A) :
  (forall s a, P s -> P (f s a)) -> forall s, P s -> P (fold_left f l s).
Proof.
  intros Hf. induction l as [|a l IH]; intros s Hs; cbn; [exact Hs|].
  apply IH, Hf, Hs.
Qed.

Lemma scheduleSlot_generalOnceInPass now day stored m t s :
  generalOnceInPass day s -> generalOnceInPass day (scheduleSlot now day stored m t s).
Proof.
  unfold generalOnceInPass.
  destruct (scheduleSlot_marker now day stored m t s) as (-> & -> & ->). auto.
Qed.

Lemma notifyGeneral_generalOnceInPass granted day m s :
  generalOnceInPass day s -> generalOnceInPass day (notifyGeneral granted day m s).
Proof.
  unfold notifyGeneral. intros [Hdate Hcount].
  destruct (bool_decide_reflect ((id m, day) ∈ notifiedGeneralMeds s)) as [Hin|Hnotin];
    cbn [negb andb]; [split; assumption|].
  destruct granted; [|split; assumption].
  split; [exact Hdate|]. intros medId. unfold withMarker, emit.
  cbn [notifications notifiedGeneralMeds].
  rewrite generalCount_app, generalCount_single. destruct (Hcount medId) as [Hle Hmark].
  destruct (bool_decide_reflect (id m = medId)) as [<-|Hne].
  - assert (generalCount (id m) (notifications s) = 0%nat) as ->.
    { destruct (generalCount (id m) (notifications s)); [reflexivity|].
      exfalso. apply Hnotin, Hmark. discriminate. }
    split; [lia|]. intros _. set_solver.
  - rewrite Nat.add_0_r. split; [exact Hle|]. intros Hnz. specialize (Hmark Hnz).
    set_solver.
Qed.

Lemma scheduleMed_generalOnceInPass now granted day stored dm s :
  generalOnceInPass day s -> generalOnceInPass day (scheduleMed now granted day stored dm s).
Proof.
  unfold scheduleMed. destruct (times dm) as [[|t ts]|];
    try apply notifyGeneral_generalOnceInPass.
  apply (fold_left_invariant (generalOnceInPass day)
           (fun acc slot => scheduleSlot now day stored (med dm) slot acc)).
  intros. apply scheduleSlot_generalOnceInPass. assumption.
Qed.

Lemma passStart_generalOnce now s :
  generalOnce (todayKeyOf now) s -> generalOnceInPass (todayKeyOf now) (passStart now s).
Proof.
  unfold passStart. cbn zeta. intros Hs.
  destruct (clearTrackedTimers_frame
              (withTaken (fun _ => storedTaken s (todayKeyOf now)) s))
    as (_ & _ & _ & _ & Nd & Ng & No).
  destruct (decide _) as [Hd|Hd]; cbn in Hd; rewrite Nd in Hd; cbn in Hd.
  - split; [cbn; rewrite Nd; exact Hd|]. intros medId. cbn. rewrite No, Ng. cbn.
    destruct (Hs medId) as [Hle Hmark]. split; [exact Hle|]. intros Hnz.
    apply Hmark, Hnz.
  - split; [reflexivity|]. intros medId. cbn. rewrite No. cbn.
    destruct (Hs medId) as [Hle Hmark].
    assert (generalCount medId (notifications s) = 0%nat) as ->.
    { destruct (generalCount medId (notifications s)); [reflexivity|].
      exfalso. apply Hd, Hmark. discriminate. }
    split; [lia|]. intros Hnz. contradiction.
Qed.

Lemma effectCleanup_generalOnce day s :
  generalOnce day s -> generalOnce day (effectCleanup s).
Proof.
  unfold generalOnce, effectCleanup.
  destruct (clearTrackedTimers_frame s) as (_ & _ & _ & _ & -> & -> & ->). auto.
Qed.

Lemma step_generalOnce day o s :
  onDay day o -> generalOnce day s -> generalOnce day (step o s).
Proof.
  unfold onDay, step. intros Hday Hs.
  destruct (event o) as [main sups|medId slotTime|h].
  - rewrite schedulingPass_unfold.
    assert (generalOnceInPass day
              (fold_left
                 (fun acc dm =>
                    scheduleMed (clock o) (permissionGranted o) (todayKeyOf (clock o))
                      (storedTaken (effectCleanup s) (todayKeyOf (clock o))) dm acc)
                 (todaysMeds (clock o) main sups)
                 (passStart (clock o) (effectCleanup s)))) as [Hdate Hcount].
    { apply fold_left_invariant.
      - intros s0 dm Hs0. rewrite Hday. apply scheduleMed_generalOnceInPass.
        rewrite <- Hday. rewrite Hday. exact Hs0.
      - rewrite <- Hday. apply passStart_generalOnce. rewrite Hday.
        apply effectCleanup_generalOnce, Hs. }
    intros medId. destruct (Hcount medId) as [Hle Hmark].
    split; [exact Hle|]. intros Hnz. split; [apply Hmark, Hnz|exact Hdate].
  - unfold generalOnce. rewrite handleMarkTaken_notifications.
    destruct (handleMarkTaken_marker (clock o) medId slotTime s) as [-> ->]. exact Hs.
  - unfold generalOnce.
    destruct (timerFires_marker (clock o) (permissionGranted o) h s) as [-> ->].
    destruct (timerFires_cases (clock o) (permissionGranted o) h s)
      as [->|(fireAt & cb & _ & _ & ->)]; [exact Hs|].
    intros medId. rewrite runCallback_notifications, generalCount_app,
      generalCount_emissionOf, Nat.add_0_r. cbn. apply Hs.
Qed.

(** X3. Within a day, a medication without clock-times gets its general
    reminder at most once, however often its record is delivered again and
    whatever else happens. *)
Theorem general_reminder_at_most_once
  (store : gmap Z (gmap string bool)) (day : Z) (os : list Occurrence) (medId : string) :
  Forall (onDay day) os ->
  (generalCount medId (notifications (run os (mount store))) <= 1)%nat.
Proof.
  intros Hos.
  assert (Hinv : forall s, generalOnce day s -> generalOnce day (run os s)).
  { induction os as [|o os IH]; intros s Hs; [exact Hs|].
    apply Forall_cons in Hos as [Ho Hos]. rewrite run_cons.
    apply IH; [exact Hos|]. apply step_generalOnce; assumption. }
  apply (Hinv (mount store)). intros i. unfold generalCount. cbn.
  split; [lia|]. intros Hnz. contradiction.
Qed.

End GeneralReminders.


Section GeneralReminderDelivered.
Context {host : HostClock}.

Lemma fold_left_establishes {A} (P Q : Scheduler -> Prop)
  (f : Scheduler -> A -> Scheduler) (a : A) (l : list A) :
  (forall s x, P s -> P (f s x)) ->
  (forall s, P s -> Q (f s a)) ->
  (forall s x, P s -> Q s -> Q (f s x)) ->
  a ∈ l -> forall s, P s -> Q (fold_left f l s).
Proof.
  intros HP Ha HQ. induction l as [|x l IH]; intros Hin s Hs.
  - apply elem_of_nil in Hin. contradiction.
  - cbn. apply elem_of_cons in Hin as [<-|Hin].
    + assert (Hboth : P (fold_left f l (f s a)) /\ Q (fold_left f l (f s a))).
      { apply (fold_left_invariant (fun s => P s /\ Q s)).
        - intros s0 x0 [H1 H2]. split; [apply HP, H1|apply HQ; assumption].
        - split; [apply HP, Hs|apply Ha, Hs]. }
      apply Hboth.
    + apply IH; [exact Hin|apply HP, Hs].
Qed.

Lemma notifyGeneral_marker granted day m s :
  notifiedDate (notifyGeneral granted day m s) = notifiedDate s
  /\ notifiedGeneralMeds s ⊆ notifiedGeneralMeds (notifyGeneral granted day m s)
  /\ exists new, notifications (notifyGeneral granted day m s) = notifications s ++ new.
Proof.
  unfold notifyGeneral. destruct (negb _ && granted); cbn.
  - split; [reflexivity|]. split; [set_solver|eauto].
  - split; [reflexivity|]. split; [reflexivity|]. exists []. symmetry. apply app_nil_r.
Qed.

Lemma notifyGeneral_marks day m s :
  (id m, day) ∈ notifiedGeneralMeds (notifyGeneral true day m s).
Proof.
  unfold notifyGeneral.
  destruct (bool_decide_reflect ((id m, day) ∈ notifiedGeneralMeds s)) as [Hin|Hnotin];
    cbn; [exact Hin|set_solver].
Qed.

Lemma notifyGeneral_generalMarked granted day m s :
  generalMarked day s -> generalMarked day (notifyGeneral granted day m s).
Proof.
  unfold notifyGeneral. intros Hs.
  destruct (bool_decide_reflect ((id m, day) ∈ notifiedGeneralMeds s)) as [Hin|Hnotin];
    cbn [negb andb]; [exact Hs|].
  destruct granted; [|exact Hs].
  intros medId. unfold withMarker, emit. cbn [notifications notifiedGeneralMeds].
  rewrite generalCount_app, generalCount_single. intros Hin.
  destruct (bool_decide_reflect (id m = medId)) as [<-|Hne]; [lia|].
  assert ((medId, day) ∈ notifiedGeneralMeds s) as Hold.
  { apply elem_of_union in Hin as [Hin|Hin]; [|exact Hin].
    apply elem_of_singleton in Hin. exfalso. apply Hne. congruence. }
  specialize (Hs medId Hold). lia.
Qed.

Lemma scheduleMed_marker now granted day stored dm s :
  notifiedDate (scheduleMed now granted day stored dm s) = notifiedDate s
  /\ notifiedGeneralMeds s ⊆ notifiedGeneralMeds (scheduleMed now granted day stored dm s).
Proof.
  unfold scheduleMed.
  destruct (times dm) as [[|t ts]|];
    try (destruct (notifyGeneral_marker granted day (med dm) s) as (? & ? & _); auto).
  apply (fold_left_invariant
           (fun s' => notifiedDate s' = notifiedDate s
                      /\ notifiedGeneralMeds s ⊆ notifiedGeneralMeds s')
           (fun acc slot => scheduleSlot now day stored (med dm) slot acc)); [|auto].
  intros s0 slot [Hd Hm].
  destruct (scheduleSlot_marker now day stored (med dm) slot s0) as (_ & -> & ->). auto.
Qed.

Lemma scheduleMed_generalMarked now granted day stored dm s :
  generalMarked day s -> generalMarked day (scheduleMed now granted day stored dm s).
Proof.
  unfold scheduleMed. destruct (times dm) as [[|t ts]|];
    try apply notifyGeneral_generalMarked.
  apply (fold_left_invariant (generalMarked day)
           (fun acc slot => scheduleSlot now day stored (med dm) slot acc)).
  intros s0 slot Hs0. unfold generalMarked.
  destruct (scheduleSlot_marker now day stored (med dm) slot s0) as (-> & -> & _).
  exact Hs0.
Qed.

Lemma scheduleMed_marks now day stored dm s :
  untimed dm -> (id (med dm), day) ∈ notifiedGeneralMeds (scheduleMed now true day stored dm s).
Proof.
  unfold scheduleMed. intros [-> | ->]; apply notifyGeneral_marks.
Qed.

Lemma passStart_marker now s :
  notifiedDate (passStart now s) = Some (todayKeyOf now)
  /\ (notifiedDate s = Some (todayKeyOf now) ->
      notifiedGeneralMeds (passStart now s) = notifiedGeneralMeds s).
Proof.
  unfold passStart. cbn zeta.
  destruct (clearTrackedTimers_frame
              (withTaken (fun _ => storedTaken s (todayKeyOf now)) s))
    as (_ & _ & _ & _ & Nd & Ng & _).
  destruct (decide _) as [Hd|Hd]; cbn in Hd; rewrite Nd in Hd; cbn in Hd; cbn.
  - rewrite Nd, Ng. cbn. auto.
  - split; [reflexivity|]. intros E. contradiction.
Qed.

Lemma silentSince_generalMarked day s s' :
  silentSince s s' -> generalMarked day s -> generalMarked day s'.
Proof.
  intros [Hn Hm] Hs medId Hin. rewrite Hn. apply Hs, Hm, Hin.
Qed.

Lemma step_generalMarked day o s :
  onDay day o -> generalMarked day s -> generalMarked day (step o s).
Proof.
  unfold onDay, step. intros Hday Hs.
  destruct (event o) as [main sups|medId slotTime|h].
  - rewrite schedulingPass_unfold. apply fold_left_invariant.
    + intros s0 dm Hs0. rewrite Hday. apply scheduleMed_generalMarked, Hs0.
    + eapply silentSince_generalMarked; [apply passStart_silent|].
      eapply silentSince_generalMarked; [apply effectCleanup_silent|exact Hs].
  - unfold generalMarked. rewrite handleMarkTaken_notifications.
    destruct (handleMarkTaken_marker (clock o) medId slotTime s) as [-> _]. exact Hs.
  - unfold generalMarked.
    destruct (timerFires_marker (clock o) (permissionGranted o) h s) as [-> _].
    destruct (timerFires_cases (clock o) (permissionGranted o) h s)
      as [->|(fireAt & cb & _ & _ & ->)]; [exact Hs|].
    intros medId. rewrite runCallback_notifications, generalCount_app,
      generalCount_emissionOf, Nat.add_0_r. cbn. apply Hs.
Qed.

Lemma effectCleanup_marker s :
  notifiedDate (effectCleanup s) = notifiedDate s
  /\ notifiedGeneralMeds (effectCleanup s) = notifiedGeneralMeds s.
Proof.
  unfold effectCleanup.
  destruct (clearTrackedTimers_frame s) as (_ & _ & _ & _ & -> & -> & _). auto.
Qed.

Lemma step_markedToday day medId o s :
  onDay day o -> markedToday day medId s -> markedToday day medId (step o s).
Proof.
  unfold onDay, step, markedToday. intros Hday [Hd Hm].
  destruct (event o) as [main sups|medId' slotTime|h].
  - rewrite schedulingPass_unfold.
    apply (fold_left_invariant
             (fun s' => notifiedDate s' = Some day /\ (medId, day) ∈ notifiedGeneralMeds s')).
    + intros s0 dm [Hd0 Hm0].
      destruct (scheduleMed_marker (clock o) (permissionGranted o) (todayKeyOf (clock o))
                  (storedTaken (effectCleanup s) (todayKeyOf (clock o))) dm s0)
        as [-> Hsub].
      split; [exact Hd0|apply Hsub, Hm0].
    + destruct (passStart_marker (clock o) (effectCleanup s)) as [Hdate Hsame].
      destruct (effectCleanup_marker s) as [Ed Em].
      rewrite Hdate, Hsame by (rewrite Ed, Hday; exact Hd).
      rewrite Em, Hday. auto.
  - destruct (handleMarkTaken_marker (clock o) medId' slotTime s) as [-> ->]. auto.
  - destruct (timerFires_marker (clock o) (permissionGranted o) h s) as [-> ->]. auto.
Qed.

Lemma delivery_markedToday now main sups dm s :
  dm ∈ todaysMeds now main sups -> untimed dm ->
  markedToday (todayKeyOf now) (id (med dm))
    (schedulingPass now true (todaysMeds now main sups) s).
Proof.
  intros Hin Hun. rewrite schedulingPass_unfold.
  apply (fold_left_establishes
           (fun s' => notifiedDate s' = Some (todayKeyOf now))
           (markedToday (todayKeyOf now) (id (med dm)))
           (fun acc dm' =>
              scheduleMed now true (todayKeyOf now) (storedTaken s (todayKeyOf now)) dm' acc)
           dm); [| | |exact Hin|apply passStart_marker].
  - intros s0 x Hs0. cbv beta in *.
    destruct (scheduleMed_marker now true (todayKeyOf now)
                (storedTaken s (todayKeyOf now)) x s0) as [-> _]. exact Hs0.
  - intros s0 Hs0. cbv beta in *. split; [|apply scheduleMed_marks, Hun].
    destruct (scheduleMed_marker now true (todayKeyOf now)
                (storedTaken s (todayKeyOf now)) dm s0) as [-> _]. exact Hs0.
  - intros s0 x Hs0 [_ Hm]. cbv beta in *.
    destruct (scheduleMed_marker now true (todayKeyOf now)
                (storedTaken s (todayKeyOf now)) x s0) as [Hd Hsub].
    split; [rewrite Hd; exact Hs0|apply Hsub, Hm].
Qed.

Lemma run_generalMarked day os :
  forall s, Forall (onDay day) os -> generalMarked day s -> generalMarked day (run os s).
Proof.
  induction os as [|o os IH]; intros s Hos Hs; [exact Hs|].
  apply Forall_cons in Hos as [Ho Hos]. rewrite run_cons.
  apply IH; [exact Hos|]. apply step_generalMarked; assumption.
Qed.

Lemma run_markedToday day medId os :
  forall s, Forall (onDay day) os -> markedToday day medId s ->
    markedToday day medId (run os s).
Proof.
  induction os as [|o os IH]; intros s Hos Hs; [exact Hs|].
  apply Forall_cons in Hos as [Ho Hos]. rewrite run_cons.
  apply IH; [exact Hos|]. apply step_markedToday; assumption.
Qed.

Lemma run_generalOnce day os :
  forall s, Forall (onDay day) os -> generalOnce day s -> generalOnce day (run os s).
Proof.
  induction os as [|o os IH]; intros s Hos Hs; [exact Hs|].
  apply Forall_cons in Hos as [Ho Hos]. rewrite run_cons.
  apply IH; [exact Hos|]. apply step_generalOnce; assumption.
Qed.

(** X4. A due medication without clock-times that is delivered while the
    permission is granted has had exactly one general reminder by the end
    of the day's run, whatever happened before and after the delivery. *)
Theorem general_reminder_exactly_once
  (store : gmap Z (gmap string bool)) (day now : Z) (before after : list Occurrence)
  (mainIbdMed : option Medication) (supplements : list Medication) (dm : DueMedication) :
  Forall (onDay day) before -> Forall (onDay day) after -> todayKeyOf now = day ->
  dm ∈ todaysMeds now mainIbdMed supplements -> untimed dm ->
  generalCount (id (med dm))
    (notifications
       (run (before
             ++ {| clock := now; permissionGranted := true;
                   event := MedsDelivered mainIbdMed supplements |} :: after)
          (mount store))) = 1%nat.
Proof.
  intros Hb Ha Hnow Hin Hun.
  set (o := {| clock := now; permissionGranted := true;
               event := MedsDelivered mainIbdMed supplements |}).
  assert (Hall : Forall (onDay day) (before ++ o :: after)).
  { apply Forall_app. split; [exact Hb|]. apply List.Forall_cons; [exact Hnow|exact Ha]. }
  assert (Hone : generalOnce day (run (before ++ o :: after) (mount store))).
  { apply run_generalOnce; [exact Hall|].
    intros i. unfold generalCount. cbn. split; [lia|]. intros Hnz. contradiction. }
  assert (Hmk : generalMarked day (run (before ++ o :: after) (mount store))).
  { apply run_generalMarked; [exact Hall|]. intros i Hi. cbn in Hi. set_solver. }
  assert (Hmt : markedToday day (id (med dm)) (run (before ++ o :: after) (mount store))).
  { rewrite run_app, run_cons. apply run_markedToday; [exact Ha|].
    unfold step, o. cbn [event clock permissionGranted]. rewrite <- Hnow.
    apply delivery_markedToday; assumption. }
  destruct (Hone (id (med dm))) as [Hle _].
  specialize (Hmk (id (med dm)) (proj2 Hmt)). lia.
Qed.

End GeneralReminderDelivered.


(** ** Order of the escalation *)

Lemma escalated_snoc (log : list Emission) (e : Emission) :
  escalated log ->
  (forall k n, e = Urgent k n -> exists n', Reminder k n' ∈ log) ->
  escalated (log ++ [e]).
Proof.
  intros Hlog He before k n after Heq.
  destruct after as [|x after _] using rev_ind.
  - apply app_inj_tail in Heq as [-> ->]. eapply He. reflexivity.
  - rewrite app_comm_cons, app_assoc in Heq. apply app_inj_tail in Heq as [-> _].
    eapply Hlog. reflexivity.
Qed.

Lemma escalated_app_general (new log : list Emission) :
  Forall isGeneral new -> escalated log -> escalated (log ++ new).
Proof.
  revert log. induction new as [|e new IH]; intros log Hnew Hlog.
  - rewrite app_nil_r. exact Hlog.
  - apply Forall_cons in Hnew as [He Hnew].
    change (e :: new) with ([e] ++ new). rewrite app_assoc.
    apply IH; [exact Hnew|]. apply escalated_snoc; [exact Hlog|].
    intros k n ->. contradiction He.
Qed.

Section EscalationOrder.
Context {host : HostClock}.

Lemma step_escalated day o s :
  onDay day o -> withPermission o -> storeInState day s -> timersOfDay day s ->
  escalated (notifications s) -> escalationsDue day s ->
  escalated (notifications (step o s)) /\ escalationsDue day (step o s).
Proof.
  intros Hday Hgr Hst Htm Hesc Hdue.
  destruct (step_store_monotone day o s Hday Hst) as [_ Hmono].
  revert Hmono. unfold onDay, withPermission, step in *.
  destruct (event o) as [main sups|medId slotTime|h]; intros Hmono.
  - destruct (schedulingPass_notifications (clock o) (permissionGranted o)
                (todaysMeds (clock o) main sups) (effectCleanup s)) as (new & Hn & Hg).
    destruct (effectCleanup_silent s) as [Hc _]. rewrite Hc in Hn.
    split.
    + rewrite Hn. apply escalated_app_general; assumption.
    + intros h fireAt d k nm Hp.
      apply schedulingPass_pending in Hp as [[Hp _]|(key & nm' & tm & Hcb & _)];
        [|discriminate Hcb].
      apply effectCleanup_pending in Hp.
      destruct (Hdue _ _ _ _ _ Hp) as [Hk|(n & Hin)].
      * left. apply (ackMonotone_truthy _ _ k Hmono Hk).
      * right. exists n. rewrite Hn. apply elem_of_app. left. exact Hin.
  - rewrite handleMarkTaken_notifications. split; [exact Hesc|].
    intros h fireAt d k nm Hp. apply handleMarkTaken_pending in Hp as [Hp _].
    destruct (Hdue _ _ _ _ _ Hp) as [Hk|Hin];
      [left|right; rewrite handleMarkTaken_notifications; exact Hin].
    apply (ackMonotone_truthy _ _ k Hmono Hk).
  - destruct (timerFires_cases (clock o) (permissionGranted o) h s)
      as [E|(fireAt & cb & Hp & _ & E)]; rewrite E in *; [split; assumption|].
    clear E. unfold escalationsDue. rewrite runCallback_notifications. rewrite Hgr in *.
    assert (Hack : acknowledged (clearTimeout h s) cb = truthyAt (storedTaken s day) (callbackKey cb)).
    { unfold acknowledged. rewrite (Htm _ _ _ Hp). reflexivity. }
    assert (Hlog : notifications (clearTimeout h s) = notifications s) by reflexivity.
    assert (Hold : forall h' fireAt' cb',
               pendingTimeouts (clearTimeout h s) !! h' = Some (fireAt', cb') ->
               pendingTimeouts s !! h' = Some (fireAt', cb')).
    { intros h' fireAt' cb' Hp'. cbn in Hp'. apply lookup_delete_Some in Hp' as [_ Hp'].
      exact Hp'. }
    unfold emissionOf. rewrite Hack, Hlog, andb_true_r.
    destruct cb as [d k nm tm two|d k nm]; cbn [callbackKey] in *.
    + split.
      * destruct (truthyAt (storedTaken s day) k); cbn [negb];
          [rewrite app_nil_r; exact Hesc|].
        apply escalated_snoc; [exact Hesc|]. intros k' n' Hu. discriminate Hu.
      * intros h' fireAt' d' k' nm' Hp'.
        apply runCallback_pending in Hp'
          as [Hp'|(nm'' & tm'' & _ & Hcb' & _)].
        -- apply Hold in Hp'. destruct (Hdue _ _ _ _ _ Hp') as [Hk|(n & Hin)].
           ++ left. apply (ackMonotone_truthy _ _ k' Hmono Hk).
           ++ right. exists n. apply elem_of_app. left. exact Hin.
        -- cbn in Hcb'. injection Hcb' as _ -> _.
           destruct (truthyAt (storedTaken s day) k) eqn:Hk; cbn [negb].
           ++ left. apply (ackMonotone_truthy _ _ k Hmono Hk).
           ++ right. eexists. apply elem_of_app. right. apply list_elem_of_here.
    + split.
      * destruct (truthyAt (storedTaken s day) k) eqn:Hk; cbn [negb];
          [rewrite app_nil_r; exact Hesc|].
        apply escalated_snoc; [exact Hesc|]. intros k' n' Hu. injection Hu as <- _.
        destruct (Hdue _ _ _ _ _ Hp) as [Hk'|Hin]; [congruence|exact Hin].
      * intros h' fireAt' d' k' nm' Hp'.
        apply runCallback_pending in Hp'
          as [Hp'|(nm'' & tm'' & Hcb & _)]; [|discriminate Hcb].
        apply Hold in Hp'. destruct (Hdue _ _ _ _ _ Hp') as [Hk'|(n & Hin)].
        -- left. apply (ackMonotone_truthy _ _ k' Hmono Hk').
        -- right. exists n. apply elem_of_app. left. exact Hin.
Qed.

Lemma run_escalated day os :
  forall s, Forall (onDay day) os -> Forall withPermission os ->
    storeInState day s -> timersOfDay day s ->
    escalated (notifications s) -> escalationsDue day s ->
    escalated (notifications (run os s)).
Proof.
  induction os as [|o os IH]; intros s Hday Hgr Hst Htm Hesc Hdue; [exact Hesc|].
  apply Forall_cons in Hday as [Ho Hday]. apply Forall_cons in Hgr as [Hg Hgr].
  rewrite run_cons.
  destruct (step_escalated day o s Ho Hg Hst Htm Hesc Hdue) as [Hesc' Hdue'].
  apply IH; try assumption.
  - apply (step_store_monotone day o s Ho Hst).
  - apply step_timersOfDay; assumption.
Qed.

(** X5. Within a day and with the permission granted, an urgent reminder
    is only ever shown for a slot after the first reminder of that slot was
    shown: every urgent notification of the log is preceded by a first-tier
    notification with the same slot key. *)
Theorem urgent_only_after_first_reminder
  (store : gmap Z (gmap string bool)) (day : Z) (o : Occurrence) (os : list Occurrence) :
  isDelivery o -> Forall (onDay day) (o :: os) -> Forall withPermission (o :: os) ->
  escalated (notifications (run (o :: os) (mount store))).
Proof.
  intros Hdel Hday Hgr. rewrite run_cons.
  apply Forall_cons in Hday as [Ho Hday]. apply Forall_cons in Hgr as [Hg Hgr].
  destruct (mounted_within_day day store o Hdel Ho) as [Hst Htm].
  apply (run_escalated day os); try assumption.
  - unfold isDelivery, step in *.
    destruct (event o) as [main sups|medId slotTime|h]; try contradiction.
    destruct (schedulingPass_notifications (clock o) (permissionGranted o)
                (todaysMeds (clock o) main sups) (effectCleanup (mount store)))
      as (new & Hn & Hg').
    rewrite Hn. apply escalated_app_general; [exact Hg'|].
    intros before k n after Heq. destruct before; discriminate Heq.
  - unfold isDelivery, step in *.
    destruct (event o) as [main sups|medId slotTime|h]; try contradiction.
    intros h fireAt d k nm Hp.
    apply schedulingPass_pending in Hp as [[Hp _]|(key & nm' & tm & Hcb & _)];
      [|discriminate Hcb].
    apply effectCleanup_pending in Hp. cbn in Hp. rewrite lookup_empty in Hp.
    discriminate Hp.
Qed.

End EscalationOrder.

(** ** Reminders on time *)

Section RemindersOnTime.
Context {host : HostClock}.

Lemma scheduleSlot_handlesFresh now day stored m t s :
  handlesFresh s ->
  handlesFresh (scheduleSlot now day stored m t s)
  /\ forall h x, pendingTimeouts s !! h = Some x ->
       pendingTimeouts (scheduleSlot now day stored m t s) !! h = Some x.
Proof.
  intros Hfr. destruct (slotArmed now stored m t) eqn:Ha.
  - destruct (scheduleSlot_armed now day stored m t s Ha) as (mdt & _ & _ & _ & ->).
    split.
    + intros h x. cbn. destruct (decide (nextTimerId s = h)) as [<-|Hne].
      * intros _. lia.
      * rewrite lookup_insert_ne by exact Hne. intros Hp. apply Hfr in Hp. lia.
    + intros h x Hp. cbn. rewrite lookup_insert_ne; [exact Hp|].
      apply Hfr in Hp. lia.
  - rewrite scheduleSlot_not_armed by exact Ha. auto.
Qed.

Lemma scheduleSlot_keepsPending now day stored m t x s :
  keepsPending x s -> keepsPending x (scheduleSlot now day stored m t s).
Proof.
  intros (h & Hp & Hfr).
  destruct (scheduleSlot_handlesFresh now day stored m t s Hfr) as [Hfr' Hkeep].
  exists h. split; [apply Hkeep, Hp|exact Hfr'].
Qed.

Lemma scheduleSlot_arms now day stored m t medDateTime s :
  slotArmed now stored m t = true -> atClockTime now (time t) = Some medDateTime ->
  handlesFresh s ->
  keepsPending (firstTimerOf day m t medDateTime) (scheduleSlot now day stored m t s).
Proof.
  intros Ha Hat Hfr.
  destruct (scheduleSlot_handlesFresh now day stored m t s Hfr) as [Hfr' _].
  exists (nextTimerId s). split; [|exact Hfr'].
  destruct (scheduleSlot_armed now day stored m t s Ha) as (mdt & Hat' & _ & _ & ->).
  rewrite Hat in Hat'. injection Hat' as <-. cbn. apply lookup_insert_eq.
Qed.

Lemma notifyGeneral_queue granted day m s :
  pendingTimeouts (notifyGeneral granted day m s) = pendingTimeouts s
  /\ nextTimerId (notifyGeneral granted day m s) = nextTimerId s.
Proof. unfold notifyGeneral. destruct (negb _ && granted); auto. Qed.

Lemma notifyGeneral_handlesFresh granted day m s :
  handlesFresh s -> handlesFresh (notifyGeneral granted day m s).
Proof.
  unfold handlesFresh. destruct (notifyGeneral_queue granted day m s) as [-> ->]. auto.
Qed.

Lemma scheduleMed_handlesFresh now granted day stored dm s :
  handlesFresh s -> handlesFresh (scheduleMed now granted day stored dm s).
Proof.
  unfold scheduleMed. destruct (times dm) as [[|t ts]|];
    try apply notifyGeneral_handlesFresh.
  apply (fold_left_invariant handlesFresh
           (fun acc slot => scheduleSlot now day stored (med dm) slot acc)).
  intros s0 slot Hs0. apply scheduleSlot_handlesFresh, Hs0.
Qed.

Lemma scheduleMed_keepsPending now granted day stored dm x s :
  keepsPending x s -> keepsPending x (scheduleMed now granted day stored dm s).
Proof.
  unfold scheduleMed. destruct (times dm) as [[|t ts]|].
  - intros (h & Hp & Hfr). exists h.
    destruct (notifyGeneral_queue granted day (med dm) s) as [Ep En].
    split; [rewrite Ep; exact Hp|apply notifyGeneral_handlesFresh, Hfr].
  - apply (fold_left_invariant (keepsPending x)
             (fun acc slot => scheduleSlot now day stored (med dm) slot acc)).
    intros s0 slot Hs0. apply scheduleSlot_keepsPending, Hs0.
  - intros (h & Hp & Hfr). exists h.
    destruct (notifyGeneral_queue granted day (med dm) s) as [Ep En].
    split; [rewrite Ep; exact Hp|apply notifyGeneral_handlesFresh, Hfr].
Qed.

Lemma scheduleMed_arms now granted day stored dm slots t medDateTime s :
  times dm = Some slots -> t ∈ slots ->
  slotArmed now stored (med dm) t = true -> atClockTime now (time t) = Some medDateTime ->
  handlesFresh s ->
  keepsPending (firstTimerOf day (med dm) t medDateTime)
    (scheduleMed now granted day stored dm s).
Proof.
  intros Htimes Hin Ha Hat Hfr. unfold scheduleMed. rewrite Htimes.
  destruct slots as [|t0 ts]; [apply elem_of_nil in Hin; contradiction|].
  apply (fold_left_establishes handlesFresh
           (keepsPending (firstTimerOf day (med dm) t medDateTime))
           (fun acc slot => scheduleSlot now day stored (med dm) slot acc) t);
    [| | |exact Hin|exact Hfr].
  - intros s0 slot Hs0. apply scheduleSlot_handlesFresh, Hs0.
  - intros s0 Hs0. apply scheduleSlot_arms; assumption.
  - intros s0 slot _ Hs0. apply scheduleSlot_keepsPending, Hs0.
Qed.

Lemma passStart_handlesFresh now s :
  handlesFresh s -> handlesFresh (passStart now (effectCleanup s)).
Proof.
  intros Hfr h x Hp.
  destruct (passStart_frame now (effectCleanup s)) as (_ & _ & _ & _ & Pe).
  rewrite Pe in Hp. apply clearTrackedTimers_pending in Hp as [Hp _].
  apply effectCleanup_pending in Hp. apply Hfr in Hp.
  assert (Hn : nextTimerId (passStart now (effectCleanup s)) = nextTimerId s).
  { unfold passStart, effectCleanup. cbn zeta.
    destruct (decide _); cbn;
      repeat (match goal with
              | |- context [nextTimerId (clearTrackedTimers ?x)] =>
                  let E := fresh in
                  destruct (clearTrackedTimers_frame x) as (_ & _ & _ & E & _);
                  rewrite E; clear E
              end; cbn); reflexivity. }
  rewrite Hn. exact Hp.
Qed.

Lemma schedulingPass_handlesFresh now granted meds s :
  handlesFresh s -> handlesFresh (schedulingPass now granted meds (effectCleanup s)).
Proof.
  intros Hfr. rewrite schedulingPass_unfold. apply fold_left_invariant.
  - intros s0 dm Hs0. apply scheduleMed_handlesFresh, Hs0.
  - apply passStart_handlesFresh, Hfr.
Qed.

Lemma schedulingPass_arms now granted meds dm slots t medDateTime s :
  dm ∈ meds -> times dm = Some slots -> t ∈ slots ->
  slotArmed now (storedTaken s (todayKeyOf now)) (med dm) t = true ->
  atClockTime now (time t) = Some medDateTime ->
  handlesFresh s ->
  keepsPending (firstTimerOf (todayKeyOf now) (med dm) t medDateTime)
    (schedulingPass now granted meds (effectCleanup s)).
Proof.
  intros Hdm Htimes Hin Ha Hat Hfr. rewrite schedulingPass_unfold.
  assert (Hst : storedTaken (effectCleanup s) (todayKeyOf now) = storedTaken s (todayKeyOf now)).
  { unfold storedTaken, effectCleanup.
    destruct (clearTrackedTimers_frame s) as (-> & _). reflexivity. }
  rewrite Hst.
  apply (fold_left_establishes handlesFresh
           (keepsPending (firstTimerOf (todayKeyOf now) (med dm) t medDateTime))
           (fun acc dm' =>
              scheduleMed now granted (todayKeyOf now) (storedTaken s (todayKeyOf now)) dm' acc)
           dm); [| | |exact Hdm|apply passStart_handlesFresh, Hfr].
  - intros s0 x Hs0. apply scheduleMed_handlesFresh, Hs0.
  - intros s0 Hs0. eapply scheduleMed_arms; eassumption.
  - intros s0 x _ Hs0. apply scheduleMed_keepsPending, Hs0.
Qed.

Lemma handleMarkTaken_handlesFresh now medId slotTime s :
  handlesFresh s -> handlesFresh (handleMarkTaken now medId slotTime s).
Proof.
  intros Hfr h x Hp. apply handleMarkTaken_pending in Hp as [Hp _]. apply Hfr in Hp.
  unfold handleMarkTaken. cbn zeta. rewrite !cancelTimer_nextTimerId. exact Hp.
Qed.

Lemma runCallback_handlesFresh now granted cb h s :
  handlesFresh s -> handlesFresh (runCallback now granted cb (clearTimeout h s)).
Proof.
  intros Hfr h' x Hp.
  assert (Hold : forall y, pendingTimeouts (clearTimeout h s) !! h' = Some y ->
                           (h' < nextTimerId s)%positive).
  { intros y Hy. cbn in Hy. apply lookup_delete_Some in Hy as [_ Hy]. eapply Hfr, Hy. }
  destruct cb as [day k nm tm two|day k nm]; cbn [runCallback] in *.
  - unfold runFirstReminder in *.
    destruct (negb _ && granted); destruct (now <? two); cbn in *;
      try (destruct (decide (nextTimerId s = h')) as [<-|Hne];
           [lia|rewrite lookup_insert_ne in Hp by exact Hne]);
      specialize (Hold _ Hp); lia.
  - unfold runSecondReminder in *.
    destruct (negb _ && granted); cbn in *; specialize (Hold _ Hp); lia.
Qed.

Lemma step_handlesFresh o s : handlesFresh s -> handlesFresh (step o s).
Proof.
  unfold step. intros Hfr. destruct (event o) as [main sups|medId slotTime|h].
  - apply schedulingPass_handlesFresh, Hfr.
  - apply handleMarkTaken_handlesFresh, Hfr.
  - destruct (timerFires_cases (clock o) (permissionGranted o) h s)
      as [->|(fireAt & cb & _ & _ & ->)]; [exact Hfr|].
    apply runCallback_handlesFresh, Hfr.
Qed.

Lemma run_handlesFresh os : forall s, handlesFresh s -> handlesFresh (run os s).
Proof.
  induction os as [|o os IH]; intros s Hs; [exact Hs|].
  rewrite run_cons. apply IH, step_handlesFresh, Hs.
Qed.

Lemma mount_handlesFresh store : handlesFresh (mount store).
Proof. intros h x Hp. cbn in Hp. rewrite lookup_empty in Hp. discriminate Hp. Qed.

Lemma timerFires_first c h s day k medName slotTime two fireAt :
  pendingTimeouts s !! h = Some (fireAt, FirstReminder day k medName slotTime two) ->
  fireAt <= c < two -> truthyAt (storedTaken s day) k = false ->
  notifications (timerFires c true h s)
  = notifications s ++ [Reminder k (firstNotification medName slotTime)]
  /\ pendingTimeouts (timerFires c true h s) !! nextTimerId s
     = Some (two, SecondReminder day k medName)
  /\ localStorage (timerFires c true h s) = localStorage s.
Proof.
  intros Hp [Hle Hlt] Hun. unfold timerFires. rewrite Hp.
  destruct (Z.leb_spec fireAt c); [|lia].
  cbn [runCallback]. unfold runFirstReminder.
  replace (truthyAt (storedTaken (clearTimeout h s) day) k) with false by (symmetry; exact Hun).
  destruct (Z.ltb_spec c two); [|lia]. cbn.
  split; [reflexivity|]. split; [apply lookup_insert_eq|reflexivity].
Qed.

Lemma timerFires_second c h s day k medName fireAt :
  pendingTimeouts s !! h = Some (fireAt, SecondReminder day k medName) ->
  fireAt <= c -> truthyAt (storedTaken s day) k = false ->
  notifications (timerFires c true h s)
  = notifications s ++ [Urgent k (urgentNotification medName)].
Proof.
  intros Hp Hle Hun. unfold timerFires. rewrite Hp.
  destruct (Z.leb_spec fireAt c); [|lia].
  cbn [runCallback]. unfold runSecondReminder.
  replace (truthyAt (storedTaken (clearTimeout h s) day) k) with false by (symmetry; exact Hun).
  reflexivity.
Qed.

(** X6. The timeline of the escalation.  After medications are delivered
    at [now], every slot of a due medication that is not acknowledged in
    the day's store, whose clock-time reads [medDateTime] and whose first
    reminder is still ahead has a timer pending that is due exactly sixty
    minutes after [medDateTime].  When the runtime fires it, in its second
    hour and with the permission granted, the first reminder is shown and a
    timer is pending that is due exactly two hours after [medDateTime]; fired
    in turn, it shows the urgent reminder. *)
Theorem reminders_on_time
  (store : gmap Z (gmap string bool)) (os : list Occurrence) (now : Z) (granted : bool)
  (mainIbdMed : option Medication) (supplements : list Medication)
  (dm : DueMedication) (slots : list Slot) (t : Slot) (medDateTime : Z) :
  dm ∈ todaysMeds now mainIbdMed supplements -> times dm = Some slots -> t ∈ slots ->
  slotArmed now (storedTaken (run os (mount store)) (todayKeyOf now)) (med dm) t = true ->
  atClockTime now (time t) = Some medDateTime ->
  exists h1,
    pendingTimeouts
      (step {| clock := now; permissionGranted := granted;
               event := MedsDelivered mainIbdMed supplements |} (run os (mount store)))
      !! h1 = Some (firstTimerOf (todayKeyOf now) (med dm) t medDateTime)
    /\ forall c1,
         medDateTime + 60 * msPerMinute <= c1 < medDateTime + 120 * msPerMinute ->
         exists h2,
           notifications
             (timerFires c1 true h1
                (step {| clock := now; permissionGranted := granted;
                         event := MedsDelivered mainIbdMed supplements |}
                   (run os (mount store))))
           = notifications
               (step {| clock := now; permissionGranted := granted;
                        event := MedsDelivered mainIbdMed supplements |}
                  (run os (mount store)))
             ++ [Reminder (slotKey (med dm) t)
                   (firstNotification (name (med dm)) (time t))]
           /\ pendingTimeouts
                (timerFires c1 true h1
                   (step {| clock := now; permissionGranted := granted;
                            event := MedsDelivered mainIbdMed supplements |}
                      (run os (mount store))))
                !! h2 = Some (secondTimerOf (todayKeyOf now) (med dm) t medDateTime)
           /\ forall c2,
                medDateTime + 120 * msPerMinute <= c2 ->
                notifications
                  (timerFires c2 true h2
                     (timerFires c1 true h1
                        (step {| clock := now; permissionGranted := granted;
                                 event := MedsDelivered mainIbdMed supplements |}
                           (run os (mount store)))))
                = notifications
                    (step {| clock := now; permissionGranted := granted;
                             event := MedsDelivered mainIbdMed supplements |}
                       (run os (mount store)))
                  ++ [Reminder (slotKey (med dm) t)
                        (firstNotification (name (med dm)) (time t));
                      Urgent (slotKey (med dm) t) (urgentNotification (name (med dm)))].
Proof.
  intros Hdm Htimes Hin Ha Hat.
  set (s0 := run os (mount store)) in *.
  assert (Hfr0 : handlesFresh s0) by apply run_handlesFresh, mount_handlesFresh.
  unfold step. cbn [event clock permissionGranted].
  destruct (schedulingPass_arms now granted (todaysMeds now mainIbdMed supplements)
              dm slots t medDateTime s0 Hdm Htimes Hin Ha Hat Hfr0) as (h1 & Hp1 & Hfr1).
  assert (Hst : localStorage
                  (schedulingPass now granted (todaysMeds now mainIbdMed supplements)
                     (effectCleanup s0)) = localStorage s0).
  { rewrite schedulingPass_store. unfold effectCleanup.
    destruct (clearTrackedTimers_frame s0) as (-> & _). reflexivity. }
  set (s1 := schedulingPass now granted (todaysMeds now mainIbdMed supplements)
               (effectCleanup s0)) in *.
  assert (Hun : truthyAt (storedTaken s1 (todayKeyOf now)) (slotKey (med dm) t) = false).
  { unfold storedTaken. rewrite Hst. unfold slotArmed in Ha.
    apply andb_prop in Ha as [Ha _]. apply negb_true_iff in Ha. exact Ha. }
  exists h1. split; [exact Hp1|]. intros c1 Hc1. unfold msPerMinute in Hc1.
  destruct (timerFires_first c1 h1 s1 _ _ _ _ _ _ Hp1 ltac:(lia) Hun)
    as (Hn1 & Hp2 & Hst1).
  exists (nextTimerId s1). split; [exact Hn1|]. split; [exact Hp2|].
  intros c2 Hc2. unfold msPerMinute in Hc2.
  rewrite (timerFires_second c2 _ _ _ _ _ _ Hp2 ltac:(lia)).
  - rewrite Hn1, <- app_assoc. reflexivity.
  - unfold storedTaken. rewrite Hst1. exact Hun.
Qed.

End RemindersOnTime.

Section AcrossDates.
Context {host : HostClock}.

Lemma handleMarkTaken_other_day now medId slotTime s day :
  day <> todayKeyOf now ->
  storedTaken (handleMarkTaken now medId slotTime s) day = storedTaken s day.
Proof.
  intros Hne. unfold storedTaken. rewrite handleMarkTaken_store.
  rewrite lookup_insert_ne by (apply not_eq_sym, Hne). reflexivity.
Qed.

(** X22. An acknowledgement is kept under the UTC date on which it was
    made and is not seen on another date: when a slot is marked taken and
    the medications are delivered again on another UTC date whose own store
    entry does not mark the slot, the slot is armed again, with a timer due
    sixty minutes after its clock-time that shows the first reminder when it
    fires. *)
Theorem acknowledgement_forgotten_on_another_date
  (store : gmap Z (gmap string bool)) (os : list Occurrence)
  (now : Z) (medId slotTime : string) (now' : Z) (granted : bool)
  (mainIbdMed : option Medication) (supplements : list Medication)
  (dm : DueMedication) (slots : list Slot) (t : Slot) (medDateTime : Z) :
  todayKeyOf now' <> todayKeyOf now ->
  dm ∈ todaysMeds now' mainIbdMed supplements -> times dm = Some slots -> t ∈ slots ->
  slotKey (med dm) t = medIdentifierOf medId slotTime ->
  slotArmed now' (storedTaken (run os (mount store)) (todayKeyOf now')) (med dm) t = true ->
  atClockTime now' (time t) = Some medDateTime ->
  truthyAt
    (storedTaken (handleMarkTaken now medId slotTime (run os (mount store))) (todayKeyOf now))
    (slotKey (med dm) t) = true
  /\ exists h1,
       pendingTimeouts
         (step {| clock := now'; permissionGranted := granted;
                  event := MedsDelivered mainIbdMed supplements |}
            (handleMarkTaken now medId slotTime (run os (mount store))))
         !! h1 = Some (firstTimerOf (todayKeyOf now') (med dm) t medDateTime)
       /\ forall c1,
            medDateTime + 60 * msPerMinute <= c1 < medDateTime + 120 * msPerMinute ->
            notifications
              (timerFires c1 true h1
                 (step {| clock := now'; permissionGranted := granted;
                          event := MedsDelivered mainIbdMed supplements |}
                    (handleMarkTaken now medId slotTime (run os (mount store)))))
            = notifications
                (step {| clock := now'; permissionGranted := granted;
                         event := MedsDelivered mainIbdMed supplements |}
                   (handleMarkTaken now medId slotTime (run os (mount store))))
              ++ [Reminder (slotKey (med dm) t)
                    (firstNotification (name (med dm)) (time t))].
Proof.
  intros Hday Hdm Htimes Hin Hkey Ha Hat.
  set (s0 := handleMarkTaken now medId slotTime (run os (mount store))).
  assert (Hfr0 : handlesFresh s0)
    by apply handleMarkTaken_handlesFresh, run_handlesFresh, mount_handlesFresh.
  assert (Hst0 : storedTaken s0 (todayKeyOf now')
                 = storedTaken (run os (mount store)) (todayKeyOf now'))
    by (apply handleMarkTaken_other_day, Hday).
  split.
  { unfold s0, truthyAt, storedTaken.
    rewrite handleMarkTaken_store, lookup_insert_eq, Hkey. cbn.
    rewrite lookup_insert_eq. reflexivity. }
  unfold step. cbn [event clock permissionGranted].
  rewrite <- Hst0 in Ha.
  destruct (schedulingPass_arms now' granted (todaysMeds now' mainIbdMed supplements)
              dm slots t medDateTime s0 Hdm Htimes Hin Ha Hat Hfr0) as (h1 & Hp1 & _).
  assert (Hst : localStorage
                  (schedulingPass now' granted (todaysMeds now' mainIbdMed supplements)
                     (effectCleanup s0)) = localStorage s0).
  { rewrite schedulingPass_store. unfold effectCleanup.
    destruct (clearTrackedTimers_frame s0) as (-> & _). reflexivity. }
  set (s1 := schedulingPass now' granted (todaysMeds now' mainIbdMed supplements)
               (effectCleanup s0)) in *.
  assert (Hun : truthyAt (storedTaken s1 (todayKeyOf now')) (slotKey (med dm) t) = false).
  { unfold storedTaken. rewrite Hst. unfold slotArmed in Ha.
    apply andb_prop in Ha as [Ha _]. apply negb_true_iff in Ha. exact Ha. }
  exists h1. split; [exact Hp1|]. intros c1 Hc1. unfold msPerMinute in Hc1.
  apply (timerFires_first c1 h1 s1 _ _ _ _ _ _ Hp1 ltac:(lia) Hun).
Qed.

End AcrossDates.

Section NothingDue.
Context {host : HostClock}.

Lemma filter_none {A} (P : A -> bool) (l : list A) :
  Forall (fun x => P x = false) l -> List.filter P l = [].
Proof.
  induction 1 as [|x l Hx _ IH]; cbn; [reflexivity|]. rewrite Hx. exact IH.
Qed.

Lemma todaysMeds_none (today : Z) (mainIbdMed : option Medication)
  (supplements : list Medication) :
  (forall m, mainIbdMed = Some m -> isDue m today = false) ->
  Forall (fun m => isDue m today = false) supplements ->
  todaysMeds today mainIbdMed supplements = [].
Proof.
  intros Hmain Hsups. unfold todaysMeds. cbn zeta. rewrite filter_none; [reflexivity|].
  apply Forall_app. split; [|exact Hsups].
  destruct mainIbdMed as [m|]; [|constructor].
  apply List.Forall_cons; [|constructor]. rewrite isDue_markPrimary. apply Hmain. reflexivity.
Qed.

(** X24. On a day on which no medication is due (an as-needed
    medication, a recurring one off its day or without a start date), a
    delivery schedules nothing: no notification is shown, the timer table is
    empty and no new timer is pending. *)
Theorem nothing_due_nothing_scheduled (now : Z) (granted : bool)
  (mainIbdMed : option Medication) (supplements : list Medication) (s : Scheduler) :
  (forall m, mainIbdMed = Some m -> isDue m now = false) ->
  Forall (fun m => isDue m now = false) supplements ->
  notifications
    (step {| clock := now; permissionGranted := granted;
             event := MedsDelivered mainIbdMed supplements |} s)
  = notifications s
  /\ notificationTimers
       (step {| clock := now; permissionGranted := granted;
                event := MedsDelivered mainIbdMed supplements |} s) = ∅
  /\ forall h x,
       pendingTimeouts
         (step {| clock := now; permissionGranted := granted;
                  event := MedsDelivered mainIbdMed supplements |} s) !! h = Some x ->
       pendingTimeouts s !! h = Some x.
Proof.
  intros Hmain Hsups. unfold step. cbn [event clock permissionGranted].
  rewrite (todaysMeds_none now mainIbdMed supplements Hmain Hsups), schedulingPass_unfold.
  cbn [fold_left].
  destruct (passStart_frame now (effectCleanup s)) as (_ & _ & Tm & No & Pe).
  split; [|split].
  - rewrite No. apply effectCleanup_silent.
  - exact Tm.
  - intros h x Hp. rewrite Pe in Hp. apply clearTrackedTimers_pending in Hp as [Hp _].
    apply effectCleanup_pending, Hp.
Qed.

End NothingDue.

(** ** What a pass leaves pending *)

Lemma fold_left_invariant_in {A} (P : Scheduler -> Prop)
  (f : Scheduler -> A -> Scheduler) (l : list A) :
  (forall s a, a ∈ l -> P s -> P (f s a)) -> forall s, P s -> P (fold_left f l s).
Proof.
  induction l as [|a l IH]; intros Hf s Hs; cbn; [exact Hs|].
  apply IH.
  - intros s0 a0 Hin. apply Hf. apply list_elem_of_further, Hin.
  - apply Hf; [apply list_elem_of_here|exact Hs].
Qed.

Lemma NoDup_map_inj_on {A B} (f : A -> B) (l : list A) (x y : A) :
  NoDup (map f l) -> x ∈ l -> y ∈ l -> f x = f y -> x = y.
Proof.
  assert (Hmem : forall (l' : list A) z, z ∈ l' -> f z ∈ map f l').
  { intros l' z Hz. apply list_elem_of_In, in_map, list_elem_of_In, Hz. }
  induction l as [|a l IH]; intros Hnd Hx Hy Hf.
  - apply elem_of_nil in Hx. contradiction.
  - cbn in Hnd. apply NoDup_cons in Hnd as [Ha Hnd].
    apply elem_of_cons in Hx as [->|Hx]; apply elem_of_cons in Hy as [->|Hy].
    + reflexivity.
    + exfalso. apply Ha. rewrite Hf. apply Hmem, Hy.
    + exfalso. apply Ha. rewrite <- Hf. apply Hmem, Hx.
    + apply IH; assumption.
Qed.

Lemma slotKeys_slotsOf (meds : list DueMedication) :
  slotKeys meds = map (fun p => slotKey p.1 p.2) (slotsOf meds).
Proof.
  unfold slotKeys, slotsOf. induction meds as [|dm meds IH]; [reflexivity|].
  cbn [map concat]. rewrite map_app, <- IH. f_equal.
  unfold slotKeysOfMed, slotsOfMed. destruct (times dm) as [slots|]; [|reflexivity].
  rewrite map_map. reflexivity.
Qed.

Lemma slotsOf_elem (meds : list DueMedication) (m : Medication) (t : Slot) :
  (m, t) ∈ slotsOf meds
  <-> exists dm slots, dm ∈ meds /\ times dm = Some slots /\ t ∈ slots /\ m = med dm.
Proof.
  unfold slotsOf. rewrite list_elem_of_In, in_concat. split.
  - intros (l & Hl & Hin). apply in_map_iff in Hl as (dm & <- & Hdm).
    unfold slotsOfMed in Hin. destruct (times dm) as [slots|] eqn:Ht; [|destruct Hin].
    apply in_map_iff in Hin as (t' & [= <- <-] & Hin).
    exists dm, slots. rewrite !list_elem_of_In. auto.
  - intros (dm & slots & Hdm & Ht & Hin & ->). exists (slotsOfMed dm). split.
    + apply in_map, list_elem_of_In, Hdm.
    + unfold slotsOfMed. rewrite Ht. apply in_map, list_elem_of_In, Hin.
Qed.

Lemma wellKeyed_slot_unique (meds : list DueMedication) (m m' : Medication) (t t' : Slot) :
  NoDup (slotKeys meds) -> (m, t) ∈ slotsOf meds -> (m', t') ∈ slotsOf meds ->
  slotKey m t = slotKey m' t' -> m = m' /\ t = t'.
Proof.
  rewrite slotKeys_slotsOf. intros Hnd Hin Hin' Hk.
  pose proof (NoDup_map_inj_on (fun p => slotKey p.1 p.2) (slotsOf meds) (m, t) (m', t')
                Hnd Hin Hin' Hk) as E.
  injection E as -> ->. auto.
Qed.

Section PassesOverRuns.
Context {host : HostClock}.

Lemma armedKeys_elem now stored meds k :
  k ∈ armedKeys now stored meds ->
  exists m t, (m, t) ∈ slotsOf meds /\ slotArmed now stored m t = true /\ slotKey m t = k.
Proof.
  unfold armedKeys. rewrite elem_of_union_list.
  intros (X & HX & Hk). apply list_elem_of_In, in_map_iff in HX as (dm & <- & Hdm).
  unfold armedKeysOfMed in Hk. destruct (times dm) as [slots|] eqn:Ht; [|set_solver].
  unfold armedKeysOfSlots in Hk. apply elem_of_list_to_set in Hk.
  apply list_elem_of_In, in_map_iff in Hk as (t & <- & Hin).
  apply filter_In in Hin as [Hin Ha].
  exists (med dm), t. split; [|auto].
  apply slotsOf_elem. exists dm, slots. rewrite !list_elem_of_In. auto.
Qed.

Lemma past_slot_not_armed now stored m t medDateTime :
  atClockTime now (time t) = Some medDateTime -> medDateTime + 60 * msPerMinute <= now ->
  slotArmed now stored m t = false.
Proof.
  intros Hat Hpast. unfold slotArmed. rewrite Hat. unfold msPerMinute in Hpast.
  destruct (Z.ltb_spec now (medDateTime + 60 * 60 * 1000)); [lia|].
  apply andb_false_r.
Qed.










(** Between two passes, no timer appears for a slot key that has none
    pending, and nothing is notified for it. *)
Lemma step_quietFor k o s :
  betweenPasses o -> quietFor k s ->
  quietFor k (step o s)
  /\ exists new,
       notifications (step o s) = notifications s ++ new
       /\ Forall (fun e => ~ forKey k e) new.
Proof.
  unfold betweenPasses, step. intros Ho Hq.
  destruct (event o) as [main sups|medId slotTime|h]; [contradiction| |].
  - split.
    + intros h fireAt cb Hp. apply handleMarkTaken_pending in Hp as [Hp _].
      exact (Hq _ _ _ Hp).
    + exists []. rewrite handleMarkTaken_notifications, app_nil_r.
      split; [reflexivity|constructor].
  - destruct (timerFires_cases (clock o) (permissionGranted o) h s)
      as [->|(fireAt & cb & Hp & _ & ->)].
    + split; [exact Hq|]. exists []. rewrite app_nil_r. split; [reflexivity|constructor].
    + split.
      * intros h' fireAt' cb' Hp'. apply runCallback_pending in Hp'
          as [Hp'|(nm & tm & _ & -> & _)].
        -- cbn in Hp'. apply lookup_delete_Some in Hp' as [_ Hp']. exact (Hq _ _ _ Hp').
        -- cbn. exact (Hq _ _ _ Hp).
      * rewrite runCallback_notifications.
        exists (emissionOf (permissionGranted o) cb (clearTimeout h s)).
        split; [reflexivity|].
        eapply forKey_other; [exact (Hq _ _ _ Hp)|apply emissionOf_forKey].
Qed.

Lemma run_quietFor k os :
  forall s, Forall betweenPasses os -> quietFor k s ->
    quietFor k (run os s)
    /\ exists new,
         notifications (run os s) = notifications s ++ new
         /\ Forall (fun e => ~ forKey k e) new.
Proof.
  induction os as [|o os IH]; intros s Hos Hq.
  - split; [exact Hq|]. exists []. rewrite app_nil_r. split; [reflexivity|constructor].
  - apply Forall_cons in Hos as [Ho Hos]. rewrite run_cons.
    destruct (step_quietFor k o s Ho Hq) as (Hq' & new1 & Hn1 & Hf1).
    destruct (IH (step o s) Hos Hq') as (Hq'' & new2 & Hn2 & Hf2).
    split; [exact Hq''|].
    exists (new1 ++ new2). rewrite Hn2, Hn1, app_assoc. split; [reflexivity|].
    apply Forall_app. auto.
Qed.

(** C1 (amended). When the pass runs after [reminder1At = T + 60min] of
    a slot of a due medication, it arms no timer for the slot, whether or
    not [reminder2At = T + 120min] is still ahead: the escalated timer is
    armed by the first-tier callback only.  In a component whose deliveries
    have pairwise distinct slot keys, whatever happened before the pass,
    the timer table holds nothing under the key of the slot or under its
    escalation key after the pass, no timer of the slot is pending, and
    until the next pass none becomes pending and no notification, urgent or
    other, is emitted for the slot, whatever timers fire and whatever is
    marked taken. *)
Theorem past_first_reminder_arms_nothing
  (store : gmap Z (gmap string bool)) (before : list Occurrence) (now : Z) (granted : bool)
  (mainIbdMed : option Medication) (supplements : list Medication)
  (dm : DueMedication) (slots : list Slot) (t : Slot) (medDateTime : Z)
  (after : list Occurrence) :
  dm ∈ todaysMeds now mainIbdMed supplements -> times dm = Some slots -> t ∈ slots ->
  atClockTime now (time t) = Some medDateTime -> medDateTime + 60 * msPerMinute <= now ->
  (forall day stored s, scheduleSlot now day stored (med dm) t s = s)
  /\ (Forall wellKeyedOccurrence
        (before ++ [{| clock := now; permissionGranted := granted;
                       event := MedsDelivered mainIbdMed supplements |}]) ->
      Forall betweenPasses after ->
      notificationTimers
        (run (before ++ [{| clock := now; permissionGranted := granted;
                            event := MedsDelivered mainIbdMed supplements |}])
           (mount store)) !! slotKey (med dm) t = None
      /\ notificationTimers
           (run (before ++ [{| clock := now; permissionGranted := granted;
                               event := MedsDelivered mainIbdMed supplements |}])
              (mount store)) !! secondKey (slotKey (med dm) t) = None
      /\ quietFor (slotKey (med dm) t)
           (run (before ++ [{| clock := now; permissionGranted := granted;
                               event := MedsDelivered mainIbdMed supplements |}])
              (mount store))
      /\ quietFor (slotKey (med dm) t)
           (run after
              (run (before ++ [{| clock := now; permissionGranted := granted;
                                  event := MedsDelivered mainIbdMed supplements |}])
                 (mount store)))
      /\ exists new,
           notifications
             (run after
                (run (before ++ [{| clock := now; permissionGranted := granted;
                                    event := MedsDelivered mainIbdMed supplements |}])
                   (mount store)))
           = notifications
               (run (before ++ [{| clock := now; permissionGranted := granted;
                                   event := MedsDelivered mainIbdMed supplements |}])
                  (mount store))
             ++ new
           /\ Forall (fun e => ~ forKey (slotKey (med dm) t) e) new).
Proof.
  intros Hdm Ht Hin Hat Hpast.
  assert (Hnot : forall stored, slotArmed now stored (med dm) t = false)
    by (intros stored; apply (past_slot_not_armed now stored (med dm) t medDateTime);
        assumption).
  split; [intros day stored s; apply scheduleSlot_not_armed, Hnot|].
  intros Hwk Hafter.
  set (o := {| clock := now; permissionGranted := granted;
               event := MedsDelivered mainIbdMed supplements |}) in *.
  set (meds := todaysMeds now mainIbdMed supplements) in *.
  assert (Hslot : (med dm, t) ∈ slotsOf meds)
    by (apply slotsOf_elem; exists dm, slots; auto).
  pose proof (run_orderly _ (mount store) Hwk (mount_orderly store)) as (Htr & _ & _).
  apply Forall_app in Hwk as [_ Hwo]. apply Forall_cons in Hwo as [[Hnd Hsec] _].
  cbn [event clock o] in Hnd, Hsec. fold meds in Hnd, Hsec.
  set (s1 := run (before ++ [o]) (mount store)) in *.
  assert (Hdom : dom (notificationTimers s1)
                 = armedKeys now (storedTaken (effectCleanup (run before (mount store)))
                                    (todayKeyOf now)) meds).
  { unfold s1. rewrite run_app. cbn [run fold_left]. unfold step. cbn [event clock o].
    apply schedulingPass_timer_keys. }
  assert (Hk : notificationTimers s1 !! slotKey (med dm) t = None).
  { apply not_elem_of_dom. rewrite Hdom. intros Hin'.
    apply armedKeys_elem in Hin' as (m' & t' & Hin' & Ha & Hkey).
    destruct (wellKeyed_slot_unique meds m' (med dm) t' t Hnd Hin' Hslot Hkey) as [-> ->].
    rewrite Hnot in Ha. discriminate Ha. }
  assert (Hk2 : notificationTimers s1 !! secondKey (slotKey (med dm) t) = None).
  { apply not_elem_of_dom. rewrite Hdom. intros Hin'.
    apply armedKeys_elem in Hin' as (m' & t' & Hin' & _ & Hkey).
    assert (Hmem : forall m0 t0, (m0, t0) ∈ slotsOf meds -> slotKey m0 t0 ∈ slotKeys meds).
    { intros m0 t0 H0. rewrite slotKeys_slotsOf.
      apply list_elem_of_In, in_map_iff. exists (m0, t0).
      split; [reflexivity|apply list_elem_of_In, H0]. }
    exact (Hsec _ _ (Hmem _ _ Hslot) (Hmem _ _ Hin') Hkey). }
  assert (Hq : quietFor (slotKey (med dm) t) s1).
  { intros h fireAt cb Hp Hkey. apply Htr in Hp.
    destruct cb; cbn in Hkey, Hp; subst; congruence. }
  destruct (run_quietFor (slotKey (med dm) t) after s1 Hafter Hq) as [Hq' Hnew].
  auto.
Qed.


End PassesOverRuns.

(** * Further properties of the acknowledgement *)

Lemma handleMarkTaken_fixed now medId slotTime s :
  takenMedsState s !! medIdentifierOf medId slotTime = Some true ->
  localStorage s !! todayKeyOf now = Some (takenMedsState s) ->
  notificationTimers s !! medIdentifierOf medId slotTime = None ->
  notificationTimers s !! secondKey (medIdentifierOf medId slotTime) = None ->
  handleMarkTaken now medId slotTime s = s.
Proof.
  intros Hk Hst H1 H2. unfold handleMarkTaken. cbn zeta.
  rewrite (insert_id _ _ _ Hk).
  unfold cancelTimer at 2. cbn [notificationTimers withStore withTaken]. rewrite H1.
  unfold cancelTimer. cbn [notificationTimers withStore withTaken]. rewrite H2.
  unfold withStore, withTaken. cbn. rewrite (insert_id _ _ _ Hst).
  destruct s; reflexivity.
Qed.

(** X15. Marking a slot taken twice on one day is the same as marking
    it once: the second call changes nothing, neither the store, nor the
    state, nor the timers. *)
Theorem handleMarkTaken_idempotent (now now' : Z) (medId slotTime : string) (s : Scheduler) :
  todayKeyOf now' = todayKeyOf now ->
  handleMarkTaken now' medId slotTime (handleMarkTaken now medId slotTime s)
  = handleMarkTaken now medId slotTime s.
Proof.
  intros Hday. apply handleMarkTaken_fixed.
  - rewrite handleMarkTaken_taken. apply lookup_insert_eq.
  - rewrite handleMarkTaken_store, handleMarkTaken_taken, Hday. apply lookup_insert_eq.
  - rewrite handleMarkTaken_timers.
    rewrite lookup_delete_ne by apply secondKey_neq.
    apply lookup_delete_eq.
  - rewrite handleMarkTaken_timers. apply lookup_delete_eq.
Qed.

Section Display.
Context {host : HostClock}.

Lemma truthyAt_insert (m : gmap string bool) (k k' : string) :
  truthyAt m k = true -> truthyAt (<[k' := true]> m) k = true.
Proof.
  unfold truthyAt. intros Hk. destruct (decide (k' = k)) as [->|Hne].
  - rewrite lookup_insert_eq. reflexivity.
  - rewrite lookup_insert_ne by exact Hne. exact Hk.
Qed.

(** A mark held by the component and by the store entry of [day] is kept
    by every event but a delivery of another day. *)
Lemma step_keeps_taken day k o s :
  deliveredOn day o ->
  truthyAt (takenMedsState s) k = true /\ truthyAt (storedTaken s day) k = true ->
  truthyAt (takenMedsState (step o s)) k = true
  /\ truthyAt (storedTaken (step o s) day) k = true.
Proof.
  unfold deliveredOn, onDay, step. intros Ho [Hst Hsto].
  destruct (event o) as [main sups|medId slotTime|h].
  - rewrite schedulingPass_taken. unfold storedTaken at 2.
    rewrite schedulingPass_store, Ho.
    destruct (clearTrackedTimers_frame s) as (St & _).
    unfold effectCleanup, storedTaken. rewrite St. auto.
  - rewrite handleMarkTaken_taken. unfold storedTaken. rewrite handleMarkTaken_store.
    split; [apply truthyAt_insert, Hst|].
    destruct (decide (todayKeyOf (clock o) = day)) as [->|Hne].
    + rewrite lookup_insert_eq. cbn. apply truthyAt_insert, Hst.
    + rewrite lookup_insert_ne by exact Hne. exact Hsto.
  - destruct (timerFires_cases (clock o) (permissionGranted o) h s)
      as [->|(fireAt & cb & _ & _ & ->)]; [auto|].
    destruct (runCallback_frame (clock o) (permissionGranted o) cb (clearTimeout h s))
      as (St & Tk).
    unfold storedTaken. rewrite St, Tk. cbn. auto.
Qed.

(** X16. A slot that was marked taken is shown as taken until medications
    are delivered on another UTC date than that of the mark (the date that
    keys the store): whatever is marked or fired afterwards, at any clock
    reading, whatever is delivered on that date, and whatever the clock
    reads when the slot is rendered, neither the button nor the missed mark
    comes back. *)
Theorem taken_stays_displayed (now : Z) (medId : string) (t : Slot) (s : Scheduler)
  (os : list Occurrence) (scheduledTimeMillis : option Z) (nowMillis : Z) :
  Forall (deliveredOn (todayKeyOf now)) os ->
  slotView (takenMedsState (run os (handleMarkTaken now medId (time t) s)))
    medId t scheduledTimeMillis nowMillis = ShowsTaken.
Proof.
  intros Hos.
  assert (Hk : truthyAt (takenMedsState (run os (handleMarkTaken now medId (time t) s)))
                 (medIdentifierOf medId (time t)) = true).
  { refine (proj1 (fold_left_invariant_in
                     (fun s0 => truthyAt (takenMedsState s0) (medIdentifierOf medId (time t))
                                = true
                                /\ truthyAt (storedTaken s0 (todayKeyOf now))
                                     (medIdentifierOf medId (time t)) = true)
                     (fun s0 o => step o s0) os _ _ _)).
    - intros s0 o Hin. apply step_keeps_taken.
      rewrite Forall_forall in Hos. apply Hos, Hin.
    - unfold truthyAt, storedTaken.
      rewrite handleMarkTaken_taken, handleMarkTaken_store, !lookup_insert_eq. cbn.
      rewrite lookup_insert_eq. auto. }
  unfold slotView. cbn zeta. rewrite Hk. reflexivity.
Qed.

End Display.

(** * Further properties of the frequency calculus *)

Lemma mod_eq_iff_sub (a b n : Z) : 0 < n -> a mod n = b mod n <-> (a - b) mod n = 0.
Proof.
  intros Hn. split; intros H.
  - rewrite Zminus_mod, H, Z.sub_diag. apply Z.mod_0_l. lia.
  - apply Z.mod_divide in H as [k Hk]; [|lia].
    replace a with (b + k * n) by lia. apply Z_mod_plus_full.
Qed.

Lemma fortnight_iff (d : Z) : d mod 7 = 0 /\ (d / 7) mod 2 = 0 <-> d mod 14 = 0.
Proof.
  split.
  - intros [H7 H2]. apply Z.mod_divide in H7 as [j Hj]; [|lia]. subst d.
    rewrite Z.div_mul in H2 by lia. apply Z.mod_divide in H2 as [i Hi]; [|lia].
    subst j. apply Z.mod_divide; [lia|]. exists i. lia.
  - intros H. apply Z.mod_divide in H as [i Hi]; [|lia]. subst d. split.
    + apply Z.mod_divide; [lia|]. exists (2 * i). lia.
    + replace (i * 14) with (2 * i * 7) by lia. rewrite Z.div_mul by lia.
      apply Z.mod_divide; [lia|]. exists i. lia.
Qed.

Section FixedOffsetZone.
Variable off : Z.

Lemma zone_midnight (t : Z) :
  setHours (HostClock := zoneHost off) t 0 0 = localDay off t * msPerDay - off.
Proof.
  cbn. unfold zoneSetHours, localDay.
  pose proof (Z.div_mod (t + off) msPerDay ltac:(unfold msPerDay; lia)). lia.
Qed.

Lemma zone_diffDays (q sd : Z) :
  diffDays (host := zoneHost off) q sd = localDay off q - localDay off sd.
Proof.
  unfold diffDays. rewrite !zone_midnight.
  replace (localDay off q * msPerDay - off - (localDay off sd * msPerDay - off))
    with ((localDay off q - localDay off sd) * msPerDay) by lia.
  apply Z.div_mul. unfold msPerDay. lia.
Qed.

Lemma zone_getDay_midnight (t : Z) :
  getDay (HostClock := zoneHost off) (setHours (HostClock := zoneHost off) t 0 0)
  = (localDay off t + 4) mod 7.
Proof.
  rewrite zone_midnight. cbn. unfold zoneGetDay.
  replace (localDay off t * msPerDay - off + off) with (localDay off t * msPerDay) by lia.
  rewrite Z.div_mul by (unfold msPerDay; lia). reflexivity.
Qed.

Lemma zone_same_weekday (q sd : Z) :
  getDay (HostClock := zoneHost off) (setHours (HostClock := zoneHost off) q 0 0)
  = getDay (HostClock := zoneHost off) (setHours (HostClock := zoneHost off) sd 0 0)
  <-> (localDay off q - localDay off sd) mod 7 = 0.
Proof.
  rewrite !zone_getDay_midnight, mod_eq_iff_sub by lia.
  replace (localDay off q + 4 - (localDay off sd + 4))
    with (localDay off q - localDay off sd) by lia.
  reflexivity.
Qed.

Lemma zone_interval_due (m : Medication) (n sd q : Z) :
  IntervalKind (frequency m) n -> startDate m = Some sd ->
  isDue (host := zoneHost off) m q = true
  <-> 0 <= localDay off q - localDay off sd
      /\ (localDay off q - localDay off sd) mod n = 0.
Proof.
  intros Hk Hsd.
  rewrite (isDue_anchored (host := zoneHost off) m sd q (AnchoredInterval _ _ Hk) Hsd).
  rewrite (dueByFrequency_interval (host := zoneHost off) _ n sd q Hk), zone_diffDays.
  rewrite andb_true_iff, Z.leb_le, Z.eqb_eq. reflexivity.
Qed.

Lemma zone_weekly_due (m : Medication) (sd q : Z) :
  frequency m = "Weekly"%string -> startDate m = Some sd ->
  isDue (host := zoneHost off) m q = true
  <-> (localDay off q - localDay off sd) mod 7 = 0.
Proof.
  intros Hf Hsd.
  rewrite (isDue_anchored (host := zoneHost off) m sd q ltac:(rewrite Hf; constructor) Hsd), Hf.
  change (dueByFrequency (host := zoneHost off) "Weekly" (Some sd) q)
    with (getDay (HostClock := zoneHost off) (setHours (HostClock := zoneHost off) q 0 0)
          =? getDay (HostClock := zoneHost off) (setHours (HostClock := zoneHost off) sd 0 0)).
  rewrite Z.eqb_eq. apply zone_same_weekday.
Qed.

Lemma zone_biweekly_due (m : Medication) (sd q : Z) :
  frequency m = "Bi-weekly"%string -> startDate m = Some sd ->
  isDue (host := zoneHost off) m q = true
  <-> (localDay off q - localDay off sd) mod 14 = 0.
Proof.
  intros Hf Hsd.
  rewrite (isDue_anchored (host := zoneHost off) m sd q ltac:(rewrite Hf; constructor) Hsd), Hf.
  change (dueByFrequency (host := zoneHost off) "Bi-weekly" (Some sd) q)
    with ((getDay (HostClock := zoneHost off) (setHours (HostClock := zoneHost off) q 0 0)
           =? getDay (HostClock := zoneHost off) (setHours (HostClock := zoneHost off) sd 0 0))
          && (Z.rem (diffDays (host := zoneHost off) q sd / 7) 2 =? 0)).
  rewrite andb_true_iff, Z.eqb_eq, rem_zero_iff_mod_zero, Z.eqb_eq, zone_diffDays by lia.
  rewrite zone_same_weekday. apply fortnight_iff.
Qed.

(** X7. The calendar of the recurring kinds where local time has a fixed
    offset from UTC, in whole local calendar days [d] from the start date to
    the query date: an interval of [n] days is due exactly when [d >= 0] and
    [n] divides [d]; weekly is due exactly every seventh day and bi-weekly
    exactly every fourteenth day, before the start date as well as after
    it. *)
Theorem recurrence_in_fixed_offset_zone (m : Medication) (sd q : Z) :
  startDate m = Some sd ->
  (forall n, IntervalKind (frequency m) n ->
     (isDue (host := zoneHost off) m q = true
      <-> 0 <= localDay off q - localDay off sd
          /\ (localDay off q - localDay off sd) mod n = 0))
  /\ (frequency m = "Weekly"%string ->
      (isDue (host := zoneHost off) m q = true
       <-> (localDay off q - localDay off sd) mod 7 = 0))
  /\ (frequency m = "Bi-weekly"%string ->
      (isDue (host := zoneHost off) m q = true
       <-> (localDay off q - localDay off sd) mod 14 = 0)).
Proof.
  intros Hsd. split; [|split].
  - intros n Hk. apply zone_interval_due; assumption.
  - intros Hf. apply zone_weekly_due; assumption.
  - intros Hf. apply zone_biweekly_due; assumption.
Qed.

Lemma zone_anchored_due (m : Medication) (sd q : Z) :
  AnchoredKind (frequency m) -> startDate m = Some sd ->
  (localDay off q - localDay off sd = 0 -> isDue (host := zoneHost off) m q = true)
  /\ (localDay off q - localDay off sd = 1 -> isDue (host := zoneHost off) m q = false).
Proof.
  intros Hk Hsd. split; intros Hd.
  - inversion Hk as [freq n Hn Hf|Hf|Hf].
    + apply (zone_interval_due m n sd q Hn Hsd). rewrite Hd.
      split; [lia|apply Z.mod_0_l]. destruct Hn; lia.
    + apply (zone_weekly_due m sd q (eq_sym Hf) Hsd). rewrite Hd. reflexivity.
    + apply (zone_biweekly_due m sd q (eq_sym Hf) Hsd). rewrite Hd. reflexivity.
  - apply not_true_is_false. intros Hdue.
    inversion Hk as [freq n Hn Hf|Hf|Hf].
    + apply (zone_interval_due m n sd q Hn Hsd) in Hdue as [_ Hmod].
      rewrite Hd in Hmod. destruct Hn; discriminate Hmod.
    + apply (zone_weekly_due m sd q (eq_sym Hf) Hsd) in Hdue.
      rewrite Hd in Hdue. discriminate Hdue.
    + apply (zone_biweekly_due m sd q (eq_sym Hf) Hsd) in Hdue.
      rewrite Hd in Hdue. discriminate Hdue.
Qed.

(** X8. The start date is entered as a calendar date and read as the UTC
    midnight of that date.  East of Greenwich (and in UTC) a recurring
    medication is due on the local date that was entered.  West of
    Greenwich the anchor falls on the evening before: the medication is
    due on the local date before the one entered, and not on the entered
    date itself. *)
Theorem start_date_anchor_by_zone (m : Medication) (sd q : Z) :
  AnchoredKind (frequency m) -> startDate m = Some sd -> utcMidnight sd ->
  (0 <= off < msPerDay -> localDay off q = sd / msPerDay ->
   isDue (host := zoneHost off) m q = true)
  /\ (- msPerDay <= off < 0 ->
      (localDay off q = sd / msPerDay -> isDue (host := zoneHost off) m q = false)
      /\ (localDay off q = sd / msPerDay - 1 -> isDue (host := zoneHost off) m q = true)).
Proof.
  intros Hk Hsd Hmid. unfold utcMidnight in Hmid.
  pose proof (Z.div_mod sd msPerDay ltac:(unfold msPerDay; lia)) as Hdm.
  rewrite Hmid, Z.add_0_r in Hdm.
  destruct (zone_anchored_due m sd q Hk Hsd) as [Hsame Hnext].
  split.
  - intros Hoff Hq. apply Hsame.
    assert (localDay off sd = sd / msPerDay) as ->; [|lia].
    unfold localDay. symmetry. apply Z.div_unique with (r := off); lia.
  - intros Hoff.
    assert (Hloc : localDay off sd = sd / msPerDay - 1).
    { unfold localDay. symmetry. apply Z.div_unique with (r := off + msPerDay); lia. }
    split; intros Hq; [apply Hnext|apply Hsame]; lia.
Qed.

End FixedOffsetZone.

(** * Provisioning against the frequency calculus *)

Lemma div_step (x n : Z) :
  0 < n -> x / n = (x - 1) / n + (if x mod n =? 0 then 1 else 0).
Proof.
  intros Hn. pose proof (Z.div_mod x n ltac:(lia)) as Hx.
  pose proof (Z.mod_pos_bound x n Hn) as Hr.
  destruct (Z.eqb_spec (x mod n) 0) as [E|E].
  - assert ((x - 1) / n = x / n - 1); [|lia].
    symmetry. apply Z.div_unique with (r := n - 1); lia.
  - assert ((x - 1) / n = x / n); [|lia].
    symmetry. apply Z.div_unique with (r := x mod n - 1); lia.
Qed.

Lemma count_multiples (n a : Z) (k : nat) :
  0 < n ->
  Z.of_nat (length (List.filter (fun i => (a + Z.of_nat i) mod n =? 0) (seq 0 k)))
  = (a + Z.of_nat k - 1) / n - (a - 1) / n.
Proof.
  intros Hn. induction k as [|k IH].
  - change (0 = (a + 0 - 1) / n - (a - 1) / n). rewrite Z.add_0_r. lia.
  - rewrite seq_S, List.filter_app, length_app, Nat2Z.inj_add, IH. cbn [List.filter Nat.add].
    replace (a + Z.of_nat (S k) - 1) with (a + Z.of_nat k) by lia.
    rewrite (div_step (a + Z.of_nat k) n Hn).
    destruct (Z.eqb_spec ((a + Z.of_nat k) mod n) 0); cbn; lia.
Qed.

Lemma multiples_in_window (n a k : Z) :
  0 < n -> 0 <= k ->
  (a + k - 1) / n - (a - 1) / n <= ceilDiv k n
  /\ (a mod n = 0 -> (a + k - 1) / n - (a - 1) / n = ceilDiv k n).
Proof.
  intros Hn Hk.
  pose proof (ceilDiv_isCeiling k n Hn) as Hc. unfold isCeiling in Hc.
  pose proof (Z.div_mod (a + k - 1) n ltac:(lia)) as H1.
  pose proof (Z.mod_pos_bound (a + k - 1) n Hn) as R1.
  pose proof (Z.div_mod (a - 1) n ltac:(lia)) as H0.
  pose proof (Z.mod_pos_bound (a - 1) n Hn) as R0.
  split; [nia|].
  intros Ha. apply Z.mod_divide in Ha as [j Hj]; [|lia]. subst a.
  assert (E0 : (j * n - 1) / n = j - 1)
    by (symmetry; apply Z.div_unique with (r := n - 1); lia).
  assert (E1 : (j * n + k - 1) / n = j + ceilDiv k n - 1)
    by (symmetry; apply Z.div_unique with (r := k - 1 - (ceilDiv k n - 1) * n); lia).
  lia.
Qed.

Lemma filter_length_le {A} (P Q : A -> bool) (l : list A) :
  (forall x, P x = true -> Q x = true) ->
  (length (List.filter P l) <= length (List.filter Q l))%nat.
Proof.
  intros HPQ. induction l as [|x l IH]; cbn; [lia|].
  destruct (P x) eqn:HP.
  - rewrite (HPQ x HP). cbn. lia.
  - destruct (Q x); cbn; lia.
Qed.

Lemma filter_length_none {A} (P : A -> bool) (l : list A) :
  (forall x, P x = false) -> length (List.filter P l) = 0%nat.
Proof.
  intros HP. induction l as [|x l IH]; cbn; [reflexivity|]. rewrite HP. exact IH.
Qed.

Lemma filter_length_all {A} (P : A -> bool) (l : list A) :
  (forall x, P x = true) -> length (List.filter P l) = length l.
Proof.
  intros HP. induction l as [|x l IH]; cbn; [reflexivity|]. rewrite HP. cbn. lia.
Qed.

Lemma ceilDiv_nonneg (k n : Z) : 0 < n -> 0 <= k -> 0 <= ceilDiv k n.
Proof.
  intros Hn Hk. pose proof (ceilDiv_isCeiling k n Hn) as Hc. unfold isCeiling in Hc. nia.
Qed.

Section Provisioning.
Variable off : Z.

Lemma localDay_add (t : Z) (i : nat) :
  localDay off (t + Z.of_nat i * msPerDay) = localDay off t + Z.of_nat i.
Proof.
  unfold localDay.
  replace (t + Z.of_nat i * msPerDay + off) with (t + off + Z.of_nat i * msPerDay) by lia.
  apply Z.div_add. unfold msPerDay. lia.
Qed.

(** A medication that is due at most on the days whose distance from the
    anchor is a multiple of [n] is due on at most the ceiling of [d / n]
    days of any [d] consecutive days, and on that many when it is due on
    exactly those days and on the first day. *)
Lemma dueDays_periodic (m : Medication) (from a n d : Z) :
  0 < n -> 0 <= d ->
  (forall i : nat, isDue (host := zoneHost off) m (from + Z.of_nat i * msPerDay) = true ->
                   (a + Z.of_nat i) mod n = 0) ->
  dueDays (host := zoneHost off) m from d <= ceilDiv d n
  /\ ((forall i : nat, (a + Z.of_nat i) mod n = 0 ->
                       isDue (host := zoneHost off) m (from + Z.of_nat i * msPerDay) = true) ->
      a mod n = 0 ->
      dueDays (host := zoneHost off) m from d = ceilDiv d n).
Proof.
  intros Hn Hd Honly.
  destruct (multiples_in_window n a d Hn Hd) as [Hle Heq].
  pose proof (count_multiples n a (Z.to_nat d) Hn) as Hcount.
  rewrite Z2Nat.id in Hcount by exact Hd.
  unfold dueDays. split.
  - etransitivity; [|exact Hle]. rewrite <- Hcount. apply inj_le.
    apply filter_length_le. intros i Hi. apply Z.eqb_eq, Honly, Hi.
  - intros Hall Ha. rewrite <- (Heq Ha), <- Hcount. f_equal. f_equal.
    apply List.filter_ext. intros i.
    destruct (isDue (host := zoneHost off) m (from + Z.of_nat i * msPerDay)) eqn:E.
    + symmetry. apply Z.eqb_eq, Honly, E.
    + symmetry. apply not_true_is_false. intros Hmod. apply Z.eqb_eq in Hmod.
      rewrite (Hall i Hmod) in E. discriminate E.
Qed.

Lemma dueDays_never (m : Medication) (from d : Z) :
  (forall q, isDue (host := zoneHost off) m q = false) ->
  dueDays (host := zoneHost off) m from d = 0.
Proof.
  intros Hnever. unfold dueDays. rewrite filter_length_none; [reflexivity|].
  intros i. apply Hnever.
Qed.

Lemma dueDays_always (m : Medication) (from d : Z) :
  0 <= d -> (forall q, isDue (host := zoneHost off) m q = true) ->
  dueDays (host := zoneHost off) m from d = d.
Proof.
  intros Hd Hall. unfold dueDays. rewrite filter_length_all by (intros i; apply Hall).
  rewrite length_seq. apply Z2Nat.id, Hd.
Qed.

Lemma calculateDosesNeeded_zero (freq : string) : calculateDosesNeeded freq 0 = 0.
Proof. unfold calculateDosesNeeded. rewrite orb_true_r. reflexivity. Qed.

Lemma calculateDosesNeeded_ceiling (freq : string) (n d : Z) :
  0 < n ->
  (forall d', d' <> 0 -> calculateDosesNeeded freq d' = ceilDiv d' n) ->
  calculateDosesNeeded freq d = ceilDiv d n.
Proof.
  intros Hn Hc. destruct (Z.eq_dec d 0) as [->|Hd]; [|apply Hc, Hd].
  rewrite calculateDosesNeeded_zero. reflexivity.
Qed.

Lemma isDue_unanchored (m : Medication) (q : Z) :
  AnchoredKind (frequency m) -> startDate m = None ->
  isDue (host := zoneHost off) m q = false.
Proof.
  intros Hk Hsd. unfold isDue, isMedicationDueToday. rewrite Hsd.
  destruct Hk as [freq n []| |]; reflexivity.
Qed.

(** The doses for a recurrence of period [n] against its due days. *)
Lemma provisioning_periodic (m : Medication) (from d n : Z) :
  0 < n -> 0 <= d -> AnchoredKind (frequency m) ->
  requiresSpecificTimesCount (frequency m) = 1 ->
  calculateDosesNeeded (frequency m) d = ceilDiv d n ->
  (forall sd q, startDate m = Some sd ->
     isDue (host := zoneHost off) m q = true ->
     (localDay off q - localDay off sd) mod n = 0) ->
  (forall sd q, startDate m = Some sd ->
     isDue (host := zoneHost off) m from = true ->
     (localDay off q - localDay off sd) mod n = 0 ->
     localDay off from <= localDay off q ->
     isDue (host := zoneHost off) m q = true) ->
  dueDays (host := zoneHost off) m from d * requiresSpecificTimesCount (frequency m)
  <= calculateDosesNeeded (frequency m) d
  /\ (isDue (host := zoneHost off) m from = true ->
      dueDays (host := zoneHost off) m from d * requiresSpecificTimesCount (frequency m)
      = calculateDosesNeeded (frequency m) d).
Proof.
  intros Hn Hd Hk Hone Hcalc Honly Hall. rewrite Hone, Hcalc, Z.mul_1_r.
  destruct (startDate m) as [sd|] eqn:Hsd.
  - destruct (dueDays_periodic m from (localDay off from - localDay off sd) n d Hn Hd)
      as [Hle Heq].
    { intros i Hi. specialize (Honly sd _ eq_refl Hi). rewrite localDay_add in Honly.
      replace (localDay off from - localDay off sd + Z.of_nat i)
        with (localDay off from + Z.of_nat i - localDay off sd) by lia.
      exact Honly. }
    split; [exact Hle|]. intros Hfrom. apply Heq.
    + intros i Hi. apply (Hall sd _ eq_refl Hfrom).
      * rewrite localDay_add.
        replace (localDay off from + Z.of_nat i - localDay off sd)
          with (localDay off from - localDay off sd + Z.of_nat i) by lia.
        exact Hi.
      * rewrite localDay_add. lia.
    + apply (Honly sd from eq_refl Hfrom).
  - rewrite dueDays_never by (intros q; apply isDue_unanchored; assumption).
    split; [apply ceilDiv_nonneg; assumption|].
    intros Hfrom. rewrite isDue_unanchored in Hfrom by assumption. discriminate Hfrom.
Qed.

(** Over any [d] consecutive days, the number of days on which the
    frequency calculus finds a medication due, times the number of
    clock-times its form asks for, is at most the number of doses the travel
    calculator returns for [d] days; and it is exactly that number when the
    first day is a due day. *)
Lemma doses_cover_due_days (m : Medication) (from d : Z) :
  0 <= d ->
  dueDays (host := zoneHost off) m from d * requiresSpecificTimesCount (frequency m)
  <= calculateDosesNeeded (frequency m) d
  /\ (isDue (host := zoneHost off) m from = true ->
      dueDays (host := zoneHost off) m from d * requiresSpecificTimesCount (frequency m)
      = calculateDosesNeeded (frequency m) d).
Proof.
  intros Hd.
  assert (Hdaily : forall k,
            (forall q, isDue (host := zoneHost off) m q = true) ->
            requiresSpecificTimesCount (frequency m) = k ->
            (forall d', d' <> 0 -> calculateDosesNeeded (frequency m) d' = d' * k) ->
            dueDays (host := zoneHost off) m from d * requiresSpecificTimesCount (frequency m)
            <= calculateDosesNeeded (frequency m) d
            /\ (isDue (host := zoneHost off) m from = true ->
                dueDays (host := zoneHost off) m from d
                * requiresSpecificTimesCount (frequency m)
                = calculateDosesNeeded (frequency m) d)).
  { intros k Hall Hk Hcalc. rewrite (dueDays_always m from d Hd Hall), Hk.
    destruct (Z.eq_dec d 0) as [->|Hnz].
    - rewrite calculateDosesNeeded_zero. lia.
    - rewrite Hcalc by exact Hnz. lia. }
  assert (Hnever :
            (forall q, isDue (host := zoneHost off) m q = false) ->
            calculateDosesNeeded (frequency m) d = 0 ->
            dueDays (host := zoneHost off) m from d * requiresSpecificTimesCount (frequency m)
            <= calculateDosesNeeded (frequency m) d
            /\ (isDue (host := zoneHost off) m from = true ->
                dueDays (host := zoneHost off) m from d
                * requiresSpecificTimesCount (frequency m)
                = calculateDosesNeeded (frequency m) d)).
  { intros Hno Hcalc. rewrite (dueDays_never m from d Hno), Hcalc. lia. }
  destruct (String.eqb_spec (frequency m) "Once daily") as [E|N1].
  { apply (Hdaily 1).
    - intros q. unfold isDue, isMedicationDueToday. rewrite E. reflexivity.
    - rewrite E. reflexivity.
    - intros d' Hd'. rewrite E. unfold calculateDosesNeeded.
      destruct (Z.eqb_spec d' 0); [contradiction|]. cbn. lia. }
  destruct (String.eqb_spec (frequency m) "Twice daily") as [E|N2].
  { apply (Hdaily 2).
    - intros q. unfold isDue, isMedicationDueToday. rewrite E. reflexivity.
    - rewrite E. reflexivity.
    - intros d' Hd'. rewrite E. unfold calculateDosesNeeded.
      destruct (Z.eqb_spec d' 0); [contradiction|]. cbn. lia. }
  destruct (String.eqb_spec (frequency m) "Three times daily") as [E|N3].
  { apply (Hdaily 3).
    - intros q. unfold isDue, isMedicationDueToday. rewrite E. reflexivity.
    - rewrite E. reflexivity.
    - intros d' Hd'. rewrite E. unfold calculateDosesNeeded.
      destruct (Z.eqb_spec d' 0); [contradiction|]. cbn. lia. }
  assert (Hinterval : forall n, IntervalKind (frequency m) n ->
            dueDays (host := zoneHost off) m from d * requiresSpecificTimesCount (frequency m)
            <= calculateDosesNeeded (frequency m) d
            /\ (isDue (host := zoneHost off) m from = true ->
                dueDays (host := zoneHost off) m from d
                * requiresSpecificTimesCount (frequency m)
                = calculateDosesNeeded (frequency m) d)).
  { intros n Hk. assert (Hn : 0 < n) by (destruct Hk; lia).
    apply (provisioning_periodic m from d n Hn Hd (AnchoredInterval _ _ Hk)).
    - destruct Hk; reflexivity.
    - apply calculateDosesNeeded_ceiling; [exact Hn|].
      intros d' Hd'. apply calculateDosesNeeded_interval; assumption.
    - intros sd q Hsd Hq. apply (zone_interval_due off m n sd q Hk Hsd) in Hq. tauto.
    - intros sd q Hsd Hfrom Hq Hafter.
      apply (zone_interval_due off m n sd from Hk Hsd) in Hfrom.
      apply (zone_interval_due off m n sd q Hk Hsd). split; [lia|exact Hq]. }
  destruct (String.eqb_spec (frequency m) "Every other day") as [E|N4].
  { apply (Hinterval 2). rewrite E. constructor. }
  destruct (String.eqb_spec (frequency m) "Every three days") as [E|N5].
  { apply (Hinterval 3). rewrite E. constructor. }
  destruct (String.eqb_spec (frequency m) "Every four days") as [E|N6].
  { apply (Hinterval 4). rewrite E. constructor. }
  destruct (String.eqb_spec (frequency m) "Weekly") as [E|N7].
  { apply (provisioning_periodic m from d 7 ltac:(lia) Hd).
    - rewrite E. constructor.
    - rewrite E. reflexivity.
    - apply calculateDosesNeeded_ceiling; [lia|].
      intros d' Hd'. rewrite E. unfold calculateDosesNeeded.
      destruct (Z.eqb_spec d' 0); [contradiction|]. reflexivity.
    - intros sd q Hsd Hq. apply (zone_weekly_due off m sd q E Hsd), Hq.
    - intros sd q Hsd _ Hq _. apply (zone_weekly_due off m sd q E Hsd), Hq. }
  destruct (String.eqb_spec (frequency m) "Bi-weekly") as [E|N8].
  { apply (provisioning_periodic m from d 14 ltac:(lia) Hd).
    - rewrite E. constructor.
    - rewrite E. reflexivity.
    - apply calculateDosesNeeded_ceiling; [lia|].
      intros d' Hd'. rewrite E. unfold calculateDosesNeeded.
      destruct (Z.eqb_spec d' 0); [contradiction|]. reflexivity.
    - intros sd q Hsd Hq. apply (zone_biweekly_due off m sd q E Hsd), Hq.
    - intros sd q Hsd _ Hq _. apply (zone_biweekly_due off m sd q E Hsd), Hq. }
  apply Hnever.
  - intros q. unfold isDue, isMedicationDueToday, requiresStartDate, dueByFrequency.
    apply String.eqb_neq in N1, N2, N3, N4, N5, N6, N7, N8. cbn [existsb].
    rewrite ?N1, ?N2, ?N3, ?N4, ?N5, ?N6, ?N7, ?N8. cbn [orb andb].
    destruct (frequency m =? "")%string; [reflexivity|].
    destruct (frequency m =? "As needed")%string; reflexivity.
  - unfold calculateDosesNeeded.
    apply String.eqb_neq in N1, N2, N3, N4, N5, N6, N7, N8.
    rewrite ?N1, ?N2, ?N3, ?N4, ?N5, ?N6, ?N7, ?N8.
    destruct ((frequency m =? "")%string || (d =? 0)); reflexivity.
Qed.

End Provisioning.

(** * Further properties of the travel provisioning *)

Lemma ceilDiv_mul (x b : Z) : 0 < b -> ceilDiv (x * b) b = x.
Proof.
  intros Hb. unfold ceilDiv. replace (- (x * b)) with (- x * b) by lia.
  rewrite Z.div_mul by lia. lia.
Qed.

Lemma tripDurationDays_sym (dep ret : Z) : tripDurationDays dep ret = tripDurationDays ret dep.
Proof.
  unfold tripDurationDays. cbn zeta.
  replace (Z.abs (dep - ret)) with (Z.abs (ret - dep)) by lia. reflexivity.
Qed.

Lemma tripDurationDays_pos (dep ret : Z) : 1 <= tripDurationDays dep ret.
Proof.
  unfold tripDurationDays. cbn zeta.
  pose proof (ceilDiv_nonneg (Z.abs (ret - dep)) msPerDay eq_refl ltac:(lia)). lia.
Qed.

(** X10. The two travel dates are not ordered by the effect: a return
    date before the departure date gives the same packing list as the two
    dates swapped.  A trip always counts at least one day, and between two
    calendar dates it counts both the first and the last day. *)
Theorem travel_dates_unordered (dep ret : Z)
  (mainIbdMed : option Medication) (supplements : list Medication) :
  travelDoses (Some dep) (Some ret) mainIbdMed supplements
  = travelDoses (Some ret) (Some dep) mainIbdMed supplements
  /\ 1 <= tripDurationDays dep ret
  /\ (utcMidnight dep -> utcMidnight ret ->
      tripDurationDays dep ret = Z.abs (ret / msPerDay - dep / msPerDay) + 1).
Proof.
  split; [|split].
  - unfold travelDoses. rewrite (tripDurationDays_sym dep ret). reflexivity.
  - apply tripDurationDays_pos.
  - unfold utcMidnight. intros Hdep Hret.
    pose proof (Z.div_mod dep msPerDay ltac:(discriminate)) as Ed.
    pose proof (Z.div_mod ret msPerDay ltac:(discriminate)) as Er.
    rewrite Hdep, Z.add_0_r in Ed. rewrite Hret, Z.add_0_r in Er.
    unfold tripDurationDays. cbn zeta. f_equal.
    replace (Z.abs (ret - dep))
      with (Z.abs (ret / msPerDay - dep / msPerDay) * msPerDay)
      by (unfold msPerDay in *; lia).
    apply ceilDiv_mul. reflexivity.
Qed.

Lemma supplementDoses_snoc (sups : list Medication) (sup : Medication) (d : Z) :
  supplementDoses (sups ++ [sup]) d
  = assignEntry (name sup) (calculateDosesNeeded (frequency sup) d) (supplementDoses sups d).
Proof. unfold supplementDoses. rewrite fold_left_app. reflexivity. Qed.

Lemma supplementDoses_last (before after : list Medication) (sup : Medication) (d : Z) :
  name sup <> "__proto__"%string ->
  (forall other, other ∈ after -> name other <> name sup) ->
  supplementDoses (before ++ sup :: after) d !! name sup
  = Some (calculateDosesNeeded (frequency sup) d).
Proof.
  intros Hnm. induction after as [|x after IH] using rev_ind; intros Hlast.
  - rewrite supplementDoses_snoc, assignEntry_lookup.
    rewrite bool_decide_eq_true_2 by tauto. reflexivity.
  - rewrite app_comm_cons, app_assoc, supplementDoses_snoc, assignEntry_lookup.
    rewrite bool_decide_eq_false_2.
    + apply IH. intros other Hin. apply Hlast, elem_of_app. left. exact Hin.
    + intros [E _]. revert E. apply Hlast, elem_of_app. right. apply list_elem_of_here.
Qed.

(** X11. The supplements of the packing list are keyed by name: of
    several supplements with one name, the list holds a single entry,
    computed from the frequency of the last of them.  The name [__proto__]
    is the exception: a supplement of that name makes no entry. *)
Theorem supplement_entry_is_last_of_name
  (dep ret : Z) (mainIbdMed : option Medication)
  (before after : list Medication) (sup : Medication) :
  (forall other, other ∈ after -> name other <> name sup) ->
  (name sup <> "__proto__"%string ->
   supplementsNeeded (travelDoses (Some dep) (Some ret) mainIbdMed (before ++ sup :: after))
     !! name sup
   = Some (calculateDosesNeeded (frequency sup) (tripDurationDays dep ret)))
  /\ supplementsNeeded
       (travelDoses (Some dep) (Some ret) mainIbdMed (before ++ sup :: after))
       !! "__proto__"%string = None.
Proof.
  intros Hlast. split.
  - intros Hnm. apply supplementDoses_last; assumption.
  - apply supplementDoses_proto, lookup_empty.
Qed.

Section PackingForTheTrip.
Variable off : Z.

(** X9. The packing list covers the schedule of the trip.  For the
    days of the trip counted from any first day [from], the main medication
    is provisioned with at least two doses more than its due days times the
    clock-times of its form, and with exactly the buffer more when the first
    day is a due day; a supplement (the last of its name, the name not being
    [__proto__], under which the list takes no entry) is provisioned with at
    least its due days times its clock-times, and with exactly that when the
    first day is a due day. *)
Theorem packing_list_covers_trip (dep ret from : Z) (m : Medication)
  (before after : list Medication) (sup : Medication) :
  name sup <> "__proto__"%string ->
  (forall other, other ∈ after -> name other <> name sup) ->
  (dueDays (host := zoneHost off) m from (tripDurationDays dep ret)
   * requiresSpecificTimesCount (frequency m) + 2
   <= primaryMedNeeded
        (travelDoses (Some dep) (Some ret) (Some m) (before ++ sup :: after))
   /\ (isDue (host := zoneHost off) m from = true ->
       primaryMedNeeded
         (travelDoses (Some dep) (Some ret) (Some m) (before ++ sup :: after))
       = dueDays (host := zoneHost off) m from (tripDurationDays dep ret)
         * requiresSpecificTimesCount (frequency m)
         + extraDoses (tripDurationDays dep ret)))
  /\ exists v,
       supplementsNeeded
         (travelDoses (Some dep) (Some ret) (Some m) (before ++ sup :: after))
         !! name sup = Some v
       /\ dueDays (host := zoneHost off) sup from (tripDurationDays dep ret)
          * requiresSpecificTimesCount (frequency sup) <= v
       /\ (isDue (host := zoneHost off) sup from = true ->
           v = dueDays (host := zoneHost off) sup from (tripDurationDays dep ret)
               * requiresSpecificTimesCount (frequency sup)).
Proof.
  intros Hnm Hlast.
  pose proof (tripDurationDays_pos dep ret) as Hd.
  destruct (doses_cover_due_days off m from (tripDurationDays dep ret) ltac:(lia))
    as [Hm Hm'].
  destruct (doses_cover_due_days off sup from (tripDurationDays dep ret) ltac:(lia))
    as [Hs Hs'].
  split; [split|].
  - cbn. assert (2 <= extraDoses (tripDurationDays dep ret)); [|lia].
    unfold extraDoses. destruct (_ <? 14); [lia|]. destruct (_ <=? 30); lia.
  - intros Hdue. cbn. rewrite (Hm' Hdue). reflexivity.
  - exists (calculateDosesNeeded (frequency sup) (tripDurationDays dep ret)).
    split; [apply supplementDoses_last; assumption|]. split; [exact Hs|].
    intros Hdue. symmetry. apply Hs', Hdue.
Qed.

End PackingForTheTrip.

(** * Longer trips *)

Lemma ceilDiv_mono (a b n : Z) : 0 < n -> a <= b -> ceilDiv a n <= ceilDiv b n.
Proof.
  intros Hn Hab. unfold ceilDiv.
  pose proof (Z.div_le_mono (- b) (- a) n Hn ltac:(lia)). lia.
Qed.

Lemma calculateDosesNeeded_nonneg (freq : string) (d : Z) :
  0 <= d -> 0 <= calculateDosesNeeded freq d.
Proof.
  intros Hd. unfold calculateDosesNeeded.
  pose proof (ceilDiv_nonneg d 2 ltac:(lia) Hd).
  pose proof (ceilDiv_nonneg d 3 ltac:(lia) Hd).
  pose proof (ceilDiv_nonneg d 4 ltac:(lia) Hd).
  pose proof (ceilDiv_nonneg d 7 ltac:(lia) Hd).
  pose proof (ceilDiv_nonneg d 14 ltac:(lia) Hd).
  repeat match goal with
         | |- context [if ?c then _ else _] => destruct c
         end; lia.
Qed.

Lemma calculateDosesNeeded_mono (freq : string) (d d' : Z) :
  0 <= d <= d' -> calculateDosesNeeded freq d <= calculateDosesNeeded freq d'.
Proof.
  intros Hd.
  destruct (Z.eq_dec d 0) as [->|Hnz].
  { rewrite calculateDosesNeeded_zero. apply calculateDosesNeeded_nonneg. lia. }
  unfold calculateDosesNeeded.
  destruct (Z.eqb_spec d 0) as [|_]; [contradiction|].
  destruct (Z.eqb_spec d' 0) as [|_]; [lia|].
  pose proof (ceilDiv_mono d d' 2 ltac:(lia) ltac:(lia)).
  pose proof (ceilDiv_mono d d' 3 ltac:(lia) ltac:(lia)).
  pose proof (ceilDiv_mono d d' 4 ltac:(lia) ltac:(lia)).
  pose proof (ceilDiv_mono d d' 7 ltac:(lia) ltac:(lia)).
  pose proof (ceilDiv_mono d d' 14 ltac:(lia) ltac:(lia)).
  rewrite !orb_false_r.
  repeat match goal with
         | |- context [if ?c then _ else _] => destruct c
         end; lia.
Qed.

Lemma extraDoses_mono (d d' : Z) : d <= d' -> extraDoses d <= extraDoses d'.
Proof.
  intros Hd. unfold extraDoses.
  destruct (Z.ltb_spec d 14), (Z.ltb_spec d' 14),
           (Z.leb_spec d 30), (Z.leb_spec d' 30); lia.
Qed.

Lemma tripDurationDays_mono (dep ret ret' : Z) :
  dep <= ret <= ret' -> tripDurationDays dep ret <= tripDurationDays dep ret'.
Proof.
  intros H. unfold tripDurationDays. cbn zeta.
  pose proof (ceilDiv_mono (Z.abs (ret - dep)) (Z.abs (ret' - dep)) msPerDay eq_refl
                ltac:(lia)).
  lia.
Qed.

Lemma supplementDoses_mono (sups : list Medication) (d d' : Z) (nm : string) (v : Z) :
  0 <= d <= d' ->
  supplementDoses sups d !! nm = Some v ->
  exists v', supplementDoses sups d' !! nm = Some v' /\ v <= v'.
Proof.
  intros Hd. revert v. induction sups as [|sup sups IH] using rev_ind; intros v Hv.
  - unfold supplementDoses in Hv. cbn in Hv. rewrite lookup_empty in Hv. discriminate Hv.
  - rewrite supplementDoses_snoc, assignEntry_lookup in *.
    destruct (bool_decide_reflect (name sup = nm /\ name sup <> "__proto__"%string)).
    + injection Hv as <-.
      eexists. split; [reflexivity|]. apply calculateDosesNeeded_mono, Hd.
    + apply IH, Hv.
Qed.

(** X23. A longer trip never packs less: with the departure fixed, a
    later return date gives at least as many doses of the main medication
    and of every supplement. *)
Theorem longer_trip_packs_no_less (dep ret ret' : Z) (m : Medication)
  (supplements : list Medication) :
  dep <= ret <= ret' ->
  primaryMedNeeded (travelDoses (Some dep) (Some ret) (Some m) supplements)
  <= primaryMedNeeded (travelDoses (Some dep) (Some ret') (Some m) supplements)
  /\ forall nm v,
       supplementsNeeded (travelDoses (Some dep) (Some ret) (Some m) supplements) !! nm
       = Some v ->
       exists v',
         supplementsNeeded (travelDoses (Some dep) (Some ret') (Some m) supplements) !! nm
         = Some v'
         /\ v <= v'.
Proof.
  intros H.
  pose proof (tripDurationDays_pos dep ret) as Hpos.
  pose proof (tripDurationDays_mono dep ret ret' H) as Hmono.
  split.
  - cbn.
    pose proof (calculateDosesNeeded_mono (frequency m) (tripDurationDays dep ret)
                  (tripDurationDays dep ret') ltac:(lia)).
    pose proof (extraDoses_mono _ _ Hmono). lia.
  - intros nm v Hv. cbn in *.
    apply (supplementDoses_mono supplements (tripDurationDays dep ret)
             (tripDurationDays dep ret') nm v); [lia|exact Hv].
Qed.

Lemma longer_trip_packs_no_less_witness :
  primaryMedNeeded
    (travelDoses (Some scenarioDay) (Some (scenarioDay + 4 * msPerDay)) (Some weeklyMed) [])
  <= primaryMedNeeded
       (travelDoses (Some scenarioDay) (Some (scenarioDay + 20 * msPerDay)) (Some weeklyMed) []).
Proof.
  apply (proj1 (longer_trip_packs_no_less scenarioDay (scenarioDay + 4 * msPerDay)
                  (scenarioDay + 20 * msPerDay) weeklyMed []
                  ltac:(unfold scenarioDay, msPerDay; lia))).
Defined.

(** * Properties of the medication forms *)

Lemma requiresStartDate_agree (freq : string) :
  Form.requiresStartDate freq = requiresStartDate freq.
Proof.
  unfold Form.requiresStartDate, requiresStartDate. cbn [existsb].
  destruct (freq =? "Every other day")%string; [reflexivity|].
  destruct (freq =? "Every three days")%string,
           (freq =? "Every four days")%string,
           (freq =? "Weekly")%string,
           (freq =? "Bi-weekly")%string; reflexivity.
Qed.

(** X12. Choosing a frequency fills in as many clock-times as the form
    asks for, pairwise distinct and all readable by the scheduler as times
    of the day; it keeps the start date exactly for the frequencies that need
    one and leaves the other fields as they were. *)
Theorem frequency_change_fills_times (form prevForm : Form.t) (newFrequency : string) :
  Z.of_nat (length (Form.medTimes (Form.handleFrequencyChange form prevForm newFrequency)))
  = requiresSpecificTimesCount newFrequency
  /\ NoDup (Form.medTimes (Form.handleFrequencyChange form prevForm newFrequency))
  /\ Forall clockTime (Form.medTimes (Form.handleFrequencyChange form prevForm newFrequency))
  /\ Form.frequency (Form.handleFrequencyChange form prevForm newFrequency) = newFrequency
  /\ Form.startDate (Form.handleFrequencyChange form prevForm newFrequency)
     = (if requiresStartDate newFrequency then Form.startDate form else ""%string)
  /\ Form.name (Form.handleFrequencyChange form prevForm newFrequency) = Form.name prevForm
  /\ Form.dosageAmount (Form.handleFrequencyChange form prevForm newFrequency)
     = Form.dosageAmount prevForm
  /\ Form.dosageUnit (Form.handleFrequencyChange form prevForm newFrequency)
     = Form.dosageUnit prevForm.
Proof.
  assert (Hclock : forall h mi t, hoursMinutes t = Some (h, mi) ->
                     0 <= h < 24 -> 0 <= mi < 60 -> clockTime t)
    by (intros h mi t Ht Hh Hmi; exists h, mi; auto).
  assert (H0900 : clockTime "09:00") by (apply (Hclock 9 0); [reflexivity|lia|lia]).
  assert (H2100 : clockTime "21:00") by (apply (Hclock 21 0); [reflexivity|lia|lia]).
  assert (H0800 : clockTime "08:00") by (apply (Hclock 8 0); [reflexivity|lia|lia]).
  assert (H1400 : clockTime "14:00") by (apply (Hclock 14 0); [reflexivity|lia|lia]).
  assert (H2000 : clockTime "20:00") by (apply (Hclock 20 0); [reflexivity|lia|lia]).
  assert (Hone : NoDup ["09:00"%string]) by apply NoDup_singleton.
  assert (Htwo : NoDup ["09:00"; "21:00"]%string)
    by (apply NoDup_cons; split; [intros H%list_elem_of_singleton; discriminate H|
                                  apply NoDup_singleton]).
  assert (Hthree : NoDup ["08:00"; "14:00"; "20:00"]%string).
  { apply NoDup_cons. split.
    - intros H. apply elem_of_cons in H as [H|H%list_elem_of_singleton]; discriminate H.
    - apply NoDup_cons; split; [intros H%list_elem_of_singleton; discriminate H|
                                apply NoDup_singleton]. }
  split; [|split; [|split; [|split; [reflexivity|split; [|auto]]]]].
  4: { unfold Form.handleFrequencyChange. cbn [Form.startDate].
       rewrite requiresStartDate_agree.
       destruct (requiresStartDate newFrequency); reflexivity. }
  all: unfold Form.handleFrequencyChange, requiresSpecificTimesCount;
       cbn [Form.medTimes];
       destruct (newFrequency =? "Once daily")%string;
         [cbn; auto using List.Forall_cons, List.Forall_nil|];
       destruct (newFrequency =? "Twice daily")%string;
         [cbn; auto using List.Forall_cons, List.Forall_nil|];
       destruct (newFrequency =? "Three times daily")%string;
         [cbn; auto using List.Forall_cons, List.Forall_nil|];
       destruct ((newFrequency =? "Every other day")%string
                 || (newFrequency =? "Every three days")%string
                 || (newFrequency =? "Every four days")%string
                 || (newFrequency =? "Weekly")%string
                 || (newFrequency =? "Bi-weekly")%string);
         cbn; auto using List.Forall_cons, List.Forall_nil, NoDup_nil_2.
Qed.

Section SubmitGuards.
Variable trim : string -> string.

Lemma times_check_never_fires (freq : string) (times : list string) :
  Form.requiresTimes freq
  && existsb (fun time => (trim time =? "")%string) times
  && (Z.of_nat (length times) =? 0) = false.
Proof.
  destruct times as [|t times]; cbn [existsb].
  - rewrite andb_false_r. reflexivity.
  - apply andb_false_r.
Qed.

Lemma submit_cases (fieldsMessage timesMessage : string) (dbReady : bool) (form : Form.t) :
  (Form.submit trim fieldsMessage timesMessage dbReady form = Form.WriteDocument form
   /\ complete dbReady form)
  \/ (~ complete dbReady form
      /\ (Form.submit trim fieldsMessage timesMessage dbReady form
          = Form.ShowMessage fieldsMessage
          \/ Form.submit trim fieldsMessage timesMessage dbReady form
             = Form.ShowMessage "Please select a Start Date for this frequency."
          \/ Form.submit trim fieldsMessage timesMessage dbReady form
             = Form.ShowMessage "Database not ready.")).
Proof.
  unfold Form.submit, complete. rewrite times_check_never_fires.
  destruct (String.eqb_spec (Form.name form) ""); cbn [orb];
    [right; split; [tauto|auto]|].
  destruct (String.eqb_spec (Form.dosageAmount form) ""); cbn [orb];
    [right; split; [tauto|auto]|].
  destruct (String.eqb_spec (Form.dosageUnit form) ""); cbn [orb];
    [right; split; [tauto|auto]|].
  destruct (String.eqb_spec (Form.frequency form) ""); cbn [orb];
    [right; split; [tauto|auto]|].
  destruct (Form.requiresStartDate (Form.frequency form)) eqn:Hreq; cbn [andb].
  - destruct (String.eqb_spec (Form.startDate form) "");
      [right; split; [tauto|auto]|].
    destruct dbReady; cbn [negb]; [left; auto 10|right; split; [|auto]].
    intros (_ & _ & _ & _ & _ & H). discriminate H.
  - destruct dbReady; cbn [negb]; [left|right; split; [|auto]].
    + split; [reflexivity|]. repeat (split; [assumption|]). split; [discriminate|reflexivity].
    + intros (_ & _ & _ & _ & _ & H). discriminate H.
Qed.

(** X13. The submit handlers write the form exactly when the name, the
    dosage amount, the dosage unit and the frequency are filled in, the
    start date is filled in where the frequency needs one, and the database
    is ready.  The clock-times play no part: the check of the times never
    rejects a form, so a form without clock-times, or with blank ones, is
    written all the same. *)
Theorem submit_ignores_times (dbReady : bool) (form : Form.t) :
  (Form.handleSaveIbdMed trim dbReady form = Form.WriteDocument form
   <-> complete dbReady form)
  /\ (Form.handleAddSupplement trim dbReady form = Form.WriteDocument form
      <-> complete dbReady form)
  /\ Form.handleSaveIbdMed trim dbReady form
     <> Form.ShowMessage "Please fill all required medication times."
  /\ Form.handleAddSupplement trim dbReady form
     <> Form.ShowMessage "Please fill all required supplement times."
  /\ forall times,
       complete dbReady form ->
       Form.handleSaveIbdMed trim dbReady
         {| Form.name := Form.name form; Form.dosageAmount := Form.dosageAmount form;
            Form.dosageUnit := Form.dosageUnit form; Form.frequency := Form.frequency form;
            Form.medTimes := times; Form.startDate := Form.startDate form |}
       = Form.WriteDocument
           {| Form.name := Form.name form; Form.dosageAmount := Form.dosageAmount form;
              Form.dosageUnit := Form.dosageUnit form; Form.frequency := Form.frequency form;
              Form.medTimes := times; Form.startDate := Form.startDate form |}.
Proof.
  unfold Form.handleSaveIbdMed, Form.handleAddSupplement.
  split; [|split; [|split; [|split]]].
  - destruct (submit_cases "Please fill all required fields for Main IBD Medication."
                "Please fill all required medication times." dbReady form)
      as [[-> Hc]|[Hn [-> |[-> | ->]]]]; split; intros H;
      solve [reflexivity | assumption | discriminate H | contradiction].
  - destruct (submit_cases
                "Please fill all required fields for the new supplement (Name, Dosage, Frequency)."
                "Please fill all required supplement times." dbReady form)
      as [[-> Hc]|[Hn [-> |[-> | ->]]]]; split; intros H;
      solve [reflexivity | assumption | discriminate H | contradiction].
  - destruct (submit_cases "Please fill all required fields for Main IBD Medication."
                "Please fill all required medication times." dbReady form)
      as [[-> Hc]|[Hn [-> |[-> | ->]]]]; discriminate.
  - destruct (submit_cases
                "Please fill all required fields for the new supplement (Name, Dosage, Frequency)."
                "Please fill all required supplement times." dbReady form)
      as [[-> Hc]|[Hn [-> |[-> | ->]]]]; discriminate.
  - intros times Hc.
    destruct (submit_cases "Please fill all required fields for Main IBD Medication."
                "Please fill all required medication times." dbReady
                {| Form.name := Form.name form; Form.dosageAmount := Form.dosageAmount form;
                   Form.dosageUnit := Form.dosageUnit form;
                   Form.frequency := Form.frequency form;
                   Form.medTimes := times; Form.startDate := Form.startDate form |})
      as [[E _]|[Hn _]]; [exact E|].
    exfalso. apply Hn. exact Hc.
Qed.

Section SavedRecords.
Context {host : HostClock}.

(** X14. A medication written by a submit handler never makes the
    frequency calculus give up for want of a start date: the handlers ask
    for a start date for the very frequencies for which
    [isMedicationDueToday] needs one, so no warning is logged for a record
    that carries the frequency and the start date of an accepted form. *)
Theorem accepted_form_never_warns (dbReady : bool) (form : Form.t)
  (med : Medication) (todayDate : Z) :
  Form.handleSaveIbdMed trim dbReady form = Form.WriteDocument form
  \/ Form.handleAddSupplement trim dbReady form = Form.WriteDocument form ->
  frequency med = Form.frequency form ->
  (Form.startDate form <> ""%string -> is_Some (startDate med)) ->
  warnings (isMedicationDueToday med todayDate) = [].
Proof.
  intros Hacc Hf Hsd.
  assert (Hc : complete dbReady form).
  { unfold Form.handleSaveIbdMed, Form.handleAddSupplement in Hacc.
    destruct Hacc as [Hacc|Hacc].
    - destruct (submit_cases "Please fill all required fields for Main IBD Medication."
                  "Please fill all required medication times." dbReady form)
        as [[_ Hc]|[_ [E|[E|E]]]]; [exact Hc|rewrite E in Hacc; discriminate Hacc..].
    - destruct (submit_cases
                  "Please fill all required fields for the new supplement (Name, Dosage, Frequency)."
                  "Please fill all required supplement times." dbReady form)
        as [[_ Hc]|[_ [E|[E|E]]]]; [exact Hc|rewrite E in Hacc; discriminate Hacc..]. }
  destruct Hc as (_ & _ & _ & _ & Hreq & _).
  unfold isMedicationDueToday. rewrite Hf.
  destruct (Form.frequency form =? "")%string; [reflexivity|].
  destruct (Form.frequency form =? "As needed")%string; [reflexivity|].
  rewrite <- requiresStartDate_agree.
  destruct (Form.requiresStartDate (Form.frequency form)) eqn:E; [|reflexivity].
  rewrite bool_decide_eq_true_2 by (apply Hsd, Hreq; reflexivity). reflexivity.
Qed.

End SavedRecords.

End SubmitGuards.

(** * Properties of the symptom form *)

Section SymptomFormFacts.
Import SymptomForm.

Lemma initial_lookup name item : initial !! name = Some item -> item = unchecked.
Proof.
  intros H. apply elem_of_list_to_map_2 in H.
  apply list_elem_of_fmap in H as (key & E & _). injection E as _ ->. reflexivity.
Qed.

Lemma isChecked_true item : isChecked item = true -> checked item = Some true.
Proof. unfold isChecked. destruct (checked item) as [[|]|]; congruence. Qed.

Lemma wellFormed_checked item :
  wellFormed item -> isChecked item = true ->
  exists v, severity item = Some v /\ 1 <= v <= 10.
Proof.
  intros [->|[_ H]] Hc; [discriminate Hc|exact H].
Qed.

Lemma reachable_shape p :
  Reachable p ->
  dom p = dom initial /\ forall name item, p !! name = Some item -> wellFormed item.
Proof.
  induction 1 as [|p name c p' _ [Hdom Hwf] Hin Hstep
                  |p name value _ [Hdom Hwf] (item & v & Hitem & Hc & -> & Hv)
                  |p success _ [Hdom Hwf]].
  - split; [reflexivity|]. intros name item H. left. apply (initial_lookup name), H.
  - assert (Hd : forall x, dom (<[name := x]> p) = dom initial).
    { intros x. rewrite dom_insert_L, <- Hdom. apply elem_of_dom in Hin. set_solver. }
    unfold handleSymptomCheckChange in Hstep. destruct c.
    + destruct Hin as [item Hitem]. rewrite Hitem in Hstep. injection Hstep as <-.
      split; [apply Hd|]. intros name' item' H.
      destruct (decide (name = name')) as [<-|Hne].
      * rewrite lookup_insert_eq in H. injection H as <-. right. cbn.
        split; [reflexivity|].
        destruct (Hwf _ _ Hitem) as [->|[_ (v & -> & Hv)]]; cbn.
        -- exists 1. split; [reflexivity|lia].
        -- exists v. split; [|exact Hv]. destruct v; try reflexivity; lia.
      * rewrite lookup_insert_ne in H by exact Hne. apply (Hwf _ _ H).
    + injection Hstep as <-. split; [apply Hd|]. intros name' item' H.
      destruct (decide (name = name')) as [<-|Hne].
      * rewrite lookup_insert_eq in H. injection H as <-. left. reflexivity.
      * rewrite lookup_insert_ne in H by exact Hne. apply (Hwf _ _ H).
  - unfold handleSeverityChange. rewrite Hitem. split.
    + rewrite dom_insert_L, <- Hdom.
      assert (name ∈ dom p) by (apply elem_of_dom; eauto). set_solver.
    + intros name' item' H. destruct (decide (name = name')) as [<-|Hne].
      * rewrite lookup_insert_eq in H. injection H as <-. right. cbn.
        split; [apply isChecked_true, Hc|eauto].
      * rewrite lookup_insert_ne in H by exact Hne. apply (Hwf _ _ H).
  - unfold handleSymptomsSubmit.
    destruct (negb _); [auto|]. destruct success; [|auto]. cbn. split.
    + rewrite dom_fmap_L. exact Hdom.
    + intros name item H. rewrite lookup_fmap in H.
      destruct (p !! name); [|discriminate H]. injection H as <-. left. reflexivity.
Qed.

(** X17. Through the controls of the symptom form, every item stays
    either unchecked with severity 0 or checked with a severity from 1 to
    10, and the eight symptoms stay the items of the form; no check box
    makes its handler fail.  A symptom log that the form saves therefore has
    at least one checked symptom, and every checked symptom of it has a
    severity from 1 to 10. *)
Theorem symptom_form_invariant (p : gmap string Symptom) :
  Reachable p ->
  dom p = dom initial
  /\ (forall name item, p !! name = Some item -> wellFormed item)
  /\ (forall name isChecked,
        is_Some (p !! name) -> is_Some (handleSymptomCheckChange name isChecked p))
  /\ (forall success document,
        fst (handleSymptomsSubmit success p) = Some document ->
        (exists name item, document !! name = Some item /\ isChecked item = true)
        /\ forall name item,
             document !! name = Some item -> isChecked item = true ->
             exists v, severity item = Some v /\ 1 <= v <= 10).
Proof.
  intros Hr. destruct (reachable_shape p Hr) as [Hdom Hwf].
  split; [exact Hdom|]. split; [exact Hwf|]. split.
  - intros name c [item Hitem]. unfold handleSymptomCheckChange.
    destruct c; [rewrite Hitem|]; eauto.
  - intros success document. unfold handleSymptomsSubmit.
    destruct (existsb isChecked (map_to_list p).*2) eqn:Hex; cbn; [|discriminate].
    intros [= <-]. split.
    + apply existsb_exists in Hex as (item & Hin & Hc).
      apply list_elem_of_In, list_elem_of_fmap in Hin as ([name item'] & -> & Hin).
      apply elem_of_map_to_list in Hin. eauto.
    + intros name item Hitem Hc. apply wellFormed_checked; [|exact Hc].
      apply (Hwf _ _ Hitem).
Qed.

(** Cramps checked and rated 7. *)
Lemma symptom_form_invariant_witness :
  dom (handleSeverityChange "cramps" (Some 7)
         (<["cramps"%string := {| checked := Some true; severity := Some 1 |}]> initial))
  = dom initial.
Proof.
  assert (Hcheck : Reachable
                     (<["cramps"%string := {| checked := Some true; severity := Some 1 |}]>
                        initial)).
  { apply (ReachCheck initial "cramps" true); [apply ReachInitial| |reflexivity].
    exists unchecked. reflexivity. }
  assert (Hrate : Reachable
                    (handleSeverityChange "cramps" (Some 7)
                       (<["cramps"%string := {| checked := Some true; severity := Some 1 |}]>
                          initial))).
  { apply ReachSeverity; [exact Hcheck|].
    exists {| checked := Some true; severity := Some 1 |}, 7.
    split; [apply lookup_insert_eq|]. split; [reflexivity|]. split; [reflexivity|lia]. }
  apply (proj1 (symptom_form_invariant _ Hrate)).
Defined.

End SymptomFormFacts.

(** * Properties of the selection of logs *)

Lemma includes_iff (ids : list string) (id : string) : includes ids id = true <-> id ∈ ids.
Proof.
  unfold includes. rewrite existsb_exists. split.
  - intros (x & Hin & Heq). apply String.eqb_eq in Heq. subst x.
    apply list_elem_of_In, Hin.
  - intros Hin. exists id. split; [apply list_elem_of_In, Hin|apply String.eqb_refl].
Qed.

Lemma toggleLogSelection_elem (id : string) (prev : list string) (x : string) :
  x ∈ toggleLogSelection id prev
  <-> (x <> id /\ x ∈ prev) \/ (x = id /\ id ∉ prev).
Proof.
  unfold toggleLogSelection. destruct (includes prev id) eqn:Hinc.
  - apply includes_iff in Hinc. rewrite list_elem_of_In, filter_In, <- list_elem_of_In.
    rewrite negb_true_iff, String.eqb_neq. split.
    + intros [Hin Hne]. left. auto.
    + intros [[Hne Hin]|[-> Hnot]]; [auto|contradiction].
  - assert (Hnot : id ∉ prev).
    { intros Hin. apply includes_iff in Hin. congruence. }
    rewrite elem_of_app, list_elem_of_singleton. split.
    + intros [Hin| ->]; [left|right; auto]. split; [|exact Hin].
      intros ->. contradiction.
    + intros [[_ Hin]|[-> _]]; auto.
Qed.

Lemma filter_NoDup {A} (P : A -> bool) (l : list A) : NoDup l -> NoDup (List.filter P l).
Proof.
  induction 1 as [|x l Hx Hl IH]; cbn; [constructor|].
  destruct (P x); [|exact IH]. constructor; [|exact IH].
  intros Hin. apply Hx. apply list_elem_of_In, filter_In in Hin as [Hin _].
  apply list_elem_of_In, Hin.
Qed.

(** X18. Clicking a log flips its membership in the selection and
    leaves every other log as it was; a selection without repetitions stays
    so; and clicking twice leaves the report with the same entries as
    before. *)
Theorem toggle_flips_one_log (id : string) (prev : list string) (logEntries : list LogEntry) :
  (forall x, x ∈ toggleLogSelection id prev
             <-> (x <> id /\ x ∈ prev) \/ (x = id /\ id ∉ prev))
  /\ (NoDup prev -> NoDup (toggleLogSelection id prev))
  /\ relevantLogs logEntries (toggleLogSelection id (toggleLogSelection id prev))
     = relevantLogs logEntries prev.
Proof.
  split; [intros x; apply toggleLogSelection_elem|]. split.
  - intros Hnd. unfold toggleLogSelection. destruct (includes prev id) eqn:Hinc.
    + apply filter_NoDup, Hnd.
    + apply NoDup_app. split; [exact Hnd|]. split; [|apply NoDup_singleton].
      intros x Hin Hx. apply list_elem_of_singleton in Hx. subst x.
      apply includes_iff in Hin. congruence.
  - unfold relevantLogs. apply List.filter_ext. intros entry.
    apply eq_true_iff_eq. rewrite !includes_iff, !toggleLogSelection_elem.
    destruct (decide (entryId entry = id)) as [E|E];
      destruct (decide (id ∈ prev)); subst; tauto.
Qed.

Section SmartSelection.
Variable off : Z.

Lemma since_local_day (now entryDate : Z) :
  zoneSetHours off now 0 0 - 13 * msPerDay <= entryDate
  <-> localDay off now - 13 <= localDay off entryDate.
Proof.
  pose proof (zone_midnight off now) as Hm. cbn in Hm. rewrite Hm.
  unfold localDay.
  assert (Hms : 0 < msPerDay) by reflexivity.
  pose proof (Z.div_mod (entryDate + off) msPerDay ltac:(lia)) as Hd.
  pose proof (Z.mod_pos_bound (entryDate + off) msPerDay Hms) as Hr.
  split; intros H; nia.
Qed.

(** X19. The smart selection takes the food, symptom and stool logs
    whose local calendar date is today or one of the thirteen days before,
    and every such log of a later date as well; the message announces a
    selection exactly when the selection is not empty. *)
Theorem smart_selection_window (now : Z) (logEntries : list LogEntry) :
  (forall id,
     id ∈ fst (handleSmartSelectLogs off now logEntries)
     <-> exists entry entryDate,
           entry ∈ logEntries /\ entryId entry = id
           /\ timestamp entry = Some entryDate
           /\ localDay off now - 13 <= localDay off entryDate
           /\ selectableType (logType entry))
  /\ (snd (handleSmartSelectLogs off now logEntries)
      = "Relevant logs from the past 14 days have been selected for analysis."%string
      <-> fst (handleSmartSelectLogs off now logEntries) <> []).
Proof.
  unfold handleSmartSelectLogs. cbn [fst snd]. split.
  - intros id. rewrite list_elem_of_In, in_map_iff. split.
    + intros (entry & <- & Hin). apply filter_In in Hin as [Hin Hsel].
      apply andb_prop in Hsel as [Hdate Hty].
      destruct (timestamp entry) as [entryDate|] eqn:Hts; [|discriminate Hdate].
      exists entry, entryDate. split; [apply list_elem_of_In, Hin|].
      split; [reflexivity|]. split; [exact Hts|].
      split; [apply since_local_day, Z.leb_le, Hdate|].
      unfold selectableType. rewrite !orb_true_iff, !String.eqb_eq in Hty. tauto.
    + intros (entry & entryDate & Hin & <- & Hts & Hday & Hty).
      exists entry. split; [reflexivity|]. apply filter_In.
      split; [apply list_elem_of_In, Hin|]. rewrite Hts. apply andb_true_intro. split.
      * apply Z.leb_le, since_local_day, Hday.
      * unfold selectableType in Hty. rewrite !orb_true_iff, !String.eqb_eq. tauto.
  - destruct (map entryId _) as [|x l]; cbn; split; intros H;
      solve [discriminate H | reflexivity | contradiction | discriminate].
Qed.

End SmartSelection.

(** * Clock-times from the time input to the scheduler *)

Lemma digit_cases (d : Z) :
  0 <= d < 10 ->
  d = 0 \/ d = 1 \/ d = 2 \/ d = 3 \/ d = 4 \/ d = 5 \/ d = 6 \/ d = 7 \/ d = 8 \/ d = 9.
Proof. lia. Qed.

Lemma digitValue_digitChar (d : Z) : 0 <= d < 10 -> digitValue (digitChar d) = Some d.
Proof.
  intros Hd.
  destruct (digit_cases d Hd) as [->|[->|[->|[->|[->|[->|[->|[->|[->| ->]]]]]]]]];
    reflexivity.
Qed.

Lemma digitChar_not_colon (d : Z) : 0 <= d < 10 -> Ascii.eqb (digitChar d) colon = false.
Proof.
  intros Hd.
  destruct (digit_cases d Hd) as [->|[->|[->|[->|[->|[->|[->|[->|[->| ->]]]]]]]]];
    reflexivity.
Qed.

Lemma toNumber_twoDigits (n : Z) : 0 <= n < 100 -> toNumber (twoDigits n) = Some n.
Proof.
  intros Hn. unfold toNumber, twoDigits. cbn [decimalFrom].
  pose proof (Z.div_mod n 10 ltac:(lia)) as Hdm.
  pose proof (Z.mod_pos_bound n 10 ltac:(lia)) as Hr.
  rewrite !digitValue_digitChar by lia. f_equal. lia.
Qed.

Lemma hoursMinutes_timeText (h mi : Z) :
  0 <= h < 100 -> 0 <= mi < 100 -> hoursMinutes (timeText h mi) = Some (h, mi).
Proof.
  intros Hh Hm.
  pose proof (Z.mod_pos_bound h 10 ltac:(lia)) as Hr.
  pose proof (Z.mod_pos_bound mi 10 ltac:(lia)) as Hr'.
  pose proof (Z.div_mod h 10 ltac:(lia)) as Hd.
  pose proof (Z.div_mod mi 10 ltac:(lia)) as Hd'.
  assert (Hsplit : split colon (timeText h mi) = [twoDigits h; twoDigits mi]).
  { unfold timeText, twoDigits. cbn [split].
    rewrite !digitChar_not_colon by lia.
    replace (Ascii.eqb colon colon) with true by reflexivity. reflexivity. }
  unfold hoursMinutes. rewrite Hsplit, !toNumber_twoDigits by lia. reflexivity.
Qed.

(** X20. A clock-time chosen in a time input is read back by the
    scheduler as that time: the text [HH:mm] parses to the hours and minutes
    it shows, and on a host with a fixed offset from UTC it denotes that
    clock reading on the local date of the moment of the pass. *)
Theorem time_input_read_back (h mi : Z) :
  0 <= h < 24 -> 0 <= mi < 60 ->
  hoursMinutes (timeText h mi) = Some (h, mi)
  /\ forall off now,
       exists medDateTime,
         atClockTime (host := zoneHost off) now (timeText h mi) = Some medDateTime
         /\ localDay off medDateTime = localDay off now
         /\ (medDateTime + off) mod msPerDay = h * msPerHour + mi * msPerMinute.
Proof.
  intros Hh Hm.
  assert (Hparse : hoursMinutes (timeText h mi) = Some (h, mi))
    by (apply hoursMinutes_timeText; lia).
  split; [exact Hparse|]. intros off now.
  exists (localDay off now * msPerDay - off + h * msPerHour + mi * msPerMinute).
  assert (Hin : 0 <= h * msPerHour + mi * msPerMinute < msPerDay)
    by (unfold msPerHour, msPerMinute, msPerDay; lia).
  split; [|split].
  - unfold atClockTime. rewrite Hparse. f_equal. cbn. unfold zoneSetHours, localDay.
    pose proof (Z.div_mod (now + off) msPerDay ltac:(discriminate)). lia.
  - unfold localDay at 1. symmetry.
    apply Z.div_unique with (r := h * msPerHour + mi * msPerMinute); lia.
  - symmetry. apply Z.mod_unique with (q := localDay off now); lia.
Qed.

Lemma time_input_read_back_witness :
  hoursMinutes (timeText 21 30) = Some (21, 30).
Proof. apply (proj1 (time_input_read_back 21 30 ltac:(lia) ltac:(lia))). Defined.

(** * Logs of today in the chart *)

Section ChartOfTheWeek.
Variable off : Z.

Lemma dateString_back (now i : Z) :
  dateString off now i = dateString off now 0 - i.
Proof.
  unfold dateString, todayKeyOf. rewrite Z.mul_0_l, Z.sub_0_r.
  replace (zoneSetHours off now 0 0 - i * msPerDay)
    with (zoneSetHours off now 0 0 + - i * msPerDay) by lia.
  rewrite Z.div_add by discriminate. lia.
Qed.

Lemma charted_iff (now : Z) (logEntries : list LogEntry) (entry : LogEntry) :
  charted off now logEntries entry
  <-> entry ∈ logEntries
      /\ dateString off now 0 - 6 <= date entry <= dateString off now 0.
Proof.
  unfold charted, chartLogs. split.
  - intros (column & Hcol & Hin).
    apply list_elem_of_fmap in Hcol as (i & -> & Hi).
    apply list_elem_of_fmap in Hi as (k & -> & Hk).
    apply list_elem_of_In, in_seq in Hk.
    apply list_elem_of_In, filter_In in Hin as [Hin Hd].
    apply Z.eqb_eq in Hd. rewrite dateString_back in Hd.
    split; [apply list_elem_of_In, Hin|]. unfold DAYS_TO_SHOW in *. lia.
  - intros [Hin Hd].
    exists (logsForDay off now (dateString off now 0 - date entry) logEntries). split.
    + apply list_elem_of_fmap. exists (dateString off now 0 - date entry).
      split; [reflexivity|]. apply list_elem_of_fmap.
      exists (Z.to_nat (6 - (dateString off now 0 - date entry))). split.
      * unfold DAYS_TO_SHOW. lia.
      * apply list_elem_of_In, in_seq. unfold DAYS_TO_SHOW. lia.
    + apply list_elem_of_In, filter_In. split; [apply list_elem_of_In, Hin|].
      apply Z.eqb_eq. rewrite dateString_back. lia.
Qed.

(** X21. A log saved today is in the chart of the week exactly when
    the UTC date has not changed between the local midnight and the moment
    of the log.  At UTC it always is.  East of Greenwich, [off] ahead of
    UTC, only the logs of the first [off] of the local day are; west of
    Greenwich, only those before the last [-off] of the local day. *)
Theorem todays_log_in_chart (now logTimestamp : Z) (id logType : string)
  (logEntries : list LogEntry) :
  - msPerDay < off < msPerDay ->
  localDay off logTimestamp = localDay off now ->
  savedLogEntry id logTimestamp logType ∈ logEntries ->
  (charted off now logEntries (savedLogEntry id logTimestamp logType)
   <-> todayKeyOf logTimestamp = todayKeyOf (zoneSetHours off now 0 0))
  /\ (off = 0 -> charted off now logEntries (savedLogEntry id logTimestamp logType))
  /\ (0 < off ->
      (charted off now logEntries (savedLogEntry id logTimestamp logType)
       <-> localTimeOfDay off logTimestamp < off))
  /\ (off < 0 ->
      (charted off now logEntries (savedLogEntry id logTimestamp logType)
       <-> localTimeOfDay off logTimestamp < msPerDay + off)).
Proof.
  intros Hoff Hday Hin.
  assert (Hms : msPerDay = 86400000) by reflexivity.
  pose proof (zone_midnight off now) as Hm. cbn in Hm.
  assert (H0 : dateString off now 0 = todayKeyOf (zoneSetHours off now 0 0)).
  { unfold dateString. rewrite Z.mul_0_l, Z.sub_0_r. reflexivity. }
  pose proof (Z.div_mod (logTimestamp + off) msPerDay ltac:(lia)) as Hts.
  pose proof (Z.mod_pos_bound (logTimestamp + off) msPerDay ltac:(lia)) as Hr.
  fold (localDay off logTimestamp) in Hts. fold (localTimeOfDay off logTimestamp) in Hts, Hr.
  rewrite Hday in Hts.
  set (L := localDay off now) in *. set (tod := localTimeOfDay off logTimestamp) in *.
  assert (Hkey : forall k, todayKeyOf logTimestamp = k
                           <-> k * msPerDay <= logTimestamp < (k + 1) * msPerDay).
  { intros k. unfold todayKeyOf.
    pose proof (Z.div_mod logTimestamp msPerDay ltac:(lia)).
    pose proof (Z.mod_pos_bound logTimestamp msPerDay ltac:(lia)).
    split; intros; nia. }
  assert (Hkey0 : forall k, todayKeyOf (zoneSetHours off now 0 0) = k
                            <-> k * msPerDay <= L * msPerDay - off < (k + 1) * msPerDay).
  { intros k. rewrite Hm. unfold todayKeyOf.
    pose proof (Z.div_mod (L * msPerDay - off) msPerDay ltac:(lia)).
    pose proof (Z.mod_pos_bound (L * msPerDay - off) msPerDay ltac:(lia)).
    split; intros; nia. }
  assert (Hchart : charted off now logEntries (savedLogEntry id logTimestamp logType)
                   <-> todayKeyOf logTimestamp = todayKeyOf (zoneSetHours off now 0 0)).
  { rewrite charted_iff, H0. cbn [date savedLogEntry].
    pose proof (proj1 (Hkey _) eq_refl) as Hk.
    pose proof (proj1 (Hkey0 _) eq_refl) as Hk0.
    split; [intros [_ Hd]; nia|intros ->; split; [exact Hin|lia]]. }
  split; [exact Hchart|]. split; [|split].
  - intros Hz.
    assert (E : todayKeyOf (zoneSetHours off now 0 0) = L) by (apply Hkey0; lia).
    apply Hchart. rewrite E. apply Hkey. lia.
  - intros Hpos. rewrite Hchart. split.
    + intros E. symmetry in E. apply Hkey0 in E. pose proof (proj1 (Hkey _) eq_refl). nia.
    + intros Hlt.
      assert (E : todayKeyOf (zoneSetHours off now 0 0) = L - 1) by (apply Hkey0; lia).
      rewrite E. apply Hkey. lia.
  - intros Hneg. rewrite Hchart. split.
    + intros E. symmetry in E. apply Hkey0 in E. pose proof (proj1 (Hkey _) eq_refl). nia.
    + intros Hlt.
      assert (E : todayKeyOf (zoneSetHours off now 0 0) = L) by (apply Hkey0; lia).
      rewrite E. apply Hkey. lia.
Qed.

End ChartOfTheWeek.

(** ** The further properties at work on the UTC host *)

(** Permission withheld all morning: the 09:00 slot is armed at 08:30 and
    its timer fires at 10:00, the untimed supplement is delivered; nothing
    is shown. *)
Lemma no_notification_without_permission_witness :
  Forall withoutPermission [deliveryWith [untimedMed] false 8 30; fireWithout 10 0 1]
  /\ notifications
       (run (host := utcHost) [deliveryWith [untimedMed] false 8 30; fireWithout 10 0 1]
          (mount ∅))
     = notifications (mount ∅)
  /\ notifiedGeneralMeds
       (run (host := utcHost) [deliveryWith [untimedMed] false 8 30; fireWithout 10 0 1]
          (mount ∅))
     ⊆ notifiedGeneralMeds (mount ∅).
Proof.
  assert (H : Forall withoutPermission
                [deliveryWith [untimedMed] false 8 30; fireWithout 10 0 1])
    by (repeat (apply List.Forall_cons; [reflexivity|]); apply List.Forall_nil).
  split; [exact H|].
  exact (no_notification_without_permission (host := utcHost)
           [deliveryWith [untimedMed] false 8 30; fireWithout 10 0 1] (mount ∅) H).
Defined.

Lemma teardown_cancels_every_timer_witness :
  pendingTimeouts (effectCleanup (run (host := utcHost) [deliveryAt 9 30] (mount ∅))) = ∅
  /\ run (host := utcHost) [fireAt 10 0 1]
       (effectCleanup (run (host := utcHost) [deliveryAt 9 30] (mount ∅)))
     = effectCleanup (run (host := utcHost) [deliveryAt 9 30] (mount ∅))
  /\ notifications
       (run (host := utcHost) [fireAt 10 0 1]
          (effectCleanup (run (host := utcHost) [deliveryAt 9 30] (mount ∅))))
     = notifications (run (host := utcHost) [deliveryAt 9 30] (mount ∅)).
Proof.
  apply (teardown_cancels_every_timer (host := utcHost) ∅ [deliveryAt 9 30] [fireAt 10 0 1]).
  - apply List.Forall_cons; [apply deliveryAt_wellKeyed|apply List.Forall_nil].
  - apply List.Forall_cons; [exists 1%positive; reflexivity|apply List.Forall_nil].
Defined.

Lemma general_reminder_at_most_once_witness :
  (generalCount "S5"
     (notifications
        (run (host := utcHost)
           [deliveryWith [untimedMed] true 9 30; deliveryWith [untimedMed] true 9 45]
           (mount ∅))) <= 1)%nat.
Proof.
  apply (general_reminder_at_most_once (host := utcHost) ∅ 20000
           [deliveryWith [untimedMed] true 9 30; deliveryWith [untimedMed] true 9 45] "S5").
  repeat (apply List.Forall_cons; [vm_compute; reflexivity|]). apply List.Forall_nil.
Defined.

Lemma general_reminder_exactly_once_witness :
  generalCount (id (med {| med := untimedMed; times := None |}))
    (notifications
       (run (host := utcHost)
          ([deliveryWith [untimedMed] false 9 0]
           ++ {| clock := scenarioAt 9 30; permissionGranted := true;
                 event := MedsDelivered (Some medM) [untimedMed] |}
              :: [deliveryWith [untimedMed] true 9 45; fireAt 10 0 3])
          (mount ∅))) = 1%nat.
Proof.
  apply (general_reminder_exactly_once (host := utcHost) ∅ 20000 (scenarioAt 9 30)
           [deliveryWith [untimedMed] false 9 0]
           [deliveryWith [untimedMed] true 9 45; fireAt 10 0 3]
           (Some medM) [untimedMed] {| med := untimedMed; times := None |}).
  - repeat (apply List.Forall_cons; [vm_compute; reflexivity|]). apply List.Forall_nil.
  - repeat (apply List.Forall_cons; [vm_compute; reflexivity|]). apply List.Forall_nil.
  - vm_compute. reflexivity.
  - apply list_elem_of_further, list_elem_of_here.
  - left. reflexivity.
Defined.


Lemma urgent_only_after_first_reminder_witness :
  escalated
    (notifications
       (run (host := utcHost) (deliveryAt 9 30 :: [fireAt 10 0 1; fireAt 11 0 2]) (mount ∅))).
Proof.
  apply (urgent_only_after_first_reminder (host := utcHost) ∅ 20000
           (deliveryAt 9 30) [fireAt 10 0 1; fireAt 11 0 2]).
  - exact I.
  - repeat (apply List.Forall_cons; [vm_compute; reflexivity|]). apply List.Forall_nil.
  - repeat (apply List.Forall_cons; [reflexivity|]). apply List.Forall_nil.
Defined.

(** [M] delivered at 09:30: the timer of its 09:00 slot is due at 10:00. *)
Lemma reminders_on_time_witness :
  exists h1,
    pendingTimeouts
      (step (host := utcHost)
         {| clock := scenarioAt 9 30; permissionGranted := true;
            event := MedsDelivered (Some medM) [] |}
         (run (host := utcHost) [] (mount ∅)))
      !! h1
    = Some (firstTimerOf (todayKeyOf (scenarioAt 9 30)) (med dueM) slot0900 (scenarioAt 9 0)).
Proof.
  assert (H1 : dueM ∈ todaysMeds (host := utcHost) (scenarioAt 9 30) (Some medM) [])
    by apply list_elem_of_here.
  assert (H2 : times dueM = Some [slot0900]) by reflexivity.
  assert (H3 : slot0900 ∈ [slot0900]) by apply list_elem_of_here.
  assert (H4 : slotArmed (host := utcHost) (scenarioAt 9 30)
                 (storedTaken (run (host := utcHost) [] (mount ∅))
                    (todayKeyOf (scenarioAt 9 30)))
                 (med dueM) slot0900 = true)
    by (vm_compute; reflexivity).
  assert (H5 : atClockTime (host := utcHost) (scenarioAt 9 30) (time slot0900)
               = Some (scenarioAt 9 0))
    by (vm_compute; reflexivity).
  destruct (reminders_on_time (host := utcHost) ∅ [] (scenarioAt 9 30) true
              (Some medM) [] dueM [slot0900] slot0900 (scenarioAt 9 0) H1 H2 H3 H4 H5)
    as (h1 & Hp & _).
  exists h1. exact Hp.
Defined.


(** ** The further properties of the calculus, the provisioning and the forms at work *)

Lemma recurrence_in_fixed_offset_zone_witness :
  isDue (host := zoneHost utcMinus5) weeklyMed (scenarioAt 12 0) = true
  <-> (localDay utcMinus5 (scenarioAt 12 0) - localDay utcMinus5 scenarioDay) mod 7 = 0.
Proof.
  apply (proj1 (proj2 (recurrence_in_fixed_offset_zone utcMinus5 weeklyMed scenarioDay
                         (scenarioAt 12 0) eq_refl))).
  reflexivity.
Defined.

(** Entered as Friday 2024-10-04 and read five hours west of Greenwich, the
    weekly medication is not due on that Friday. *)
Lemma start_date_anchor_by_zone_witness :
  isDue (host := zoneHost utcMinus5) weeklyMed (scenarioAt 12 0) = false.
Proof.
  assert (Hk : AnchoredKind (frequency weeklyMed)) by apply AnchoredWeekly.
  assert (Hm : utcMidnight scenarioDay) by reflexivity.
  assert (Hoff : - msPerDay <= utcMinus5 < 0)
    by (unfold utcMinus5, msPerDay, msPerHour; lia).
  apply (proj1 (proj2 (start_date_anchor_by_zone utcMinus5 weeklyMed scenarioDay
                         (scenarioAt 12 0) Hk eq_refl Hm) Hoff)).
  vm_compute. reflexivity.
Defined.

Lemma packing_list_covers_trip_witness :
  dueDays (host := zoneHost 0) medM scenarioDay
    (tripDurationDays scenarioDay (scenarioDay + 4 * msPerDay))
  * requiresSpecificTimesCount (frequency medM) + 2
  <= primaryMedNeeded
       (travelDoses (Some scenarioDay) (Some (scenarioDay + 4 * msPerDay)) (Some medM)
          ([] ++ everyOtherDayMed :: [])).
Proof.
  assert (Hnm : name everyOtherDayMed <> "__proto__"%string) by discriminate.
  assert (Hlast : forall other, other ∈ @nil Medication ->
                                name other <> name everyOtherDayMed)
    by (intros other Hin; apply elem_of_nil in Hin; contradiction).
  apply (proj1 (proj1 (packing_list_covers_trip 0 scenarioDay (scenarioDay + 4 * msPerDay)
                         scenarioDay medM [] [] everyOtherDayMed Hnm Hlast))).
Defined.

Lemma travel_dates_unordered_witness :
  tripDurationDays (scenarioDay + 2 * msPerDay) scenarioDay
  = Z.abs (scenarioDay / msPerDay - (scenarioDay + 2 * msPerDay) / msPerDay) + 1.
Proof.
  apply (proj2 (proj2 (travel_dates_unordered (scenarioDay + 2 * msPerDay) scenarioDay
                         None []))); reflexivity.
Defined.

Lemma supplement_entry_is_last_of_name_witness :
  supplementsNeeded
    (travelDoses (Some scenarioDay) (Some (scenarioDay + 4 * msPerDay)) None
       ([everyOtherDayMed] ++ ironWeekly :: [weeklyMed]))
    !! name ironWeekly
  = Some (calculateDosesNeeded (frequency ironWeekly)
            (tripDurationDays scenarioDay (scenarioDay + 4 * msPerDay))).
Proof.
  assert (Hlast : forall other, other ∈ [weeklyMed] -> name other <> name ironWeekly).
  { intros other Hin. apply list_elem_of_singleton in Hin. subst other. discriminate. }
  apply (proj1 (supplement_entry_is_last_of_name scenarioDay (scenarioDay + 4 * msPerDay)
                  None [everyOtherDayMed] [weeklyMed] ironWeekly Hlast)).
  discriminate.
Defined.

Lemma submit_ignores_times_witness :
  Form.handleSaveIbdMed (fun time => time) true weeklyForm = Form.WriteDocument weeklyForm.
Proof.
  apply (proj2 (proj1 (submit_ignores_times (fun time => time) true weeklyForm))).
  refine (conj _ (conj _ (conj _ (conj _ (conj _ _)))));
    [discriminate|discriminate|discriminate|discriminate|intros _; discriminate|reflexivity].
Defined.

Lemma accepted_form_never_warns_witness :
  warnings (isMedicationDueToday (host := utcHost) weeklyMed (scenarioAt 12 0)) = [].
Proof.
  apply (accepted_form_never_warns (host := utcHost) (fun time => time) true weeklyForm
           weeklyMed (scenarioAt 12 0)).
  - left. reflexivity.
  - reflexivity.
  - intros _. exists scenarioDay. reflexivity.
Defined.


Lemma handleMarkTaken_idempotent_witness :
  handleMarkTaken (scenarioAt 9 50) "M" "09:00"
    (handleMarkTaken (scenarioAt 9 40) "M" "09:00" armedState)
  = handleMarkTaken (scenarioAt 9 40) "M" "09:00" armedState.
Proof.
  apply (handleMarkTaken_idempotent (scenarioAt 9 40) (scenarioAt 9 50) "M" "09:00" armedState).
  vm_compute. reflexivity.
Defined.

(** Marked at 09:40, delivered again at 10:30, after the scheduled
    time, and rendered after a timer was asked to fire on the next date:
    the slot still shows as taken. *)
Lemma taken_stays_displayed_witness :
  slotView
    (takenMedsState
       (run (host := utcHost) [deliveryAt 10 30; fireAt 25 0 1]
          (handleMarkTaken (scenarioAt 9 40) "M" (time slot0900) armedState)))
    "M" slot0900 (Some (scenarioAt 33 0)) (scenarioAt 25 0)
  = ShowsTaken.
Proof.
  apply (taken_stays_displayed (host := utcHost) (scenarioAt 9 40) "M" slot0900 armedState
           [deliveryAt 10 30; fireAt 25 0 1] (Some (scenarioAt 33 0)) (scenarioAt 25 0)).
  apply List.Forall_cons; [vm_compute; reflexivity|].
  apply List.Forall_cons; [exact I|apply List.Forall_nil].
Defined.

Lemma toggle_flips_one_log_witness :
  NoDup (toggleLogSelection "log2" ["log1"; "log2"]%string).
Proof.
  apply (proj1 (proj2 (toggle_flips_one_log "log2" ["log1"; "log2"]%string []))).
  apply NoDup_cons. split; [|apply NoDup_singleton].
  intros H. apply list_elem_of_singleton in H. discriminate H.
Defined.


(** Five hours west of Greenwich, a log saved at 20:00 local time (01:00
    UTC of the next date) is not in the chart of that evening. *)
Lemma todays_log_in_chart_witness :
  charted utcMinus5 (scenarioAt 25 30)
    [savedLogEntry "log1" (scenarioAt 25 0) "food"] (savedLogEntry "log1" (scenarioAt 25 0) "food")
  <-> localTimeOfDay utcMinus5 (scenarioAt 25 0) < msPerDay + utcMinus5.
Proof.
  assert (Hoff : - msPerDay < utcMinus5 < msPerDay)
    by (unfold utcMinus5, msPerDay, msPerHour; lia).
  assert (Hday : localDay utcMinus5 (scenarioAt 25 0) = localDay utcMinus5 (scenarioAt 25 30))
    by reflexivity.
  assert (Hin : savedLogEntry "log1" (scenarioAt 25 0) "food"
                ∈ [savedLogEntry "log1" (scenarioAt 25 0) "food"])
    by apply list_elem_of_here.
  assert (Hneg : utcMinus5 < 0) by reflexivity.
  apply (proj2 (proj2 (proj2 (todays_log_in_chart utcMinus5 (scenarioAt 25 30)
                                (scenarioAt 25 0) "log1" "food"
                                [savedLogEntry "log1" (scenarioAt 25 0) "food"]
                                Hoff Hday Hin))) Hneg).
Defined.

(** [M] marked taken at 23:30 for the 09:00 slot of the next morning and
    delivered again at 00:30 UTC: the slot is armed for 10:00. *)
Lemma acknowledgement_forgotten_on_another_date_witness :
  exists h1,
    pendingTimeouts
      (step (host := utcHost)
         {| clock := scenarioAt 24 30; permissionGranted := true;
            event := MedsDelivered (Some medM) [] |}
         (handleMarkTaken (scenarioAt 23 30) "M" "09:00"
            (run (host := utcHost) [] (mount ∅))))
      !! h1
    = Some (firstTimerOf (todayKeyOf (scenarioAt 24 30)) (med dueMAhead) slot0900Ahead
              (scenarioAt 33 0)).
Proof.
  assert (H0 : todayKeyOf (scenarioAt 24 30) <> todayKeyOf (scenarioAt 23 30))
    by (vm_compute; discriminate).
  assert (H1 : dueMAhead ∈ todaysMeds (host := utcHost) (scenarioAt 24 30) (Some medM) [])
    by apply list_elem_of_here.
  assert (H2 : times dueMAhead = Some [slot0900Ahead]) by reflexivity.
  assert (H3 : slot0900Ahead ∈ [slot0900Ahead]) by apply list_elem_of_here.
  assert (H4 : slotKey (med dueMAhead) slot0900Ahead = medIdentifierOf "M" "09:00")
    by reflexivity.
  assert (H5 : slotArmed (host := utcHost) (scenarioAt 24 30)
                 (storedTaken (run (host := utcHost) [] (mount ∅))
                    (todayKeyOf (scenarioAt 24 30)))
                 (med dueMAhead) slot0900Ahead = true)
    by (vm_compute; reflexivity).
  assert (H6 : atClockTime (host := utcHost) (scenarioAt 24 30) (time slot0900Ahead)
               = Some (scenarioAt 33 0))
    by (vm_compute; reflexivity).
  destruct (acknowledgement_forgotten_on_another_date (host := utcHost) ∅ []
              (scenarioAt 23 30) "M" "09:00" (scenarioAt 24 30) true (Some medM) []
              dueMAhead [slot0900Ahead] slot0900Ahead (scenarioAt 33 0)
              H0 H1 H2 H3 H4 H5 H6) as (_ & h1 & Hp & _).
  exists h1. exact Hp.
Defined.


(** A weekly supplement without a start date is delivered alone: nothing
    is scheduled for it. *)
Lemma nothing_due_nothing_scheduled_witness :
  notificationTimers
    (step (host := utcHost)
       {| clock := scenarioAt 9 45; permissionGranted := true;
          event := MedsDelivered None [unanchoredMed] |} armedState) = ∅.
Proof.
  assert (Hmain : forall m, @None Medication = Some m ->
                            isDue (host := utcHost) m (scenarioAt 9 45) = false)
    by (intros m H; discriminate H).
  assert (Hsups : Forall (fun m => isDue (host := utcHost) m (scenarioAt 9 45) = false)
                    [unanchoredMed])
    by (apply List.Forall_cons; [vm_compute; reflexivity|apply List.Forall_nil]).
  apply (proj1 (proj2 (nothing_due_nothing_scheduled (host := utcHost) (scenarioAt 9 45) true
                         None [unanchoredMed] armedState Hmain Hsups))).
Defined.

(** ** The passes at work *)

(** Armed at 09:30, reminded at 10:00 and delivered again at 10:05: the
    pass arms nothing for the 09:00 slot and cancels the escalated timer,
    so that whatever is fired at 11:00 no timer of the slot is pending. *)
Lemma past_first_reminder_arms_nothing_witness :
  quietFor (slotKey (med dueM) slot0900)
    (run (host := utcHost) [fireAt 11 0 2; fireAt 11 0 1]
       (run (host := utcHost)
          ([deliveryAt 9 30; fireAt 10 0 1]
           ++ [{| clock := scenarioAt 10 5; permissionGranted := true;
                  event := MedsDelivered (Some medM) [] |}])
          (mount ∅))).
Proof.
  assert (H1 : dueM ∈ todaysMeds (host := utcHost) (scenarioAt 10 5) (Some medM) [])
    by apply list_elem_of_here.
  assert (H2 : times dueM = Some [slot0900]) by reflexivity.
  assert (H3 : slot0900 ∈ [slot0900]) by apply list_elem_of_here.
  assert (H4 : atClockTime (host := utcHost) (scenarioAt 10 5) (time slot0900)
               = Some (scenarioAt 9 0))
    by (vm_compute; reflexivity).
  assert (H5 : scenarioAt 9 0 + 60 * msPerMinute <= scenarioAt 10 5)
    by (vm_compute; discriminate).
  assert (H6 : Forall (wellKeyedOccurrence (host := utcHost))
                 ([deliveryAt 9 30; fireAt 10 0 1]
                  ++ [{| clock := scenarioAt 10 5; permissionGranted := true;
                         event := MedsDelivered (Some medM) [] |}])).
  { repeat apply List.Forall_cons; try apply List.Forall_nil.
    - apply deliveryAt_wellKeyed.
    - exact I.
    - apply (deliveryAt_wellKeyed 10 5). }
  assert (H7 : Forall betweenPasses [fireAt 11 0 2; fireAt 11 0 1])
    by (repeat apply List.Forall_cons; try apply List.Forall_nil; exact I).
  destruct (past_first_reminder_arms_nothing (host := utcHost) ∅
              [deliveryAt 9 30; fireAt 10 0 1] (scenarioAt 10 5) true (Some medM) []
              dueM [slot0900] slot0900 (scenarioAt 9 0) [fireAt 11 0 2; fireAt 11 0 1]
              H1 H2 H3 H4 H5) as [_ Hrun].
  destruct (Hrun H6 H7) as (_ & _ & _ & Hq & _).
  exact Hq.
Defined.

